(** * OHLCV fetch pipeline: timeframe policy, row normalizer, pagination, cache

    A shallow embedding of [src/data.py] (with the constants of
    [src/config.py]) and the properties its specification states about it.

    Conventions of the model.
    - Python [str] values are [string]s read as sequences of code points
      below 256; the statements on labels are about ASCII labels.
    - [datetime] instants are integer microseconds since the Unix epoch,
      [timedelta]s integer microseconds, the pagination cursor an integer
      number of milliseconds, a pandas [datetime64[ns, UTC]] timestamp an
      integer number of nanoseconds.  Prices and volumes are rationals,
      infinities or NaN.
    - The floats the program computes itself, [ms / 1000] and
      [start.timestamp() * 1000], are rounded as binary64 rounds them
      ([F64]); [datetime] and [timedelta] arithmetic is on integers, as in
      Python.
    - A Python exception is a value of [exn]; code that may raise returns a
      [result].  The exceptions of the library calls the program makes are
      modelled where the arguments decide them: the ranges of [timedelta],
      [datetime] and [datetime64[ns]], [int] on a digit that is not
      decimal or on more than 4300 digits, [time.sleep] on a negative or
      an oversized pause, [os.makedirs] on the empty name.
    - The exchange and the wall clock are oracles ([environment]); the cache
      files, the requests sent and the clock readings made are explicit
      state ([world]).  A cache file is represented by the table it reads
      as; the text of the file, where reading it back is at stake, is the
      subject of [Csv].
    - [sort_values] is a sorted rearrangement for the statements that hold
      of any sort, and numpy's quicksort ([NumPy]) where the order of rows
      with equal timestamps is at stake.
    - The [while True] loop takes fuel; a run that needs more is [None].
    - The [debug] flag only prints and is left out. *)

From Stdlib Require Import ZArith QArith Ascii String List Sorted Permutation.
From Stdlib Require Import DecimalString DecimalPos DecimalN.
From stdpp Require Import base tactics option list gmap strings sorting.

Local Open Scope string_scope.
Local Open Scope Z_scope.

(** ** Exceptions and results *)

Inductive exn : Type :=
  | ValueError
  | TypeError
  | OverflowError
  | OSError
  | OutOfBoundsDatetime
  | FileNotFoundError
  | ExchangeError (msg : string).

Inductive result (A : Type) : Type :=
  | Ok (a : A)
  | Raise (e : exn).
Arguments Ok {A} a.
Arguments Raise {A} e.

#[global] Instance result_ret : MRet result := fun _ a => Ok a.
#[global] Instance result_bind : MBind result := fun _ _ f r =>
  match r with
  | Ok a => f a
  | Raise e => Raise e
  end.
#[global] Instance result_fmap : FMap result := fun _ _ f r =>
  match r with
  | Ok a => Ok (f a)
  | Raise e => Raise e
  end.

Definition is_Ok {A} (r : result A) : Prop := exists a, r = Ok a.

(** ** Python string operations used by the timeframe policy *)

Module PyStr.

Definition code (c : ascii) : Z := Z.of_N (N_of_ascii c).

(** [c] is one of the characters 0 to 9. *)
Definition is_decimal (c : ascii) : bool :=
  (48 <=? code c) && (code c <=? 57).

(** [str.isdigit] holds of the decimal digits and, below code point 256,
    of the superscript digits two, three and one. *)
Definition is_digit_char (c : ascii) : bool :=
  is_decimal c || (code c =? 178) || (code c =? 179) || (code c =? 185).

Fixpoint all_chars (p : ascii -> bool) (s : string) : bool :=
  match s with
  | EmptyString => true
  | String c s' => p c && all_chars p s'
  end.

(** [s.isdigit()]: every character is a digit and there is at least one. *)
Definition isdigit (s : string) : bool :=
  match s with
  | EmptyString => false
  | _ => all_chars is_digit_char s
  end.

(** [s.endswith(c)] for a one-character suffix. *)
Fixpoint endswith (s : string) (c : ascii) : bool :=
  match s with
  | EmptyString => false
  | String a EmptyString => Ascii.eqb a c
  | String _ s' => endswith s' c
  end.

(** [s[:-1]]. *)
Fixpoint drop_last (s : string) : string :=
  match s with
  | EmptyString => EmptyString
  | String _ EmptyString => EmptyString
  | String a s' => String a (drop_last s')
  end.

Fixpoint int_digits (acc : Z) (s : string) : result Z :=
  match s with
  | EmptyString => Ok acc
  | String c s' =>
      if is_decimal c then int_digits (acc * 10 + (code c - 48)) s'
      else Raise ValueError
  end.

(** The interpreter's cap on the digits of a decimal string
    ([sys.get_int_max_str_digits()], by default). *)
Definition MAX_STR_DIGITS : nat := 4300.

(** [int(s)] on a string that passed [isdigit]: the value of its decimal
    digits; a digit that is not decimal (a superscript) is refused, and so
    is a string of more than [MAX_STR_DIGITS] digits, leading zeros
    counted. *)
Definition int (s : string) : result Z :=
  if (MAX_STR_DIGITS <? String.length s)%nat then Raise ValueError
  else int_digits 0 s.

End PyStr.

(** ** Double-precision floats

    A finite float is represented by the rational it denotes.  [round]
    gives the float nearest to a rational, ties going to the even
    significand: the result of a correctly rounded operation (the true
    division of two integers, the product of two floats) on the exact
    value.  Only magnitudes of the normal range are rounded by the
    program; overflow is checked where it can occur. *)

Module F64.

(** [n / d] rounded to the nearest integer, a half going to the even
    neighbour; [d] is positive. *)
Definition round_half_even (n d : Z) : Z :=
  let q := n `div` d in
  let r := n `mod` d in
  if 2 * r <? d then q
  else if d <? 2 * r then q + 1
  else if Z.even q then q else q + 1.

(** The exponent [e] with [2^e <= n / d < 2^(e+1)], for positive [n] and
    [d]. *)
Definition exponent (n d : Z) : Z :=
  let k := Z.log2 n - Z.log2 d in
  if 0 <=? k
  then (if d * 2 ^ k <=? n then k else k - 1)
  else (if d <=? n * 2 ^ (- k) then k else k - 1).

(** The nearest float: a significand of 53 bits at the exponent of [q]. *)
Definition round (q : Q) : Q :=
  let n := Qnum q in
  let d := Z.pos (Qden q) in
  if n =? 0 then 0%Q
  else
    let a := Z.abs n in
    let s := 52 - exponent a d in
    let r :=
      if 0 <=? s
      then Qmake (round_half_even (a * 2 ^ s) d) (Z.to_pos (2 ^ s))
      else inject_Z (round_half_even a (d * 2 ^ (- s)) * 2 ^ (- s)) in
    if 0 <? n then r else Qopp r.

(** The integer part, toward zero: [int(x)], and the first component of
    [modf]. *)
Definition trunc (x : Q) : Z := Z.quot (Qnum x) (Z.pos (Qden x)).

(** A float rounded to an integer, a half going to the even neighbour. *)
Definition nearest (x : Q) : Z := round_half_even (Qnum x) (Z.pos (Qden x)).

(** Seconds as a float to whole seconds and microseconds, the way
    [datetime.fromtimestamp] splits its argument: [modf], the fraction
    times [1e6] as a float, rounded half to even, then brought into
    [0 .. 999999]. *)
Definition to_timeval (x : Q) : Z * Z :=
  let intpart := trunc x in
  let floatpart := Qminus x (inject_Z intpart) in
  let us := nearest (round (Qmult floatpart (inject_Z 1000000))) in
  if 1000000 <=? us then (intpart + 1, us - 1000000)
  else if us <? 0 then (intpart - 1, us + 1000000)
  else (intpart, us).

End F64.

(** ** [datetime] and [timedelta] *)

Module Dt.

Definition US_PER_SECOND : Z := 1000000.
Definition US_PER_HOUR : Z := 3600 * US_PER_SECOND.
Definition US_PER_DAY : Z := 86400 * US_PER_SECOND.

(** [timedelta] keeps a day count of magnitude at most 999999999. *)
Definition MAX_DELTA_DAYS : Z := 999999999.

Definition timedelta_of_us (us : Z) : result Z :=
  let days := us / US_PER_DAY in
  if (- MAX_DELTA_DAYS <=? days) && (days <=? MAX_DELTA_DAYS)
  then Ok us else Raise OverflowError.

(** [dt.timedelta(hours=h)] and [dt.timedelta(days=d)]. *)
Definition timedelta_hours (h : Z) : result Z := timedelta_of_us (h * US_PER_HOUR).
Definition timedelta_days (d : Z) : result Z := timedelta_of_us (d * US_PER_DAY).

(** First and last representable instants: 0001-01-01T00:00:00 and
    9999-12-31T23:59:59.999999, in microseconds since the epoch. *)
Definition MIN_DATETIME : Z := -62135596800000000.
Definition MAX_DATETIME : Z := 253402300799999999.

Definition in_range (us : Z) : bool :=
  (MIN_DATETIME <=? us) && (us <=? MAX_DATETIME).

(** The same two instants in whole seconds. *)
Definition MIN_SECOND : Z := -62135596800.
Definition MAX_SECOND : Z := 253402300799.

(** From this magnitude on, [x / 1000] is too large for a float and the
    division raises. *)
Definition MAX_DIVIDEND : Z := 1000 * (2 ^ 1024 - 2 ^ 970).

(** The seconds [gmtime] converts (its year is a C [int]), with a 64-bit
    [time_t]. *)
Definition GMTIME_MIN : Z := -67768040609740800.
Definition GMTIME_MAX : Z := 67768036191676799.

(** [datetime.fromtimestamp(ms / 1000, tz=utc)] for an integer [ms]: the
    quotient is a float; its seconds must fit [time_t], then [gmtime],
    then the years 1 to 9999. *)
Definition fromtimestamp_ms (ms : Z) : result Z :=
  if MAX_DIVIDEND <=? Z.abs ms then Raise OverflowError
  else
    let '(sec, us) := F64.to_timeval (F64.round (ms # 1000)) in
    if 2 ^ 63 <? Z.abs sec then Raise OverflowError
    else if (sec <? GMTIME_MIN) || (GMTIME_MAX <? sec) then Raise OSError
    else if (sec <? MIN_SECOND) || (MAX_SECOND <? sec) then Raise ValueError
    else Ok (sec * US_PER_SECOND + us).

(** [d - delta] on an aware datetime. *)
Definition sub (d delta : Z) : result Z :=
  if in_range (d - delta) then Ok (d - delta) else Raise OverflowError.

(** [int(d.timestamp() * 1000)]: the seconds since the epoch as a float
    (the microseconds divided by a million), times 1000 as a float,
    truncated toward 0. *)
Definition timestamp_ms (d : Z) : Z :=
  F64.trunc (F64.round (Qmult (F64.round (d # 1000000)) (inject_Z 1000))).

End Dt.

(** ** Timeframe policy *)

Definition _near_now_delta (timeframe : string) : result Z :=
  if decide (timeframe = "1h") then Dt.timedelta_hours 2
  else if decide (timeframe = "1d") then Dt.timedelta_days 1
  else if PyStr.endswith timeframe "h" && PyStr.isdigit (PyStr.drop_last timeframe) then
    hours ← PyStr.int (PyStr.drop_last timeframe);
    Dt.timedelta_hours (Z.max 2 (hours * 2))
  else if PyStr.endswith timeframe "d" && PyStr.isdigit (PyStr.drop_last timeframe) then
    days ← PyStr.int (PyStr.drop_last timeframe);
    Dt.timedelta_days (Z.max 1 days)
  else Dt.timedelta_hours 2.

(** ** Configuration ([src/config.py]) *)

Module Config.

Definition EXCHANGE_ID : string := "coinbase".
Definition SYMBOL : string := "BTC/USD".
Definition YEARS_OF_HISTORY : Z := 3.
Definition DEFAULT_FETCH_LIMIT : Z := 1000.

Definition MAX_OHLCV_LIMITS : gmap string Z :=
  <["coinbase" := 300]> (<["kraken" := 720]> (<["binance" := 1000]> ∅)).

Definition FETCH_LIMIT : Z :=
  default DEFAULT_FETCH_LIMIT (MAX_OHLCV_LIMITS !! EXCHANGE_ID).

(** 0.2 seconds. *)
Definition SLEEP_SECONDS : Q := 2 # 10.

Definition RAW_DATA_DIR : string := "data/raw".

End Config.

(** ** Data model *)

(** A float64 value: a finite number, an infinity or NaN. *)
Inductive num : Type :=
  | Fin (q : Q)
  | PInf
  | NInf
  | NaN.

(** A value found in an OHLCV position of a raw row. *)
Inductive cell : Type :=
  | VInt (z : Z)
  | VFloat (x : num)
  | VStr (s : string)
  | VNone.

(** A raw CCXT row [[ms, open, high, low, close, volume]]; the timestamp is
    an integer number of milliseconds, or [None]. *)
Record raw_row : Type := RawRow {
  raw_ts : option Z;
  raw_open : cell;
  raw_high : cell;
  raw_low : cell;
  raw_close : cell;
  raw_volume : cell
}.

(** A row of the data frame after the conversions and before [dropna];
    [None] in the timestamp column is [NaT]. *)
Record frame_row : Type := FrameRow {
  f_timestamp : option Z;
  f_open : num;
  f_high : num;
  f_low : num;
  f_close : num;
  f_volume : num
}.

(** A row of the returned table: timestamp in nanoseconds since the epoch. *)
Record candle : Type := Candle {
  timestamp : Z;
  open : num;
  high : num;
  low : num;
  close : num;
  volume : num
}.

Definition is_nan (x : num) : bool :=
  match x with
  | NaN => true
  | _ => false
  end.

Definition finite (x : num) : Prop :=
  match x with
  | Fin _ => True
  | _ => False
  end.

Definition nonneg_finite (x : num) : Prop :=
  match x with
  | Fin q => (0 <= q)%Q
  | _ => False
  end.

(** ** The pandas operations used by the program

    [sort_values("timestamp")] runs with the default [kind="quicksort"],
    which promises a sorted rearrangement and says nothing on the order of
    rows with equal keys; the parser behind [to_numeric] is floating-point
    code.  Both are components of the library, constrained here by their
    contract; the sort the library runs today is [numpy_sort_values]
    further down. *)

Definition by_timestamp (a b : candle) : Prop := timestamp a <= timestamp b.

Record pandas : Type := Pandas {
  sort_values : list candle -> list candle;
  sort_values_perm : forall df, Permutation (sort_values df) df;
  sort_values_sorted : forall df, Sorted by_timestamp (sort_values df);
  (** [to_numeric(s, errors="coerce")] on a [str]: [NaN] when [s] does not
      parse. *)
  numeric_of_str : string -> num
}.

Module Pd.

Definition NS_PER_MS : Z := 1000000.

(** Largest magnitude of a [datetime64[ns]] value: 2^63 - 1. *)
Definition MAX_NS : Z := 9223372036854775807.

(** [pd.to_datetime(ms, unit="ms", utc=True)] on an integer, at the
    nanosecond resolution of pandas 1 and 2 (a pandas that keeps the
    millisecond unit accepts instants beyond [MAX_NS] as well; the
    statements on the normalizer are about rows within it, see
    [representable]). *)
Definition to_datetime_ms (ms : Z) : result Z :=
  let ns := ms * NS_PER_MS in
  if (- MAX_NS <=? ns) && (ns <=? MAX_NS) then Ok ns
  else Raise OutOfBoundsDatetime.

(** The same on a column entry: [None] becomes [NaT]. *)
Definition to_datetime_entry (x : option Z) : result (option Z) :=
  match x with
  | None => Ok None
  | Some ms => Some <$> to_datetime_ms ms
  end.

(** [pd.to_numeric(x, errors="coerce")] on a column entry. *)
Definition to_numeric (pd : pandas) (x : cell) : num :=
  match x with
  | VInt z => Fin (inject_Z z)
  | VFloat v => v
  | VStr s => numeric_of_str pd s
  | VNone => NaN
  end.

(** [df.dropna()]: a row with [NaT] or a [NaN] in any column goes. *)
Definition complete (r : frame_row) : option candle :=
  match f_timestamp r with
  | None => None
  | Some t =>
      if is_nan (f_open r) || is_nan (f_high r) || is_nan (f_low r)
         || is_nan (f_close r) || is_nan (f_volume r)
      then None
      else Some (Candle t (f_open r) (f_high r) (f_low r) (f_close r) (f_volume r))
  end.

Definition dropna (df : list frame_row) : list candle := omap complete df.

(** [df.drop_duplicates(subset=["timestamp"])], [keep="first"]: a row
    whose timestamp was seen in an earlier row goes. *)
Fixpoint drop_duplicates_seen (seen : gset Z) (df : list candle) : list candle :=
  match df with
  | [] => []
  | r :: df' =>
      if decide (timestamp r ∈ seen) then drop_duplicates_seen seen df'
      else r :: drop_duplicates_seen ({[timestamp r]} ∪ seen) df'
  end.

Definition drop_duplicates (df : list candle) : list candle :=
  drop_duplicates_seen ∅ df.

End Pd.

(** ** Row normalizer *)

(** Lines 1 to 3 of the body, row by row: the frame is built, the
    millisecond column becomes [timestamp], the five value columns go
    through [to_numeric]. *)
Definition convert_row (pd : pandas) (r : raw_row) : result frame_row :=
  ts ← Pd.to_datetime_entry (raw_ts r);
  Ok (FrameRow ts
        (Pd.to_numeric pd (raw_open r)) (Pd.to_numeric pd (raw_high r))
        (Pd.to_numeric pd (raw_low r)) (Pd.to_numeric pd (raw_close r))
        (Pd.to_numeric pd (raw_volume r))).

Fixpoint convert_rows (pd : pandas) (ohlcv : list raw_row) : result (list frame_row) :=
  match ohlcv with
  | [] => Ok []
  | r :: rs =>
      fr ← convert_row pd r;
      frs ← convert_rows pd rs;
      Ok (fr :: frs)
  end.

Definition _ohlcv_to_df (pd : pandas) (ohlcv : list raw_row) : result (list candle) :=
  df ← convert_rows pd ohlcv;
  let df := Pd.dropna df in
  Ok (Pd.drop_duplicates (sort_values pd df)).

(** ** The outside world *)

(** The oracles: the exchange answers its [k]-th request (counted from 0)
    with a page or an exception; the clock gives the instant returned by
    the [k]-th call of [datetime.now]. *)
Record environment : Type := Environment {
  fetch_ohlcv : nat -> string -> string -> Z -> Z -> result (list raw_row);
  now : nat -> Z
}.

(** The state the program acts on: the cache files, the cursors of the
    requests sent to the exchange so far, and the number of clock readings
    so far.  A CSV file is represented by a table: the table it reads as,
    where the program finds the file, and the table handed to [to_csv],
    where the program writes it.  The two agree for the tables whose text
    [to_datetime] reads back ([cache_load_reads_back] below), which C8
    shows are not all tables. *)
Record world : Type := World {
  files : gmap string (list candle);
  requests : list Z;
  clock_reads : nat
}.

Definition log_request (since : Z) (w : world) : world :=
  World (files w) (requests w ++ [since])%list (clock_reads w).

Definition tick (w : world) : world :=
  World (files w) (requests w) (S (clock_reads w)).

Definition write_file (path : string) (df : list candle) (w : world) : world :=
  World (<[path := df]> (files w)) (requests w) (clock_reads w).

Module Os.

Definition is_sep (c : ascii) : bool := Ascii.eqb c "/".

(** [p[:p.rfind("/") + 1]]. *)
Fixpoint upto_last_sep (p : string) : string :=
  match p with
  | EmptyString => EmptyString
  | String c p' =>
      match upto_last_sep p' with
      | EmptyString => if is_sep c then String c EmptyString else EmptyString
      | rest => String c rest
      end
  end.

(** [s.rstrip("/")]. *)
Fixpoint rstrip_sep (s : string) : string :=
  match s with
  | EmptyString => EmptyString
  | String c s' =>
      match rstrip_sep s' with
      | EmptyString => if is_sep c then EmptyString else String c EmptyString
      | rest => String c rest
      end
  end.

(** [os.path.dirname]. *)
Definition dirname (p : string) : string :=
  let head := upto_last_sep p in
  match head with
  | EmptyString => head
  | _ => if PyStr.all_chars is_sep head then head else rstrip_sep head
  end.

(** [os.makedirs(name, exist_ok=True)]: refused for the empty name;
    directories are otherwise not tracked. *)
Definition makedirs (name : string) : result unit :=
  match name with
  | EmptyString => Raise FileNotFoundError
  | _ => Ok tt
  end.

End Os.

(** The longest pause taken as one [time.sleep] accepts on any machine:
    a thousand million seconds. *)
Definition MAX_PAUSE : Q := 1000000000 # 1.

(** [time.sleep(seconds)]: the pause is converted to nanoseconds in 64
    bits, which fails beyond 2^63, and a negative pause is refused.  (Just
    below 2^63 ns the outcome depends on the rounding of the product and
    on the clock of the operating system, which may refuse the deadline;
    pauses up to [MAX_PAUSE] are far from there.) *)
Definition sleep (seconds : Q) : result unit :=
  let ns := Qmult seconds (inject_Z 1000000000) in
  if Qle_bool (inject_Z (2 ^ 63)) ns || negb (Qle_bool (inject_Z (- 2 ^ 63)) ns)
  then Raise OverflowError
  else if Qle_bool 0 seconds then Ok tt
  else Raise ValueError.

(** ** Pagination engine *)

(** How an iteration of the [while True] loop ends. *)
Inductive control : Type :=
  | Continue (since : Z)
  | Break.

(** [row[0]] used as a number. *)
Definition ts_field (r : raw_row) : result Z :=
  match raw_ts r with
  | Some ms => Ok ms
  | None => Raise TypeError
  end.

Section Loop.

Variable env : environment.
Variables (symbol timeframe : string) (limit : Z) (sleep_seconds : Q).
Variable near_now_delta : Z.

(** What follows the request in one iteration, for a non-empty page with
    first row [first] and last row [lst]; [w] is read for the clock
    only. *)
Definition after_page (since : Z) (first lst : raw_row) (w : world)
  : result control * world :=
  match
    first_ms ← ts_field first;
    _ ← Dt.fromtimestamp_ms first_ms;
    last_ms ← ts_field lst;
    _ ← Dt.fromtimestamp_ms last_ms;
    last_dt ← Dt.fromtimestamp_ms last_ms;
    Ok (last_ms + 1, last_dt)
  with
  | Raise e => (Raise e, w)
  | Ok (next_since, last_dt) =>
      if next_since <=? since then (Ok Break, w)
      else
        let now_ := now env (clock_reads w) in
        let w := tick w in
        match Dt.sub now_ near_now_delta with
        | Raise e => (Raise e, w)
        | Ok cutoff =>
            if cutoff <=? last_dt then (Ok Break, w)
            else
              match sleep sleep_seconds with
              | Raise e => (Raise e, w)
              | Ok _ => (Ok (Continue next_since), w)
              end
        end
  end.

(** One iteration of the loop: the rows accumulated at its end and how
    it ends. *)
Definition loop_body (since : Z) (all_rows : list raw_row) (w : world)
  : result (control * list raw_row) * world :=
  let k := length (requests w) in
  let w := log_request since w in
  match fetch_ohlcv env k symbol timeframe since limit with
  | Raise e => (Raise e, w)
  | Ok batch =>
      match head batch, last batch with
      | Some first, Some lst =>
          match after_page since first lst w with
          | (Raise e, w) => (Raise e, w)
          | (Ok c, w) => (Ok (c, (all_rows ++ batch)%list), w)
          end
      | _, _ => (Ok (Break, all_rows), w)
      end
  end.

(** The loop; [None] when [fuel] iterations did not reach its end. *)
Fixpoint paginate (fuel : nat) (since : Z) (all_rows : list raw_row) (w : world)
  : option (result (list raw_row) * world) :=
  match fuel with
  | O => None
  | S fuel' =>
      match loop_body since all_rows w with
      | (Raise e, w) => Some (Raise e, w)
      | (Ok (Break, all_rows), w) => Some (Ok all_rows, w)
      | (Ok (Continue since, all_rows), w) => paginate fuel' since all_rows w
      end
  end.

End Loop.

(** The cursor and the near-now distance the loop starts with. *)
Definition fetch_setup (env : environment) (timeframe : string) (w : world)
  : result (Z * Z) :=
  delta_history ← Dt.timedelta_days (365 * Config.YEARS_OF_HISTORY);
  start ← Dt.sub (now env (clock_reads w)) delta_history;
  let since := Dt.timestamp_ms start in
  near_now_delta ← _near_now_delta timeframe;
  _ ← Pd.to_datetime_ms since;
  Ok (since, near_now_delta).

(** [cache_path and os.path.exists(cache_path)]: the cached table. *)
Definition cache_lookup (cache_path : option string) (w : world) : option (list candle) :=
  match cache_path with
  | None => None
  | Some EmptyString => None
  | Some p => files w !! p
  end.

(** The tail of [fetch_ohlcv_full]: normalize, write the cache, return. *)
Definition finish (pd : pandas) (cache_path : option string)
    (all_rows : list raw_row) (w : world) : result (list candle) * world :=
  match _ohlcv_to_df pd all_rows with
  | Raise e => (Raise e, w)
  | Ok df =>
      match cache_path with
      | None | Some EmptyString => (Ok df, w)
      | Some p =>
          match Os.makedirs (Os.dirname p) with
          | Raise e => (Raise e, w)
          | Ok _ => (Ok df, write_file p df w)
          end
      end
  end.

Definition fetch_ohlcv_full (pd : pandas) (env : environment) (fuel : nat)
    (timeframe symbol : string) (limit : Z) (sleep_seconds : Q)
    (cache_path : option string) (w : world)
  : option (result (list candle) * world) :=
  match cache_lookup cache_path w with
  | Some df =>
      Some (Ok (Pd.drop_duplicates (sort_values pd df)), w)
  | None =>
      let w1 := tick w in
      match fetch_setup env timeframe w with
      | Raise e => Some (Raise e, w1)
      | Ok (since, near_now_delta) =>
          match paginate env symbol timeframe limit sleep_seconds near_now_delta
                  fuel since [] w1 with
          | None => None
          | Some (Raise e, w2) => Some (Raise e, w2)
          | Some (Ok all_rows, w2) => Some (finish pd cache_path all_rows w2)
          end
      end
  end.

Definition get_btc_hourly (pd : pandas) (env : environment) (fuel : nat)
    (cache : bool) (w : world) : option (result (list candle) * world) :=
  let cache_path :=
    if cache then Some (Config.RAW_DATA_DIR ++ "/" ++ "btc_usdt_1h.csv")%string else None in
  fetch_ohlcv_full pd env fuel "1h" Config.SYMBOL Config.FETCH_LIMIT
    Config.SLEEP_SECONDS cache_path w.

Definition get_btc_daily (pd : pandas) (env : environment) (fuel : nat)
    (cache : bool) (w : world) : option (result (list candle) * world) :=
  let cache_path :=
    if cache then Some (Config.RAW_DATA_DIR ++ "/" ++ "btc_usdt_1d.csv")%string else None in
  fetch_ohlcv_full pd env fuel "1d" Config.SYMBOL Config.FETCH_LIMIT
    Config.SLEEP_SECONDS cache_path w.

(** ** Implementations of the pandas contract

    First two sorts that are not the library's and stand for "any sort"
    where a statement holds of all of them: an insertion sort, which
    keeps rows with equal timestamps in their input order, and the same
    sort run on the reversed frame, which puts them in the opposite order.
    Then the sort the library runs. *)

Module InsertionSort.

Fixpoint insert (r : candle) (df : list candle) : list candle :=
  match df with
  | [] => [r]
  | x :: df' =>
      if timestamp r <=? timestamp x then r :: df
      else x :: insert r df'
  end.

Definition sort (df : list candle) : list candle := foldr insert [] df.

Definition sort_reversed (df : list candle) : list candle := sort (rev df).

Lemma insert_perm r df : Permutation (insert r df) (r :: df).
Proof.
  induction df as [|x df IH]; simpl; [done|].
  destruct (timestamp r <=? timestamp x); [done|].
  rewrite IH. apply perm_swap.
Qed.

Lemma sort_perm df : Permutation (sort df) df.
Proof.
  induction df as [|x df IH]; simpl; [done|].
  rewrite insert_perm. by constructor.
Qed.

Lemma insert_hdrel r x df :
  timestamp x <= timestamp r -> HdRel by_timestamp x df ->
  HdRel by_timestamp x (insert r df).
Proof.
  intros Hxr Hhd. destruct df as [|y df]; simpl.
  - by constructor.
  - destruct (timestamp r <=? timestamp y); constructor; [done|].
    by inversion Hhd.
Qed.

Lemma insert_sorted r df :
  Sorted by_timestamp df -> Sorted by_timestamp (insert r df).
Proof.
  induction 1 as [|x df Hs IH Hhd]; simpl.
  - repeat constructor.
  - destruct (timestamp r <=? timestamp x) eqn:E.
    + constructor; [by constructor|]. constructor. unfold by_timestamp. lia.
    + constructor; [done|]. apply insert_hdrel; [lia|done].
Qed.

Lemma sort_sorted df : Sorted by_timestamp (sort df).
Proof.
  induction df as [|x df IH]; simpl; [constructor|]. by apply insert_sorted.
Qed.

Lemma sort_reversed_perm df : Permutation (sort_reversed df) df.
Proof.
  unfold sort_reversed. rewrite sort_perm. symmetry. apply Permutation_rev.
Qed.

Lemma sort_reversed_sorted df : Sorted by_timestamp (sort_reversed df).
Proof. apply sort_sorted. Qed.

End InsertionSort.

(** ** The sort behind [sort_values]

    [sort_values("timestamp")] runs with the default [kind="quicksort"]:
    pandas hands the timestamps of the frame to numpy's [argsort] and
    takes the rows in the order of the indices returned.  numpy's
    quicksort is an introsort on the array of indices: ranges of more than
    16 entries are split around the median of three, ranges left aside
    once the depth allowance is used up go to a heap sort, and ranges of
    at most 16 entries are sorted by insertion. *)

Module NumPy.

Section Insertion.

Context {A : Type} (key : A -> Z).

(** The inner loop of the insertion sort: the entry [x] moves left past
    the entries with a greater key.  [left] is what precedes [x], the
    nearest entry first. *)
Fixpoint insert (x : A) (left : list A) : list A :=
  match left with
  | [] => [x]
  | y :: left' => if key x <? key y then y :: insert x left' else x :: left
  end.

(** The insertion sort of a range: its entries are inserted one after
    the other, from the left. *)
Definition insertion (seg : list A) : list A :=
  reverse (foldl (fun left x => insert x left) [] seg).

Lemma insert_permutation x left : Permutation (insert x left) (x :: left).
Proof.
  induction left as [|y left IH]; simpl; [done|].
  destruct (key x <? key y); [|done]. rewrite IH. apply perm_swap.
Qed.

Lemma foldl_insert_perm seg : forall left,
  Permutation (foldl (fun left x => insert x left) left seg) (seg ++ left)%list.
Proof.
  induction seg as [|x seg IH]; intros left; simpl; [done|].
  rewrite IH, insert_permutation. by rewrite Permutation_middle.
Qed.

Lemma insertion_perm seg : Permutation (insertion seg) seg.
Proof.
  unfold insertion. rewrite reverse_Permutation, foldl_insert_perm.
  by rewrite app_nil_r.
Qed.

Lemma insert_descending x left :
  StronglySorted (fun a b => key b <= key a) left ->
  StronglySorted (fun a b => key b <= key a) (insert x left).
Proof.
  induction 1 as [|y left Hs IH Hall]; simpl; [repeat constructor|].
  destruct (key x <? key y) eqn:E.
  - apply Z.ltb_lt in E. constructor; [done|].
    rewrite Forall_forall in Hall |- *. intros z Hz.
    rewrite insert_permutation in Hz. apply elem_of_cons in Hz as [->|Hz]; [lia|].
    by apply Hall.
  - apply Z.ltb_ge in E. constructor; [by constructor|].
    constructor; [done|].
    rewrite Forall_forall in Hall |- *. intros z Hz. specialize (Hall z Hz).
    simpl in Hall. lia.
Qed.

Lemma foldl_insert_descending seg : forall left,
  StronglySorted (fun a b => key b <= key a) left ->
  StronglySorted (fun a b => key b <= key a)
                 (foldl (fun left x => insert x left) left seg).
Proof.
  induction seg as [|x seg IH]; intros left Hs; simpl; [done|].
  by apply IH, insert_descending.
Qed.

Lemma reverse_descending (l : list A) :
  StronglySorted (fun a b => key b <= key a) l ->
  StronglySorted (fun a b => key a <= key b) (reverse l).
Proof.
  induction 1 as [|y l Hs IH Hall]; [constructor|].
  rewrite reverse_cons. apply StronglySorted_app_2; [|done|repeat constructor].
  intros a b Ha Hb. rewrite elem_of_reverse in Ha.
  apply list_elem_of_singleton in Hb as ->.
  rewrite Forall_forall in Hall. exact (Hall a Ha).
Qed.

Lemma insertion_sorted seg :
  StronglySorted (fun a b => key a <= key b) (insertion seg).
Proof.
  unfold insertion. apply reverse_descending, foldl_insert_descending. constructor.
Qed.

(** Entries with the same key stay in their order. *)
Lemma insert_filter x left (t : Z) :
  filter (fun a => key a = t) (insert x left)
  = filter (fun a => key a = t) (x :: left).
Proof.
  induction left as [|y left IH]; simpl; [done|].
  destruct (key x <? key y) eqn:E; [|done]. apply Z.ltb_lt in E.
  rewrite (filter_cons _ y), IH, !(filter_cons _ x), (filter_cons _ y).
  destruct (decide (key x = t)), (decide (key y = t)); try done; lia.
Qed.

Lemma foldl_insert_filter seg (t : Z) : forall left,
  filter (fun a => key a = t) (foldl (fun left x => insert x left) left seg)
  = (reverse (filter (fun a => key a = t) seg) ++ filter (fun a => key a = t) left)%list.
Proof.
  induction seg as [|x seg IH]; intros left; simpl; [done|].
  rewrite IH, insert_filter, !(filter_cons _ x).
  destruct (decide (key x = t)); [|done].
  by rewrite reverse_cons, <- app_assoc.
Qed.

Lemma insertion_filter seg (t : Z) :
  filter (fun a => key a = t) (insertion seg) = filter (fun a => key a = t) seg.
Proof.
  unfold insertion. rewrite filter_reverse, foldl_insert_filter.
  by rewrite app_nil_r, reverse_involutive.
Qed.

End Insertion.

Section Argsort.

(** The key of the entry with index [i]. *)
Variable v : nat -> Z.

Definition SMALL_QUICKSORT : nat := 15.

(** The array of indices being sorted, read and written by position. *)
Definition get (a : list nat) (i : nat) : nat := default 0%nat (a !! i).
Definition key (a : list nat) (i : nat) : Z := v (get a i).
Definition swap (i j : nat) (a : list nat) : list nat :=
  <[i := get a j]> (<[j := get a i]> a).

(** [do ++pi; while (v[*pi] < vp)], entered at the incremented [pi]. *)
Fixpoint scan_up (fuel : nat) (a : list nat) (vp : Z) (pi : nat) : nat :=
  match fuel with
  | O => pi
  | S fuel => if key a pi <? vp then scan_up fuel a vp (S pi) else pi
  end.

(** [do --pj; while (vp < v[*pj])], entered at the decremented [pj]. *)
Fixpoint scan_down (fuel : nat) (a : list nat) (vp : Z) (pj : nat) : nat :=
  match fuel with
  | O => pj
  | S fuel => if vp <? key a pj then scan_down fuel a vp (pred pj) else pj
  end.

Fixpoint partition_loop (fuel : nat) (a : list nat) (vp : Z) (pi pj : nat)
  : list nat * nat :=
  match fuel with
  | O => (a, pi)
  | S fuel =>
      let pi := scan_up (length a) a vp (S pi) in
      let pj := scan_down (length a) a vp (pred pj) in
      if (pj <=? pi)%nat then (a, pi)
      else partition_loop fuel (swap pi pj a) vp pi pj
  end.

(** The partition of the range [pl .. pr] around the median of its first,
    middle and last entries; the position of the pivot is returned. *)
Definition partition (a : list nat) (pl pr : nat) : list nat * nat :=
  let pm := (pl + (pr - pl) / 2)%nat in
  let a := if key a pm <? key a pl then swap pm pl a else a in
  let a := if key a pr <? key a pm then swap pr pm a else a in
  let a := if key a pm <? key a pl then swap pm pl a else a in
  let vp := key a pm in
  let a := swap pm (pr - 1) a in
  let '(a, pi) := partition_loop (length a) a vp pl (pr - 1)%nat in
  (swap pi (pr - 1) a, pi).

(** The insertion sort of the range [pl .. pr]. *)
Definition insertion_sort (a : list nat) (pl pr : nat) : list nat :=
  (take pl a ++ insertion v (take (S pr - pl) (drop pl a)) ++ drop (S pr) a)%list.

(** The heap sort of the [n] entries from [pl] on; the heap is indexed
    from 1. *)
Definition hget (a : list nat) (pl i : nat) : nat := get a (pl + i - 1).
Definition hset (a : list nat) (pl i x : nat) : list nat :=
  <[(pl + i - 1)%nat := x]> a.

Fixpoint sift (fuel : nat) (a : list nat) (pl n tmp i j : nat) : list nat :=
  match fuel with
  | O => hset a pl i tmp
  | S fuel =>
      if (j <=? n)%nat then
        let j := if (j <? n)%nat && (v (hget a pl j) <? v (hget a pl (S j)))
                 then S j else j in
        if v tmp <? v (hget a pl j)
        then sift fuel (hset a pl i (hget a pl j)) pl n tmp j (j + j)%nat
        else hset a pl i tmp
      else hset a pl i tmp
  end.

Definition heapify (a : list nat) (pl n : nat) : list nat :=
  foldl (fun a l => sift n a pl n (hget a pl l) l (l + l)%nat) a (rev (seq 1 (n / 2))).

Fixpoint pop_all (fuel : nat) (a : list nat) (pl n : nat) : list nat :=
  match fuel with
  | O => a
  | S fuel =>
      if (1 <? n)%nat then
        let tmp := hget a pl n in
        let a := hset a pl n (hget a pl 1) in
        let n := (n - 1)%nat in
        pop_all fuel (sift n a pl n tmp 1 2) pl n
      else a
  end.

Definition heapsort (a : list nat) (pl n : nat) : list nat :=
  pop_all n (heapify a pl n) pl n.

(** The sort of the range [pl .. pr] with depth allowance [cdepth];
    [popped] tells a range taken from the stack (or the whole array),
    where the allowance is checked, from the range the partition loop
    goes on with.  Of the two parts of a partition the larger waits on
    the stack; the parts do not overlap, so the order in which they are
    sorted does not show. *)
Fixpoint introsort (fuel : nat) (a : list nat) (popped : bool) (pl pr : nat) (cdepth : Z)
  : list nat :=
  match fuel with
  | O => a
  | S fuel =>
      if popped && (cdepth <? 0) then heapsort a pl (pr - pl + 1)
      else if (SMALL_QUICKSORT <? pr - pl)%nat then
        let '(a, pi) := partition a pl pr in
        let cdepth := cdepth - 1 in
        if (pi - pl <? pr - pi)%nat then
          let a := introsort fuel a false pl (pi - 1) cdepth in
          introsort fuel a true (pi + 1) pr cdepth
        else
          let a := introsort fuel a false (pi + 1) pr cdepth in
          introsort fuel a true pl (pi - 1) cdepth
      else insertion_sort a pl pr
  end.

End Argsort.

(** [keys.argsort(kind="quicksort")]. *)
Definition argsort (keys : list Z) : list nat :=
  let n := length keys in
  introsort (fun i => default 0 (keys !! i)) (S n) (seq 0 n) true 0 (n - 1)
            (2 * Z.log2 (Z.of_nat n)).

(** [idx] holds each of the indices below [n] once. *)
Definition is_permutation (n : nat) (idx : list nat) : bool :=
  (length idx =? n)%nat && forallb (fun i => existsb (Nat.eqb i) idx) (seq 0 n).

Fixpoint is_sorted (keys : list Z) : bool :=
  match keys with
  | a :: (b :: _) as rest => (a <=? b) && is_sorted rest
  | _ => true
  end.

Lemma is_permutation_spec n idx :
  is_permutation n idx = true <-> Permutation idx (seq 0 n).
Proof.
  unfold is_permutation. rewrite andb_true_iff, Nat.eqb_eq, forallb_forall. split.
  - intros [Hlen Hall]. symmetry. apply NoDup_Permutation_bis.
    + apply seq_NoDup.
    + rewrite length_seq. lia.
    + intros i Hi. apply Hall in Hi. apply existsb_exists in Hi as (j & Hj & ->%Nat.eqb_eq).
      done.
  - intros Hp. split; [by rewrite Hp, length_seq|].
    intros i Hi. apply existsb_exists. exists i. split; [|by apply Nat.eqb_eq].
    by apply (Permutation_in _ (Permutation_sym Hp)).
Qed.

Lemma is_sorted_spec {A} (key : A -> Z) (l : list A) :
  is_sorted (key <$> l) = true <-> Sorted (fun a b => key a <= key b) l.
Proof.
  induction l as [|a [|b l] IH]; simpl.
  - split; [constructor|done].
  - split; [repeat constructor|done].
  - change (is_sorted (key b :: (key <$> l))) with (is_sorted (key <$> b :: l)).
    rewrite andb_true_iff, Z.leb_le, IH. split.
    + intros [? ?]. constructor; [done|by constructor].
    + intros H. inversion H as [|? ? Hs Hhd]; subst. inversion Hhd; subst. done.
Qed.

(** Up to 16 keys are sorted by insertion. *)
Lemma argsort_small keys :
  (length keys <= 16)%nat ->
  argsort keys
  = insertion (fun i => default 0 (keys !! i)) (seq 0 (length keys)).
Proof.
  intros Hlen. unfold argsort. cbv zeta. cbn [introsort].
  assert ((2 * Z.log2 (Z.of_nat (length keys)) <? 0) = false) as ->.
  { apply Z.ltb_ge. pose proof (Z.log2_nonneg (Z.of_nat (length keys))). lia. }
  rewrite andb_false_r.
  assert ((SMALL_QUICKSORT <? length keys - 1 - 0)%nat = false) as ->.
  { apply Nat.ltb_ge. unfold SMALL_QUICKSORT. lia. }
  unfold insertion_sort. rewrite take_0, drop_0. cbn [app].
  rewrite (drop_ge (seq 0 _)) by (rewrite length_seq; lia).
  rewrite app_nil_r, take_ge; [done|]. rewrite length_seq. lia.
Qed.

End NumPy.

(** [df.take(indexer)]. *)
Definition take_rows (df : list candle) (idx : list nat) : list candle :=
  omap (fun i => df !! i) idx.

(** [df.sort_values("timestamp")]: the rows in the order of the indices
    numpy returns.  That this is a sorted rearrangement of the frame is
    checked on the result, which stands for the correctness of the
    library's sort (the insertion sort on the other branch is never
    reached). *)
Definition numpy_sort_values (df : list candle) : list candle :=
  let idx := NumPy.argsort (timestamp <$> df) in
  let out := take_rows df idx in
  if NumPy.is_permutation (length df) idx && NumPy.is_sorted (timestamp <$> out)
  then out else InsertionSort.sort df.

Lemma take_rows_seq (df : list candle) : take_rows df (seq 0 (length df)) = df.
Proof.
  unfold take_rows.
  enough (forall pre, omap (fun i => ((pre ++ df)%list) !! i)
                          (seq (length pre) (length df)) = df)
    as H by exact (H []).
  induction df as [|r df IH]; intros pre; [done|].
  cbn [length seq].
  change (omap ?f (?i :: ?l))
    with (match f i with Some y => y :: omap f l | None => omap f l end).
  cbv beta. rewrite list_lookup_middle by done. f_equal. specialize (IH (pre ++ [r])%list).
  rewrite length_app, Nat.add_1_r, <- app_assoc in IH. exact IH.
Qed.

Lemma take_rows_perm (df : list candle) (idx : list nat) :
  Permutation idx (seq 0 (length df)) -> Permutation (take_rows df idx) df.
Proof.
  intros Hp. unfold take_rows. rewrite Hp. by rewrite <- (take_rows_seq df) at 2.
Qed.

Lemma numpy_sort_values_perm df : Permutation (numpy_sort_values df) df.
Proof.
  unfold numpy_sort_values. cbv zeta.
  destruct (NumPy.is_permutation _ _ && _) eqn:E; [|apply InsertionSort.sort_perm].
  apply andb_prop in E as [Hp%NumPy.is_permutation_spec _]. by apply take_rows_perm.
Qed.

Lemma numpy_sort_values_sorted df : Sorted by_timestamp (numpy_sort_values df).
Proof.
  unfold numpy_sort_values. cbv zeta.
  destruct (NumPy.is_permutation _ _ && _) eqn:E; [|apply InsertionSort.sort_sorted].
  apply andb_prop in E as [_ Hs]. by apply (NumPy.is_sorted_spec timestamp) in Hs.
Qed.

(** A stand-in for the parser of [to_numeric]: plain decimal digits give
    their value, anything else [NaN]. *)
Definition digits_or_nan (s : string) : num :=
  match s with
  | EmptyString => NaN
  | _ =>
      match PyStr.int s with
      | Ok z => Fin (inject_Z z)
      | Raise _ => NaN
      end
  end.

Definition pandas_stable : pandas :=
  Pandas InsertionSort.sort InsertionSort.sort_perm InsertionSort.sort_sorted
         digits_or_nan.

Definition pandas_reversing : pandas :=
  Pandas InsertionSort.sort_reversed InsertionSort.sort_reversed_perm
         InsertionSort.sort_reversed_sorted digits_or_nan.

(** pandas with the sort it runs. *)
Definition pandas_numpy : pandas :=
  Pandas numpy_sort_values numpy_sort_values_perm numpy_sort_values_sorted
         digits_or_nan.

(** ** What the normalizer is measured against *)

(** [x] coerces to a number. *)
Definition numeric (pd : pandas) (x : cell) : Prop := Pd.to_numeric pd x <> NaN.

(** No field of [r] is missing or non-numeric. *)
Definition valid_row (pd : pandas) (r : raw_row) : Prop :=
  is_Some (raw_ts r) /\ numeric pd (raw_open r) /\ numeric pd (raw_high r)
  /\ numeric pd (raw_low r) /\ numeric pd (raw_close r) /\ numeric pd (raw_volume r).

(** [c] carries the instant and the coerced values of [r]. *)
Definition candle_of (pd : pandas) (r : raw_row) (c : candle) : Prop :=
  (fun ms => ms * Pd.NS_PER_MS) <$> raw_ts r = Some (timestamp c)
  /\ open c = Pd.to_numeric pd (raw_open r)
  /\ high c = Pd.to_numeric pd (raw_high r)
  /\ low c = Pd.to_numeric pd (raw_low r)
  /\ close c = Pd.to_numeric pd (raw_close r)
  /\ volume c = Pd.to_numeric pd (raw_volume r).

(** The timestamp of [r], when present, fits [datetime64[ns]]. *)
Definition representable (r : raw_row) : Prop :=
  match raw_ts r with
  | None => True
  | Some ms => - Pd.MAX_NS <= ms * Pd.NS_PER_MS <= Pd.MAX_NS
  end.

(** The candle of a valid row, [None] for an invalid one. *)
Definition clean (pd : pandas) (r : raw_row) : option candle :=
  match raw_ts r with
  | None => None
  | Some ms =>
      let c := Candle (ms * Pd.NS_PER_MS)
                 (Pd.to_numeric pd (raw_open r)) (Pd.to_numeric pd (raw_high r))
                 (Pd.to_numeric pd (raw_low r)) (Pd.to_numeric pd (raw_close r))
                 (Pd.to_numeric pd (raw_volume r)) in
      if is_nan (open c) || is_nan (high c) || is_nan (low c)
         || is_nan (close c) || is_nan (volume c)
      then None else Some c
  end.

(** The candles of the valid rows, in input order. *)
Definition valid_candles (pd : pandas) (ohlcv : list raw_row) : list candle :=
  omap (clean pd) ohlcv.

Definition no_nan (c : candle) : Prop :=
  open c <> NaN /\ high c <> NaN /\ low c <> NaN /\ close c <> NaN /\ volume c <> NaN.

Definition earlier (a b : candle) : Prop := timestamp a < timestamp b.

(** ** What the pagination engine is measured against *)

Definition first_ts (page : list raw_row) : option Z := head page ≫= raw_ts.
Definition last_ts (page : list raw_row) : option Z := last page ≫= raw_ts.

(** A non-empty page whose first and last rows carry timestamps that
    [datetime.fromtimestamp] turns into instants; [last_ms] is the last
    one. *)
Definition stamped (page : list raw_row) (last_ms : Z) : Prop :=
  exists first_ms,
    first_ts page = Some first_ms /\ last_ts page = Some last_ms
    /\ is_Ok (Dt.fromtimestamp_ms first_ms) /\ is_Ok (Dt.fromtimestamp_ms last_ms).

(** The cursor the loop moves to after [page]. *)
Definition next_cursor (since : Z) (page : list raw_row) : Z :=
  match last_ts page with
  | Some ms => ms + 1
  | None => since
  end.

Definition cursor_after (since : Z) (pages : list (list raw_row)) : Z :=
  foldl next_cursor since pages.

(** The cursors at which [pages] are requested, starting at [since]. *)
Fixpoint cursors (since : Z) (pages : list (list raw_row)) : list Z :=
  match pages with
  | [] => []
  | p :: ps => since :: cursors (next_cursor since p) ps
  end.

Section Serving.

Variable env : environment.
Variables (symbol timeframe : string) (limit : Z) (sleep_seconds : Q).
Variable near_now_delta : Z.

(** At the [tick]-th clock reading, the instant [last_dt] the program
    computes from [last_ms] is still more than the near-now distance
    before now, respectively within it: the guard
    [last_dt >= now - near_now_delta] of the loop, read on its own
    operands. *)
Definition far_from_now (tick : nat) (last_ms : Z) : Prop :=
  exists last_dt cutoff,
    Dt.fromtimestamp_ms last_ms = Ok last_dt
    /\ Dt.sub (now env tick) near_now_delta = Ok cutoff /\ last_dt < cutoff.

Definition near_now (tick : nat) (last_ms : Z) : Prop :=
  exists last_dt cutoff,
    Dt.fromtimestamp_ms last_ms = Ok last_dt
    /\ Dt.sub (now env tick) near_now_delta = Ok cutoff /\ cutoff <= last_dt.

(** [page], received at cursor [since], makes the loop go on: it moves
    the cursor, ends far from now, and the pause that follows is one
    [time.sleep] takes. *)
Definition continuing (since : Z) (tick : nat) (page : list raw_row) (last_ms : Z) : Prop :=
  stamped page last_ms /\ since < last_ms + 1 /\ far_from_now tick last_ms
  /\ (0 <= sleep_seconds)%Q /\ (sleep_seconds <= MAX_PAUSE)%Q.

(** From its [k]-th request on, asked at cursor [since], the exchange
    returns [pages] one after the other, each of them making the loop go
    on. *)
Fixpoint serves (k : nat) (since : Z) (tick : nat) (pages : list (list raw_row)) : Prop :=
  match pages with
  | [] => True
  | p :: ps =>
      fetch_ohlcv env k symbol timeframe since limit = Ok p
      /\ exists last_ms,
           continuing since tick p last_ms /\ serves (S k) (last_ms + 1) (S tick) ps
  end.

End Serving.

(** ** Notions for the timeframe policy *)

(** The decimal notation of [n]. *)
Definition decimal (n : N) : string := NilEmpty.string_of_uint (N.to_uint n).

(** The number written by [ds], a non-empty string of the digits 0 to 9
    (leading zeros allowed), as the Standard Library reads it. *)
Definition numeral (ds : string) : option Z :=
  match ds with
  | EmptyString => None
  | _ => (fun u => Z.of_N (N.of_uint u)) <$> NilEmpty.uint_of_string ds
  end.

(** Every character of [s] is an ASCII character. *)
Definition ascii_label (s : string) : bool :=
  PyStr.all_chars (fun c => PyStr.code c <? 128) s.

Definition hours (h : Z) : Z := h * Dt.US_PER_HOUR.
Definition days (d : Z) : Z := d * Dt.US_PER_DAY.

(** The value of a decimal numeral read from the left, on top of [acc]. *)
Fixpoint uint_value (acc : Z) (d : Decimal.uint) : Z :=
  match d with
  | Decimal.Nil => acc
  | Decimal.D0 d => uint_value (acc * 10 + 0) d
  | Decimal.D1 d => uint_value (acc * 10 + 1) d
  | Decimal.D2 d => uint_value (acc * 10 + 2) d
  | Decimal.D3 d => uint_value (acc * 10 + 3) d
  | Decimal.D4 d => uint_value (acc * 10 + 4) d
  | Decimal.D5 d => uint_value (acc * 10 + 5) d
  | Decimal.D6 d => uint_value (acc * 10 + 6) d
  | Decimal.D7 d => uint_value (acc * 10 + 7) d
  | Decimal.D8 d => uint_value (acc * 10 + 8) d
  | Decimal.D9 d => uint_value (acc * 10 + 9) d
  end.

(** ** Sample rows *)

Definition row (ms : Z) (o h l c v : Z) : raw_row :=
  RawRow (Some ms) (VInt o) (VInt h) (VInt l) (VInt c) (VInt v).

Definition bar (ns : Z) (o h l c v : Z) : candle :=
  Candle ns (Fin (inject_Z o)) (Fin (inject_Z h)) (Fin (inject_Z l))
         (Fin (inject_Z c)) (Fin (inject_Z v)).

(** Two valid rows out of order, a repeated timestamp, a row with a text
    field that does not parse and a row without timestamp. *)
Definition sample_rows : list raw_row :=
  [ row 7200000 3 3 3 3 3;
    row 3600000 1 1 1 1 1;
    RawRow (Some 10800000) (VStr "n/a") (VInt 4) (VInt 4) (VInt 4) (VInt 4);
    row 3600000 2 2 2 2 2;
    RawRow None (VInt 5) (VInt 5) (VInt 5) (VInt 5) (VInt 5) ].

(** [n] hourly rows from [ms] on, all five values of a row being the
    same number, [x] in the first row and one more in each following
    row. *)
Fixpoint hourly (n : nat) (ms x : Z) : list raw_row :=
  match n with
  | O => []
  | S n => row ms x x x x x :: hourly n (ms + 3600000) (x + 1)
  end.

(** Two pages of nine hourly rows; the second page starts at the hour
    the first one ends with, 2023-11-04T08:00:00Z, and reports other
    values for it. *)
Definition page_early : list raw_row := hourly 9 1699056000000 100.
Definition page_late : list raw_row := hourly 9 1699084800000 200.

(** ** The cache file as text

    [df.to_csv(path, index=False)] writes a header and a line per row; in
    a line the timestamp is the text of the row's [Timestamp] and the
    five values are the texts of the numbers.  The cache-hit branch
    reads the lines back with [read_csv], which leaves the timestamps as
    texts, and hands that column to [pd.to_datetime(..., utc=True)].
    The timestamp column is modelled as text; a value is kept as the
    number its text reads as. *)

Module Csv.

(** A line of the file. *)
Record line : Type := Line {
  l_timestamp : string;
  l_open : num;
  l_high : num;
  l_low : num;
  l_close : num;
  l_volume : num
}.

(** The last [width] decimal digits of [n], as text. *)
Fixpoint digits (width : nat) (n : Z) : string :=
  match width with
  | O => ""
  | S w => digits w (n `div` 10) ++ String (ascii_of_nat (Z.to_nat (48 + n `mod` 10))) ""
  end.

(** Year, month and day of the [z]-th day after 1970-01-01, in the
    proleptic Gregorian calendar. *)
Definition civil_from_days (z : Z) : Z * Z * Z :=
  let z := z + 719468 in
  let era := z `div` 146097 in
  let doe := z - era * 146097 in
  let yoe := (doe - doe `div` 1460 + doe `div` 36524 - doe `div` 146096) `div` 365 in
  let doy := doe - (365 * yoe + yoe `div` 4 - yoe `div` 100) in
  let mp := (5 * doy + 2) `div` 153 in
  let d := doy - (153 * mp + 2) `div` 5 + 1 in
  let m := if mp <? 10 then mp + 3 else mp - 9 in
  let y := yoe + era * 400 in
  (if m <=? 2 then y + 1 else y, m, d).

Definition days_from_civil (y m d : Z) : Z :=
  let y := if m <=? 2 then y - 1 else y in
  let era := y `div` 400 in
  let yoe := y - era * 400 in
  let doy := (153 * (if 2 <? m then m - 3 else m + 9) + 2) `div` 5 + d - 1 in
  let doe := yoe * 365 + yoe `div` 4 - yoe `div` 100 + doy in
  era * 146097 + doe - 719468.

Definition NS_PER_SECOND : Z := 1000000000.
Definition NS_PER_DAY : Z := 86400 * NS_PER_SECOND.

(** [str(ts)] for a UTC [Timestamp]: the date, a space, the time, the
    fraction of the second when there is one (six digits, nine when the
    nanoseconds are not whole microseconds), and the offset. *)
Definition str_timestamp (ns : Z) : string :=
  let '(y, m, d) := civil_from_days (ns `div` NS_PER_DAY) in
  let in_day := ns `mod` NS_PER_DAY in
  let seconds := in_day `div` NS_PER_SECOND in
  let fraction := in_day `mod` NS_PER_SECOND in
  digits 4 y ++ "-" ++ digits 2 m ++ "-" ++ digits 2 d ++ " "
  ++ digits 2 (seconds `div` 3600) ++ ":" ++ digits 2 ((seconds `div` 60) `mod` 60)
  ++ ":" ++ digits 2 (seconds `mod` 60)
  ++ (if fraction =? 0 then ""
      else if fraction `mod` 1000 =? 0 then "." ++ digits 6 (fraction `div` 1000)
      else "." ++ digits 9 fraction)
  ++ "+00:00".

Definition to_csv (df : list candle) : list line :=
  (fun c => Line (str_timestamp (timestamp c)) (open c) (high c) (low c) (close c)
                 (volume c)) <$> df.

(** The two formats [to_datetime] can infer from a text written by
    [to_csv]: [%Y-%m-%d %H:%M:%S%z] and [%Y-%m-%d %H:%M:%S.%f%z]. *)
Inductive format : Type :=
  | Seconds
  | Fraction.

(** The number written by a text of decimal digits. *)
Definition number (s : string) : option Z :=
  match s with
  | EmptyString => None
  | _ => if PyStr.all_chars PyStr.is_decimal s
         then match PyStr.int_digits 0 s with Ok n => Some n | Raise _ => None end
         else None
  end.

(** The instant of the first nineteen characters, [YYYY-MM-DD HH:MM:SS],
    in seconds. *)
Definition parse_seconds (s : string) : option Z :=
  y ← number (substring 0 4 s);
  m ← number (substring 5 2 s);
  d ← number (substring 8 2 s);
  h ← number (substring 11 2 s);
  mi ← number (substring 14 2 s);
  sec ← number (substring 17 2 s);
  if String.eqb (substring 4 1 s) "-" && String.eqb (substring 7 1 s) "-"
     && String.eqb (substring 10 1 s) " " && String.eqb (substring 13 1 s) ":"
     && String.eqb (substring 16 1 s) ":"
     && (1 <=? m) && (m <=? 12) && (1 <=? d) && (d <=? 31)
     && (h <? 24) && (mi <? 60) && (sec <? 60)
  then Some (days_from_civil y m d * 86400 + h * 3600 + mi * 60 + sec)
  else None.

(** The nanoseconds written by the digits of a fraction, one to nine of
    them. *)
Definition parse_fraction (ds : string) : option Z :=
  n ← number ds;
  if (String.length ds <=? 9)%nat
  then Some (n * 10 ^ Z.of_nat (9 - String.length ds))
  else None.

(** What follows the seconds in a text of each format. *)
Definition parse_tail (fmt : format) (tail : string) : option Z :=
  match fmt with
  | Seconds => if String.eqb tail "+00:00" then Some 0 else None
  | Fraction =>
      let n := String.length tail in
      if String.eqb (substring 0 1 tail) "."
         && String.eqb (substring (n - 6) 6 tail) "+00:00"
      then parse_fraction (substring 1 (n - 7) tail)
      else None
  end.

(** A text read in a given format, to nanoseconds. *)
Definition parse (fmt : format) (s : string) : option Z :=
  seconds ← parse_seconds (substring 0 19 s);
  fraction ← parse_tail fmt (substring 19 (String.length s - 19) s);
  Some (seconds * NS_PER_SECOND + fraction).

(** The format inferred from a text: with or without [.%f]. *)
Definition guess_format (s : string) : format :=
  if String.eqb (substring 19 1 s) "." then Fraction else Seconds.

(** [pd.to_datetime(column, utc=True)] on a column of texts, as pandas 2
    does it: the format is inferred from the first text and every text
    must be in that format.  (A text in none of the two formats is taken
    as refused; [to_csv] writes no such text.) *)
Fixpoint parse_column (fmt : format) (column : list string) : result (list Z) :=
  match column with
  | [] => Ok []
  | s :: rest =>
      match parse fmt s with
      | None => Raise ValueError
      | Some ns => stamps ← parse_column fmt rest; Ok (ns :: stamps)
      end
  end.

Definition to_datetime (column : list string) : result (list Z) :=
  match column with
  | [] => Ok []
  | first :: _ => parse_column (guess_format first) column
  end.

End Csv.

(** Line 146 of [fetch_ohlcv_full]: the table goes to the cache file. *)
Definition cache_save (df : list candle) : list Csv.line := Csv.to_csv df.

(** Lines 96 to 98, on the text of the file: the lines are read, the
    timestamp column goes through [to_datetime], the table is sorted and
    deduplicated. *)
Definition cache_load (pd : pandas) (file : list Csv.line) : result (list candle) :=
  stamps ← Csv.to_datetime (Csv.l_timestamp <$> file);
  let df :=
    zip_with (fun ns l => Candle ns (Csv.l_open l) (Csv.l_high l) (Csv.l_low l)
                                 (Csv.l_close l) (Csv.l_volume l)) stamps file in
  Ok (Pd.drop_duplicates (sort_values pd df)).

(** Two rows half a second apart. *)
Definition half_second_rows : list raw_row :=
  [row 1699056000000 1 2 1 2 10; row 1699056000500 2 3 2 3 11].

(** ** Exchange stubs *)

(** An exchange that answers its [k]-th request with the [k]-th entry of
    [responses], whatever is asked, and with an empty page afterwards. *)
Definition replay (responses : list (result (list raw_row)))
  : nat -> string -> string -> Z -> Z -> result (list raw_row) :=
  fun k _ _ _ _ => default (Ok []) (responses !! k).

(** 2026-11-03T00:00:00Z, in microseconds. *)
Definition NOW : Z := 1793664000000000.

Definition stub (responses : list (result (list raw_row))) : environment :=
  Environment (replay responses) (fun _ => NOW).

Definition world0 : world := World ∅ [] 0.

(** The cursor three years before [NOW], in milliseconds. *)
Definition SINCE0 : Z := 1699056000000.

Definition page_a : list raw_row :=
  [row 1699056000000 1 2 1 2 10; row 1699059600000 2 3 2 3 11].
Definition page_b : list raw_row :=
  [row 1699063200000 3 4 3 4 12; row 1699066800000 4 5 4 5 13].
(** A page that ends one hour before [NOW]. *)
Definition page_recent : list raw_row :=
  [row 1793656800000 5 6 5 6 14; row 1793660400000 6 7 6 7 15].

(** ** Entry point ([src/main.py]) *)

(** [main]: the hourly table, then the daily one, both through the cache;
    what it prints (first and last rows, row count, first and last
    timestamp) changes nothing and is left out. *)
Definition main (pd : pandas) (env : environment) (fuel : nat) (w : world)
  : option (result (list candle * list candle) * world) :=
  match get_btc_hourly pd env fuel true w with
  | None => None
  | Some (Raise e, w1) => Some (Raise e, w1)
  | Some (Ok hourly, w1) =>
      match get_btc_daily pd env fuel true w1 with
      | None => None
      | Some (Raise e, w2) => Some (Raise e, w2)
      | Some (Ok daily, w2) => Some (Ok (hourly, daily), w2)
      end
  end.

(** ** Further notions on runs *)

(** The pages the exchange returned to the requests numbered from [k] on
    and asked at the cursors [cs]; a failed request counts for no rows. *)
Fixpoint received (env : environment) (symbol timeframe : string) (limit : Z)
    (k : nat) (cs : list Z) : list (list raw_row) :=
  match cs with
  | [] => []
  | c :: cs' =>
      match fetch_ohlcv env k symbol timeframe c limit with
      | Ok page => page
      | Raise _ => []
      end :: received env symbol timeframe limit (S k) cs'
  end.

(** A number of iterations the loop cannot exceed from cursor [since]:
    the cursor moves by a millisecond at least, and a timestamp the loop
    goes on from has a float for its seconds. *)
Definition iterations_bound (since : Z) : nat :=
  Z.to_nat (Dt.MAX_DIVIDEND - since).

(** [p] contains no path separator. *)
Definition bare_name (p : string) : bool :=
  PyStr.all_chars (fun c => negb (Os.is_sep c)) p.

(** * Properties *)

(** ** Row normalizer *)

Lemma is_nan_false x : is_nan x = false <-> x <> NaN.
Proof. destruct x; simpl; split; intros; congruence. Qed.

Lemma clean_spec pd r c :
  clean pd r = Some c <-> valid_row pd r /\ candle_of pd r c.
Proof.
  unfold clean, valid_row, candle_of, numeric.
  destruct r as [ts o h l cl v]; simpl. destruct ts as [ms|]; simpl.
  - split.
    + intros H. case_match eqn:E; [done|]. simplify_eq. simpl in *.
      repeat (apply orb_false_elim in E as [E ?]).
      rewrite !is_nan_false in *. repeat split; eauto.
    + intros [(_ & Ho & Hh & Hl & Hc & Hv) (Ht & Eo & Eh & El & Ec & Ev)].
      destruct c; simpl in *. simplify_eq.
      apply is_nan_false in Ho, Hh, Hl, Hc, Hv. by rewrite Ho, Hh, Hl, Hc, Hv.
  - split; [done|]. intros [([? ?] & _) _]. done.
Qed.

Lemma clean_no_nan pd r c : clean pd r = Some c -> no_nan c.
Proof.
  intros [(_ & Ho & Hh & Hl & Hc & Hv) (_ & Eo & Eh & El & Ec & Ev)]%clean_spec.
  unfold no_nan, numeric in *. by rewrite Eo, Eh, El, Ec, Ev.
Qed.

Lemma convert_row_complete pd r fr :
  convert_row pd r = Ok fr -> Pd.complete fr = clean pd r.
Proof.
  unfold convert_row, Pd.to_datetime_entry, Pd.to_datetime_ms, clean, Pd.complete.
  destruct (raw_ts r) as [ms|]; simpl.
  - case_match; simpl; [|done]. intros; simplify_eq. done.
  - intros; simplify_eq. done.
Qed.

Lemma convert_rows_dropna pd ohlcv df :
  convert_rows pd ohlcv = Ok df -> Pd.dropna df = valid_candles pd ohlcv.
Proof.
  revert df. induction ohlcv as [|r rs IH]; simpl; intros df H.
  - by simplify_eq.
  - destruct (convert_row pd r) as [fr|] eqn:Er; simpl in H; [|done].
    destruct (convert_rows pd rs) as [frs|]; simpl in H; [|done].
    simplify_eq. unfold Pd.dropna, valid_candles. simpl.
    rewrite (convert_row_complete _ _ _ Er).
    specialize (IH _ eq_refl). unfold Pd.dropna, valid_candles in IH.
    change (list_omap frame_row candle Pd.complete frs) with (omap Pd.complete frs).
    by rewrite IH.
Qed.

Lemma convert_row_representable pd r :
  representable r -> is_Ok (convert_row pd r).
Proof.
  unfold representable, convert_row, Pd.to_datetime_entry, Pd.to_datetime_ms.
  destruct (raw_ts r) as [ms|]; simpl; intros H.
  - assert ((- Pd.MAX_NS <=? ms * Pd.NS_PER_MS) && (ms * Pd.NS_PER_MS <=? Pd.MAX_NS) = true) as ->.
    { apply andb_true_intro. split; apply Z.leb_le; lia. }
    simpl. by eexists.
  - by eexists.
Qed.

Lemma convert_rows_representable pd ohlcv :
  Forall representable ohlcv -> is_Ok (convert_rows pd ohlcv).
Proof.
  induction 1 as [|r rs Hr _ IH]; simpl; [by eexists|].
  destruct (convert_row_representable pd r Hr) as [fr ->].
  destruct IH as [frs ->]. simpl. by eexists.
Qed.

Lemma ohlcv_to_df_unfold pd ohlcv df :
  _ohlcv_to_df pd ohlcv = Ok df ->
  df = Pd.drop_duplicates (sort_values pd (valid_candles pd ohlcv)).
Proof.
  unfold _ohlcv_to_df. destruct (convert_rows pd ohlcv) as [frs|] eqn:E; simpl; [|done].
  intros; simplify_eq. by rewrite (convert_rows_dropna _ _ _ E).
Qed.

Lemma ohlcv_to_df_representable pd ohlcv :
  Forall representable ohlcv ->
  _ohlcv_to_df pd ohlcv = Ok (Pd.drop_duplicates (sort_values pd (valid_candles pd ohlcv))).
Proof.
  intros H. destruct (convert_rows_representable pd ohlcv H) as [frs E].
  unfold _ohlcv_to_df. rewrite E. simpl. by rewrite (convert_rows_dropna _ _ _ E).
Qed.

(** *** Facts on [drop_duplicates] *)

Section DropDuplicates.

Implicit Types (seen : gset Z) (df : list candle) (t : Z).

Local Abbreviation at_ t := (fun r : candle => timestamp r = t).

Lemma drop_duplicates_seen_elem seen df c :
  c ∈ Pd.drop_duplicates_seen seen df -> c ∈ df /\ timestamp c ∉ seen.
Proof.
  revert seen. induction df as [|r df IH]; simpl; intros seen H.
  - by apply elem_of_nil in H.
  - destruct (decide (timestamp r ∈ seen)).
    + destruct (IH _ H) as [? ?]. split; [by constructor|done].
    + apply elem_of_cons in H as [->|H]; [split; [by constructor|done]|].
      destruct (IH _ H) as [? Hnew]. split; [by constructor|].
      intros Hin. apply Hnew, elem_of_union. by right.
Qed.

(** One row per timestamp survives: the first one carrying it. *)
Lemma drop_duplicates_seen_filter seen df t :
  filter (at_ t) (Pd.drop_duplicates_seen seen df)
  = if decide (t ∈ seen) then [] else option_list (head (filter (at_ t) df)).
Proof.
  revert seen. induction df as [|r df IH]; simpl; intros seen.
  - by destruct (decide (t ∈ seen)).
  - destruct (decide (timestamp r ∈ seen)) as [Hin|Hout].
    + rewrite IH. destruct (decide (t ∈ seen)); [done|].
      rewrite (filter_cons_False (at_ t)); [done|]. simpl. congruence.
    + destruct (decide (timestamp r = t)) as [<-|Hne].
      * rewrite !(filter_cons_True (at_ (timestamp r))) by done.
        rewrite IH.
        rewrite decide_True by (apply elem_of_union; left; by apply elem_of_singleton).
        by rewrite decide_False.
      * rewrite !(filter_cons_False (at_ t)) by done.
        rewrite IH. destruct (decide (t ∈ seen)).
        -- by rewrite decide_True by (apply elem_of_union; by right).
        -- rewrite decide_False; [done|].
           rewrite elem_of_union, elem_of_singleton. intros [?|?]; congruence.
Qed.

Lemma drop_duplicates_filter df t :
  filter (at_ t) (Pd.drop_duplicates df) = option_list (head (filter (at_ t) df)).
Proof.
  unfold Pd.drop_duplicates. rewrite drop_duplicates_seen_filter.
  by rewrite decide_False by apply not_elem_of_empty.
Qed.

Lemma drop_duplicates_seen_sorted seen df :
  StronglySorted by_timestamp df ->
  StronglySorted earlier (Pd.drop_duplicates_seen seen df).
Proof.
  intros Hs. revert seen. induction Hs as [|r df Hs IH Hall]; simpl; intros seen.
  - constructor.
  - destruct (decide (timestamp r ∈ seen)); [apply IH|].
    constructor; [apply IH|].
    apply Forall_forall. intros c [Hc Hnew]%drop_duplicates_seen_elem.
    rewrite Forall_forall in Hall. specialize (Hall c Hc).
    unfold by_timestamp, earlier in *.
    assert (timestamp c <> timestamp r).
    { intros Heq. apply Hnew, elem_of_union. left. by apply elem_of_singleton. }
    lia.
Qed.

Lemma by_timestamp_transitive : Relations_1.Transitive by_timestamp.
Proof. intros a b c. unfold by_timestamp. lia. Qed.

Lemma drop_duplicates_sorted df :
  Sorted by_timestamp df -> StronglySorted earlier (Pd.drop_duplicates df).
Proof.
  intros Hs. apply drop_duplicates_seen_sorted.
  apply Sorted_StronglySorted; [apply by_timestamp_transitive|done].
Qed.

Lemma filter_head_elem (P : candle -> Prop) `{!forall c, Decision (P c)} df c :
  head (filter P df) = Some c -> c ∈ df /\ P c.
Proof.
  intros Hhd. assert (c ∈ filter P df) as Hc.
  { destruct (filter P df); simplify_eq/=. by constructor. }
  by apply list_elem_of_filter in Hc as [? ?].
Qed.

Lemma drop_duplicates_elem df c :
  c ∈ Pd.drop_duplicates df -> c ∈ df.
Proof. intros H. by apply drop_duplicates_seen_elem in H as [? _]. Qed.

(** Every timestamp of the frame is still there afterwards. *)
Lemma drop_duplicates_covers df c :
  c ∈ df -> exists c', c' ∈ Pd.drop_duplicates df /\ timestamp c' = timestamp c.
Proof.
  intros Hc.
  assert (c ∈ filter (at_ (timestamp c)) df) as Hf by by apply list_elem_of_filter.
  pose proof (drop_duplicates_filter df (timestamp c)) as Hd.
  destruct (filter (at_ (timestamp c)) df) as [|c' rest] eqn:E.
  - by apply elem_of_nil in Hf.
  - simpl in Hd. exists c'.
    assert (c' ∈ filter (at_ (timestamp c)) (Pd.drop_duplicates df)) as Hc'.
    { rewrite Hd. by constructor. }
    by apply list_elem_of_filter in Hc' as [? ?].
Qed.

End DropDuplicates.

Lemma strictly_sorted_NoDup (df : list candle) :
  StronglySorted earlier df -> NoDup (timestamp <$> df).
Proof.
  induction 1 as [|r df Hs IH Hall]; simpl; constructor; [|done].
  intros (c & Heq & Hc)%list_elem_of_fmap.
  rewrite Forall_forall in Hall. specialize (Hall c Hc). unfold earlier in Hall. lia.
Qed.

Lemma sort_values_elem pd df c : c ∈ sort_values pd df <-> c ∈ df.
Proof. by rewrite (sort_values_perm pd df). Qed.

Lemma valid_candles_elem pd ohlcv c :
  c ∈ valid_candles pd ohlcv <-> exists r, r ∈ ohlcv /\ clean pd r = Some c.
Proof. unfold valid_candles. apply list_elem_of_omap. Qed.

Lemma ohlcv_to_df_elem pd ohlcv df c :
  _ohlcv_to_df pd ohlcv = Ok df -> c ∈ df ->
  exists r, r ∈ ohlcv /\ valid_row pd r /\ candle_of pd r c.
Proof.
  intros -> %ohlcv_to_df_unfold Hc.
  apply drop_duplicates_elem, sort_values_elem, valid_candles_elem in Hc.
  destruct Hc as (r & Hr & [? ?]%clean_spec). eauto.
Qed.

Lemma candle_of_no_nan_valid pd r c :
  candle_of pd r c -> no_nan c -> valid_row pd r.
Proof.
  intros (Ht & Eo & Eh & El & Ec & Ev) (Ho & Hh & Hl & Hc & Hv).
  unfold valid_row, numeric. rewrite <- Eo, <- Eh, <- El, <- Ec, <- Ev.
  repeat split; try done. destruct (raw_ts r); [by eexists|done].
Qed.

Example sample_rows_normalized :
  _ohlcv_to_df pandas_stable sample_rows
  = Ok [ bar 3600000000000 1 1 1 1 1; bar 7200000000000 3 3 3 3 3 ].
Proof. vm_compute. reflexivity. Qed.

Ltac all_representable :=
  repeat (apply Forall_cons_2;
          [unfold representable, row, Pd.MAX_NS, Pd.NS_PER_MS; simpl;
           first [lia | exact I]|]);
  apply Forall_nil_2.

Lemma sample_rows_representable : Forall representable sample_rows.
Proof.
  unfold sample_rows. all_representable.
Qed.

(** *** C4 *)

(** C4, as stated, fails: a row whose open is the float infinity is kept,
    so not every value of the output is a finite number. *)
Lemma C4_infinite_value_kept :
  _ohlcv_to_df pandas_stable
    [RawRow (Some 0) (VFloat PInf) (VInt 1) (VInt 1) (VInt 1) (VInt 1)]
  = Ok [Candle 0 PInf (Fin 1) (Fin 1) (Fin 1) (Fin 1)]
  /\ ~ finite PInf.
Proof. split; [vm_compute; reflexivity | simpl; tauto]. Qed.

(** C4 (amended).  For every list of raw rows whose timestamps fit the
    [datetime64[ns]] range, [_ohlcv_to_df] returns a table whose timestamps
    strictly increase by position, without duplicates; every value of the
    table is a number other than NaN (an infinity is kept); no row of the
    table is the candle of a row with a missing or non-numeric field;
    every row of the table is the candle of an input row; the timestamp
    of every valid input row is in the table; and the candle of a valid
    row is in the table when no valid row with the same timestamp has
    other values. *)
Theorem C4_normalizer_sorted_and_clean (pd : pandas) (ohlcv : list raw_row) :
  Forall representable ohlcv ->
  exists df,
    _ohlcv_to_df pd ohlcv = Ok df
    /\ StronglySorted earlier df
    /\ NoDup (timestamp <$> df)
    /\ Forall no_nan df
    /\ (forall c r, c ∈ df -> candle_of pd r c -> valid_row pd r)
    /\ (forall c, c ∈ df -> exists r, r ∈ ohlcv /\ candle_of pd r c)
    /\ (forall r, r ∈ ohlcv -> valid_row pd r ->
          exists c, c ∈ df
            /\ (fun ms => ms * Pd.NS_PER_MS) <$> raw_ts r = Some (timestamp c))
    /\ (forall c, c ∈ valid_candles pd ohlcv ->
          (forall c', c' ∈ valid_candles pd ohlcv ->
                      timestamp c' = timestamp c -> c' = c) ->
          c ∈ df).
Proof.
  intros Hrep. eexists. split; [by apply ohlcv_to_df_representable|].
  pose proof (ohlcv_to_df_representable pd ohlcv Hrep) as Hdf.
  set (df := Pd.drop_duplicates _) in *.
  assert (StronglySorted earlier df) as Hsorted
    by apply drop_duplicates_sorted, sort_values_sorted.
  assert (Forall no_nan df) as Hnum.
  { apply Forall_forall. intros c Hc.
    destruct (ohlcv_to_df_elem _ _ _ _ Hdf Hc) as (r & _ & Hv & Hof).
    apply (clean_no_nan pd r). by apply clean_spec. }
  split; [done|]. split; [by apply strictly_sorted_NoDup|]. split; [done|].
  split; [|split; [|split]].
  - intros c r Hc Hof. rewrite Forall_forall in Hnum.
    eapply candle_of_no_nan_valid; eauto.
  - intros c Hc. destruct (ohlcv_to_df_elem _ _ _ _ Hdf Hc) as (r & ? & _ & ?). eauto.
  - intros r Hr Hv. destruct (raw_ts r) as [ms|] eqn:Ets; [|destruct Hv as [[? ?] _]; congruence].
    destruct (clean pd r) as [c|] eqn:Ec.
    + destruct (drop_duplicates_covers (sort_values pd (valid_candles pd ohlcv)) c)
        as (c' & Hc' & Heq).
      { apply sort_values_elem, valid_candles_elem. eauto. }
      exists c'. split; [done|]. simpl. rewrite Heq.
      apply clean_spec in Ec as [_ (Ht & _)]. by rewrite Ets in Ht.
    + exfalso. unfold clean in Ec. rewrite Ets in Ec.
      destruct Hv as (_ & Ho & Hh & Hl & Hc & Hvol). unfold numeric in *.
      apply is_nan_false in Ho, Hh, Hl, Hc, Hvol. simpl in Ec.
      by rewrite Ho, Hh, Hl, Hc, Hvol in Ec.
  - intros c Hc Huniq.
    destruct (drop_duplicates_covers (sort_values pd (valid_candles pd ohlcv)) c)
      as (c' & Hc' & Heq); [by apply sort_values_elem|].
    rewrite <- (Huniq c'); [done| |done].
    by apply drop_duplicates_elem, sort_values_elem in Hc'.
Qed.

Lemma C4_normalizer_witness :
  exists df,
    _ohlcv_to_df pandas_stable sample_rows = Ok df
    /\ StronglySorted earlier df
    /\ NoDup (timestamp <$> df)
    /\ Forall no_nan df
    /\ (forall c r, c ∈ df -> candle_of pandas_stable r c -> valid_row pandas_stable r)
    /\ (forall c, c ∈ df -> exists r, r ∈ sample_rows /\ candle_of pandas_stable r c)
    /\ (forall r, r ∈ sample_rows -> valid_row pandas_stable r ->
          exists c, c ∈ df
            /\ (fun ms => ms * Pd.NS_PER_MS) <$> raw_ts r = Some (timestamp c))
    /\ (forall c, c ∈ valid_candles pandas_stable sample_rows ->
          (forall c', c' ∈ valid_candles pandas_stable sample_rows ->
                      timestamp c' = timestamp c -> c' = c) ->
          c ∈ df).
Proof.
  apply (C4_normalizer_sorted_and_clean pandas_stable sample_rows).
  unfold sample_rows. all_representable.
Defined.

(** *** C5 *)

(** *** numpy's sort on small tables *)

Section SmallTables.

Variable df : list candle.

Local Abbreviation v := (fun i : nat => default 0 ((timestamp <$> df) !! i)).

Lemma take_rows_cons_valid (i : nat) (idx : list nat) :
  (i < length df)%nat ->
  exists c, df !! i = Some c /\ v i = timestamp c
            /\ take_rows df (i :: idx) = c :: take_rows df idx.
Proof.
  intros Hi. destruct (lookup_lt_is_Some_2 df i Hi) as [c Hc].
  exists c. split; [done|]. split.
  - cbv beta. by rewrite list_lookup_fmap, Hc.
  - unfold take_rows.
    change (omap ?f (?j :: ?l))
      with (match f j with Some y => y :: omap f l | None => omap f l end).
    cbv beta. by rewrite Hc.
Qed.

Lemma take_rows_timestamps (idx : list nat) :
  Forall (fun i => (i < length df)%nat) idx ->
  timestamp <$> take_rows df idx = v <$> idx.
Proof.
  induction 1 as [|i idx Hi _ IH]; [done|].
  destruct (take_rows_cons_valid i idx Hi) as (c & _ & Hv & ->).
  rewrite !fmap_cons, IH. by rewrite Hv.
Qed.

Lemma take_rows_filter (idx : list nat) (t : Z) :
  Forall (fun i => (i < length df)%nat) idx ->
  filter (fun c => timestamp c = t) (take_rows df idx)
  = take_rows df (filter (fun i => v i = t) idx).
Proof.
  induction 1 as [|i idx Hi _ IH]; [done|].
  destruct (take_rows_cons_valid i idx Hi) as (c & Hc & Hv & ->).
  rewrite !filter_cons, IH, Hv.
  destruct (decide (timestamp c = t)); [|done].
  destruct (take_rows_cons_valid i (filter (fun i => v i = t) idx) Hi)
    as (c' & Hc' & _ & ->).
  congruence.
Qed.

Lemma permutation_valid (idx : list nat) :
  Permutation idx (seq 0 (length df)) -> Forall (fun i => (i < length df)%nat) idx.
Proof.
  intros Hp. rewrite Forall_forall. intros i Hi. rewrite Hp in Hi.
  apply elem_of_seq in Hi. lia.
Qed.

(** A table of at most 16 rows is sorted by insertion, and rows with
    equal timestamps stay in their order. *)
Lemma numpy_sort_values_small :
  (length df <= 16)%nat ->
  numpy_sort_values df
  = take_rows df (NumPy.insertion v (seq 0 (length df))).
Proof.
  intros Hlen. unfold numpy_sort_values. cbv zeta.
  rewrite NumPy.argsort_small by (by rewrite length_fmap).
  rewrite length_fmap.
  pose proof (NumPy.insertion_perm v (seq 0 (length df))) as Hp.
  rewrite (proj2 (NumPy.is_permutation_spec _ _) Hp).
  rewrite take_rows_timestamps by (by apply permutation_valid).
  rewrite (proj2 (NumPy.is_sorted_spec v _)); [done|].
  apply StronglySorted_Sorted, NumPy.insertion_sorted.
Qed.

Lemma numpy_sort_values_keeps_ties (t : Z) :
  (length df <= 16)%nat ->
  filter (fun c => timestamp c = t) (numpy_sort_values df)
  = filter (fun c => timestamp c = t) df.
Proof.
  intros Hlen. rewrite numpy_sort_values_small by done.
  rewrite take_rows_filter
    by apply permutation_valid, NumPy.insertion_perm.
  rewrite NumPy.insertion_filter.
  rewrite <- take_rows_filter by apply permutation_valid, reflexivity.
  by rewrite take_rows_seq.
Qed.

End SmallTables.

(** C5, as stated, fails: of the two rows for 08:00 in two pages that
    overlap in that hour, eighteen rows in all, the normalizer keeps the
    one of the second page, the later row of the input.  (The partition
    step of the sort exchanges the two rows.) *)
Lemma C5_later_row_kept :
  exists df,
    _ohlcv_to_df pandas_numpy (page_early ++ page_late) = Ok df
    /\ filter (fun c => timestamp c = 1699084800000000000) df
       = [bar 1699084800000000000 200 200 200 200 200]
    /\ head (filter (fun c => timestamp c = 1699084800000000000)
                    (valid_candles pandas_numpy (page_early ++ page_late)))
       = Some (bar 1699084800000000000 108 108 108 108 108).
Proof.
  eexists. split; [vm_compute; reflexivity|]. split; vm_compute; reflexivity.
Qed.

(** C5 (amended).  For every list of raw rows (timestamps within the
    [datetime64[ns]] range) and every timestamp carried by at least one
    valid row, the normalizer keeps exactly one row with that timestamp; it
    is the candle of one of the valid rows carrying it, with that row's
    open, high, low, close and volume; and with the sort the library runs
    it is the first such row of the input when at most 16 valid rows enter
    the sort. *)
Theorem C5_one_row_per_timestamp (pd : pandas) (ohlcv : list raw_row) :
  Forall representable ohlcv ->
  exists df,
    _ohlcv_to_df pd ohlcv = Ok df
    /\ forall t,
        let group := filter (fun c => timestamp c = t) (valid_candles pd ohlcv) in
        group <> [] ->
        exists c,
          filter (fun c => timestamp c = t) df = [c]
          /\ c ∈ group
          /\ (sort_values pd = numpy_sort_values ->
              (length (valid_candles pd ohlcv) <= 16)%nat ->
              head group = Some c).
Proof.
  intros Hrep. eexists. split; [by apply ohlcv_to_df_representable|].
  intros t group Hne. rewrite drop_duplicates_filter.
  pose proof (sort_values_perm pd (valid_candles pd ohlcv)) as Hperm.
  assert (Permutation (filter (fun c => timestamp c = t)
                         (sort_values pd (valid_candles pd ohlcv))) group) as Hg.
  { unfold group. by rewrite Hperm. }
  destruct (filter _ (sort_values pd _)) as [|c rest] eqn:E.
  - apply Permutation_nil in Hg. done.
  - exists c. split; [done|]. split.
    + rewrite <- Hg. by constructor.
    + intros Hsort Hlen. unfold group.
      rewrite <- (numpy_sort_values_keeps_ties _ t Hlen), <- Hsort.
      by rewrite E.
Qed.

Lemma C5_one_row_per_timestamp_witness :
  exists df,
    _ohlcv_to_df pandas_numpy sample_rows = Ok df
    /\ forall t,
        let group :=
          filter (fun c => timestamp c = t) (valid_candles pandas_numpy sample_rows) in
        group <> [] ->
        exists c,
          filter (fun c => timestamp c = t) df = [c]
          /\ c ∈ group
          /\ (sort_values pandas_numpy = numpy_sort_values ->
              (length (valid_candles pandas_numpy sample_rows) <= 16)%nat ->
              head group = Some c).
Proof.
  apply (C5_one_row_per_timestamp pandas_numpy sample_rows).
  unfold sample_rows. all_representable.
Defined.

(** On the sample rows: of the two rows for 01:00 the first is kept. *)
Example sample_rows_numpy :
  _ohlcv_to_df pandas_numpy sample_rows
  = Ok [bar 3600000000000 1 1 1 1 1; bar 7200000000000 3 3 3 3 3].
Proof. vm_compute. reflexivity. Qed.

(** *** C9 *)

(** C9, as stated, fails: a negative volume passes through. *)
Lemma C9_negative_volume_kept :
  _ohlcv_to_df pandas_stable [row 0 1 1 1 1 (-5)] = Ok [bar 0 1 1 1 1 (-5)]
  /\ ~ nonneg_finite (volume (bar 0 1 1 1 1 (-5))).
Proof.
  split; [vm_compute; reflexivity|]. simpl. unfold Qle. simpl. lia.
Qed.

(** C9 (amended).  For every list of raw rows (timestamps within the
    [datetime64[ns]] range), every row of the table returned by the
    normalizer has a volume that is a number other than NaN and is the
    coerced volume of a valid input row with the same timestamp; the
    normalizer checks neither sign nor finiteness, and the volumes of the
    table are non-negative and finite whenever those of the valid input
    rows are. *)
Theorem C9_volume_is_coerced_input (pd : pandas) (ohlcv : list raw_row) :
  Forall representable ohlcv ->
  exists df,
    _ohlcv_to_df pd ohlcv = Ok df
    /\ Forall (fun c => volume c <> NaN
                 /\ exists r, r ∈ ohlcv /\ valid_row pd r
                      /\ (fun ms => ms * Pd.NS_PER_MS) <$> raw_ts r = Some (timestamp c)
                      /\ volume c = Pd.to_numeric pd (raw_volume r)) df
    /\ ((forall r, r ∈ ohlcv -> valid_row pd r ->
           nonneg_finite (Pd.to_numeric pd (raw_volume r))) ->
        Forall (fun c => nonneg_finite (volume c)) df).
Proof.
  intros Hrep. eexists. split; [by apply ohlcv_to_df_representable|].
  pose proof (ohlcv_to_df_representable pd ohlcv Hrep) as Hdf.
  set (df := Pd.drop_duplicates _) in *.
  split.
  - apply Forall_forall. intros c Hc.
    destruct (ohlcv_to_df_elem _ _ _ _ Hdf Hc) as (r & Hr & Hv & Hof).
    pose proof Hof as (Ht & _ & _ & _ & _ & Evol).
    split; [|by eauto 10].
    rewrite Evol. by destruct Hv as (_ & _ & _ & _ & _ & ?).
  - intros Hin. apply Forall_forall. intros c Hc.
    destruct (ohlcv_to_df_elem _ _ _ _ Hdf Hc) as (r & Hr & Hv & Hof).
    destruct Hof as (_ & _ & _ & _ & _ & ->). by apply Hin.
Qed.

Lemma C9_volume_witness :
  exists df,
    _ohlcv_to_df pandas_stable sample_rows = Ok df
    /\ Forall (fun c => volume c <> NaN
                 /\ exists r, r ∈ sample_rows /\ valid_row pandas_stable r
                      /\ (fun ms => ms * Pd.NS_PER_MS) <$> raw_ts r = Some (timestamp c)
                      /\ volume c = Pd.to_numeric pandas_stable (raw_volume r)) df
    /\ ((forall r, r ∈ sample_rows -> valid_row pandas_stable r ->
           nonneg_finite (Pd.to_numeric pandas_stable (raw_volume r))) ->
        Forall (fun c => nonneg_finite (volume c)) df).
Proof.
  apply (C9_volume_is_coerced_input pandas_stable sample_rows).
  unfold sample_rows. all_representable.
Defined.

(** ** Timeframe policy *)

Section Strings.

Implicit Types (s : string) (c : ascii).

Lemma endswith_snoc s c c' :
  PyStr.endswith (s ++ String c "") c' = Ascii.eqb c c'.
Proof.
  induction s as [|a s IH]; simpl; [done|].
  rewrite IH. destruct s; simpl; done.
Qed.

Lemma drop_last_snoc s c : PyStr.drop_last (s ++ String c "") = s.
Proof.
  induction s as [|a s IH]; simpl; [done|].
  rewrite IH. destruct s; simpl; done.
Qed.

Lemma endswith_split s c :
  PyStr.endswith s c = true -> s = (PyStr.drop_last s ++ String c "")%string.
Proof.
  induction s as [|a s IH]; [done|].
  destruct s as [|b s].
  - simpl. intros ->%Ascii.eqb_eq. done.
  - intros H. change (PyStr.endswith (String b s) c = true) in H.
    change (String a (String b s)
            = String a (PyStr.drop_last (String b s) ++ String c "")%string).
    f_equal. by apply IH.
Qed.

Lemma snoc_inj s1 s2 c1 c2 :
  (s1 ++ String c1 "")%string = (s2 ++ String c2 "")%string -> s1 = s2 /\ c1 = c2.
Proof.
  intros H. split.
  - by rewrite <- (drop_last_snoc s1 c1), H, drop_last_snoc.
  - pose proof (endswith_snoc s1 c1 c1) as E. rewrite H, endswith_snoc in E.
    rewrite Ascii.eqb_refl in E. by apply Ascii.eqb_eq in E.
Qed.

Lemma all_decimal_all_digit s :
  PyStr.all_chars PyStr.is_decimal s = true ->
  PyStr.all_chars PyStr.is_digit_char s = true.
Proof.
  induction s as [|a s IH]; simpl; [done|].
  intros [Ha Hs]%andb_prop. unfold PyStr.is_digit_char. rewrite Ha. simpl. auto.
Qed.

Lemma int_digits_not_decimal s acc :
  PyStr.all_chars PyStr.is_decimal s = false ->
  PyStr.int_digits acc s = Raise ValueError.
Proof.
  revert acc. induction s as [|a s IH]; simpl; intros acc H; [done|].
  destruct (PyStr.is_decimal a); simpl in *; [by apply IH|done].
Qed.

End Strings.

(** *** Decimal notation read back by [int] *)

Lemma int_digits_uint d acc :
  PyStr.int_digits acc (NilEmpty.string_of_uint d) = Ok (uint_value acc d).
Proof.
  revert acc. induction d; intros acc; simpl; try done; by rewrite IHd.
Qed.

Lemma all_decimal_uint d :
  PyStr.all_chars PyStr.is_decimal (NilEmpty.string_of_uint d) = true.
Proof. induction d; simpl; done. Qed.

Lemma of_uint_acc_value d acc :
  Z.pos (Pos.of_uint_acc d acc) = uint_value (Z.pos acc) d.
Proof.
  revert acc. induction d; intros acc; simpl; try done; rewrite IHd; f_equal; lia.
Qed.

Lemma of_uint_value d : Z.of_N (Pos.of_uint d) = uint_value 0 d.
Proof.
  induction d; simpl; try done; by rewrite of_uint_acc_value.
Qed.

Lemma is_decimal_uint_of_char c u :
  PyStr.is_decimal c = true -> is_Some (uint_of_char c (Some u)).
Proof.
  destruct c as [[] [] [] [] [] [] [] []]; try discriminate; intros _; by eexists.
Qed.

Lemma all_decimal_uint_of_string ds :
  PyStr.all_chars PyStr.is_decimal ds = true -> is_Some (NilEmpty.uint_of_string ds).
Proof.
  induction ds as [|c ds IH]; simpl; [by eexists|].
  intros [Hc Hds]%andb_prop. destruct (IH Hds) as [u ->].
  by apply is_decimal_uint_of_char.
Qed.

Lemma numeral_is_Some ds :
  ds <> "" -> PyStr.all_chars PyStr.is_decimal ds = true -> is_Some (numeral ds).
Proof.
  intros Hne Hd. destruct (all_decimal_uint_of_string ds Hd) as [u Hu].
  unfold numeral. destruct ds; [done|]. rewrite Hu. by eexists.
Qed.

(** What [isdigit] and [int] make of a numeral. *)
Lemma numeral_spec ds n :
  numeral ds = Some n ->
  ds <> "" /\ PyStr.isdigit ds = true /\ PyStr.int_digits 0 ds = Ok n /\ 0 <= n.
Proof.
  intros Hn. assert (ds <> "") as Hne by (by intros ->).
  unfold numeral in Hn. destruct ds as [|c ds]; [done|].
  destruct (NilEmpty.uint_of_string (String c ds)) as [u|] eqn:Hu; [|done].
  injection Hn as <-. apply NilEmpty.sus in Hu.
  split; [done|]. split.
  - unfold PyStr.isdigit. rewrite <- Hu.
    apply all_decimal_all_digit, all_decimal_uint.
  - rewrite <- Hu, int_digits_uint. split; [|lia]. f_equal. symmetry. apply of_uint_value.
Qed.

Lemma numeral_int ds n :
  numeral ds = Some n -> (String.length ds <= PyStr.MAX_STR_DIGITS)%nat ->
  PyStr.int ds = Ok n.
Proof.
  intros (_ & _ & Hint & _)%numeral_spec Hlen. unfold PyStr.int.
  by rewrite (proj2 (Nat.ltb_ge _ _) Hlen).
Qed.

Lemma ascii_digit_decimal c :
  (PyStr.code c <? 128) = true -> PyStr.is_digit_char c = true ->
  PyStr.is_decimal c = true.
Proof.
  unfold PyStr.is_digit_char. intros Ha%Z.ltb_lt H.
  repeat (apply orb_prop in H as [H|H]); [done|apply Z.eqb_eq in H; lia..].
Qed.

Lemma ascii_digits_decimal s :
  ascii_label s = true -> PyStr.all_chars PyStr.is_digit_char s = true ->
  PyStr.all_chars PyStr.is_decimal s = true.
Proof.
  unfold ascii_label. induction s as [|c s IH]; simpl; [done|].
  intros [Hc Hs]%andb_prop [Hd Hds]%andb_prop.
  rewrite (ascii_digit_decimal c Hc Hd). simpl. auto.
Qed.

Lemma ascii_label_drop_last s : ascii_label s = true -> ascii_label (PyStr.drop_last s) = true.
Proof.
  unfold ascii_label. induction s as [|c s IH]; [done|].
  destruct s as [|c' s]; [done|].
  change (PyStr.drop_last (String c (String c' s)))
    with (String c (PyStr.drop_last (String c' s))).
  cbn [PyStr.all_chars]. intros [-> Hs]%andb_prop. simpl. by apply IH.
Qed.

(** An ASCII string that passes [isdigit] is a numeral. *)
Lemma ascii_isdigit_numeral ds :
  ascii_label ds = true -> PyStr.isdigit ds = true -> is_Some (numeral ds).
Proof.
  intros Ha Hd. unfold PyStr.isdigit in Hd. destruct ds as [|c ds]; [done|].
  apply numeral_is_Some; [done|]. by apply ascii_digits_decimal.
Qed.

(** *** Which durations [timedelta] accepts *)

Lemma timedelta_hours_range h :
  0 <= h ->
  Dt.timedelta_hours h
  = if h <? 24000000000 then Ok (hours h) else Raise OverflowError.
Proof.
  intros Hh. unfold Dt.timedelta_hours, Dt.timedelta_of_us, hours.
  unfold Dt.MAX_DELTA_DAYS, Dt.US_PER_HOUR, Dt.US_PER_DAY, Dt.US_PER_SECOND.
  cbv zeta.
  replace (h * (3600 * 1000000) / (86400 * 1000000)) with (h / 24).
  2:{ change (86400 * 1000000) with (24 * (3600 * 1000000)).
      by rewrite Z.div_mul_cancel_r. }
  destruct (h <? 24000000000) eqn:E.
  - apply Z.ltb_lt in E.
    match goal with |- (if ?c then _ else _) = _ => assert (c = true) as -> end; [|done].
    apply andb_true_intro. split; apply Z.leb_le; Z.div_mod_to_equations; lia.
  - apply Z.ltb_ge in E.
    match goal with |- (if ?c then _ else _) = _ => assert (c = false) as -> end; [|done].
    apply andb_false_intro2, Z.leb_gt. Z.div_mod_to_equations; lia.
Qed.

Lemma timedelta_days_range d :
  0 <= d ->
  Dt.timedelta_days d
  = if d <=? 999999999 then Ok (days d) else Raise OverflowError.
Proof.
  intros Hd. unfold Dt.timedelta_days, Dt.timedelta_of_us, days.
  unfold Dt.MAX_DELTA_DAYS. cbv zeta.
  rewrite Z.div_mul by done.
  destruct (d <=? 999999999) eqn:E.
  - apply Z.leb_le in E.
    match goal with |- (if ?c then _ else _) = _ => assert (c = true) as -> end; [|done].
    rewrite andb_true_r. apply Z.leb_le. lia.
  - by rewrite andb_false_r.
Qed.

(** *** C6 *)

(** C6, as stated, fails: the label of one thousand million days is
    refused, since [timedelta] holds at most 999999999 days. *)
Lemma C6_overflow_on_large_label :
  _near_now_delta "1000000000d" = Raise OverflowError.
Proof. vm_compute. reflexivity. Qed.

Lemma near_now_delta_generic_h ds :
  PyStr.isdigit ds = true -> (ds ++ "h")%string <> "1h" ->
  _near_now_delta (ds ++ "h")
  = (n ← PyStr.int ds; Dt.timedelta_hours (Z.max 2 (n * 2))).
Proof.
  intros Hd Hne. unfold _near_now_delta.
  rewrite decide_False by done.
  rewrite decide_False.
  2:{ intros H. apply (snoc_inj ds "1" "h" "d") in H as [_ ?]. done. }
  by rewrite endswith_snoc, drop_last_snoc, Hd.
Qed.

Lemma near_now_delta_generic_d ds :
  PyStr.isdigit ds = true -> (ds ++ "d")%string <> "1d" ->
  _near_now_delta (ds ++ "d")
  = (n ← PyStr.int ds; Dt.timedelta_days (Z.max 1 n)).
Proof.
  intros Hd Hne. unfold _near_now_delta.
  rewrite decide_False.
  2:{ intros H. apply (snoc_inj ds "1" "d" "h") in H as [_ ?]. done. }
  rewrite decide_False by done.
  rewrite endswith_snoc, drop_last_snoc, Hd. simpl.
  by rewrite endswith_snoc.
Qed.

(** C6 (amended).  [_near_now_delta] returns 2 hours for "1h" and 1 day
    for "1d"; for a label made of at most 4300 digits 0 to 9 (leading zeros
    allowed) that write the number N, followed by h, max(2, 2N) hours when
    N is below 12000000000 and [OverflowError] otherwise; for such digits
    followed by d, max(1, N) days when N is at most 999999999 and
    [OverflowError] otherwise; and 2 hours for every other label of ASCII
    characters. *)
Theorem C6_near_now_delta_policy :
  _near_now_delta "1h" = Ok (hours 2)
  /\ _near_now_delta "1d" = Ok (days 1)
  /\ (forall ds n,
        numeral ds = Some n -> (String.length ds <= 4300)%nat ->
        _near_now_delta (ds ++ "h")
        = if n <? 12000000000
          then Ok (hours (Z.max 2 (2 * n))) else Raise OverflowError)
  /\ (forall ds n,
        numeral ds = Some n -> (String.length ds <= 4300)%nat ->
        _near_now_delta (ds ++ "d")
        = if n <=? 999999999
          then Ok (days (Z.max 1 n)) else Raise OverflowError)
  /\ (forall tf,
        ascii_label tf = true ->
        (forall ds, is_Some (numeral ds) ->
                    tf <> (ds ++ "h")%string /\ tf <> (ds ++ "d")%string) ->
        _near_now_delta tf = Ok (hours 2)).
Proof.
  split; [done|]. split; [done|]. split; [|split].
  - intros ds n Hn Hlen. pose proof (numeral_spec _ _ Hn) as (_ & Hdig & _ & Hpos).
    destruct (decide ((ds ++ "h")%string = "1h")) as [E|E].
    + apply (snoc_inj ds "1" "h" "h") in E as [-> _].
      assert (n = 1) as -> by (vm_compute in Hn; congruence). done.
    + rewrite near_now_delta_generic_h by done.
      rewrite (numeral_int _ _ Hn Hlen). cbn [mbind result_bind].
      rewrite timedelta_hours_range by lia.
      replace (n * 2) with (2 * n) by lia.
      destruct (n <? 12000000000) eqn:Hlt.
      * apply Z.ltb_lt in Hlt.
        by assert ((Z.max 2 (2 * n) <? 24000000000) = true) as ->
          by (apply Z.ltb_lt; lia).
      * apply Z.ltb_ge in Hlt.
        by assert ((Z.max 2 (2 * n) <? 24000000000) = false) as ->
          by (apply Z.ltb_ge; lia).
  - intros ds n Hn Hlen. pose proof (numeral_spec _ _ Hn) as (_ & Hdig & _ & Hpos).
    destruct (decide ((ds ++ "d")%string = "1d")) as [E|E].
    + apply (snoc_inj ds "1" "d" "d") in E as [-> _].
      assert (n = 1) as -> by (vm_compute in Hn; congruence). done.
    + rewrite near_now_delta_generic_d by done.
      rewrite (numeral_int _ _ Hn Hlen). cbn [mbind result_bind].
      rewrite timedelta_days_range by lia.
      destruct (n <=? 999999999) eqn:Hle.
      * apply Z.leb_le in Hle.
        by assert ((Z.max 1 n <=? 999999999) = true) as ->
          by (apply Z.leb_le; lia).
      * apply Z.leb_gt in Hle.
        by assert ((Z.max 1 n <=? 999999999) = false) as ->
          by (apply Z.leb_gt; lia).
  - intros tf Hascii Hother. unfold _near_now_delta.
    assert (is_Some (numeral "1")) as H1 by (by eexists).
    rewrite decide_False by (intros ->; by destruct (Hother "1" H1)).
    rewrite decide_False by (intros ->; by destruct (Hother "1" H1)).
    pose proof (ascii_label_drop_last _ Hascii) as Hdrop.
    destruct (PyStr.endswith tf "h" && PyStr.isdigit (PyStr.drop_last tf)) eqn:Eh.
    { apply andb_prop in Eh as [Hend Hdig]. apply endswith_split in Hend.
      by destruct (Hother _ (ascii_isdigit_numeral _ Hdrop Hdig)). }
    destruct (PyStr.endswith tf "d" && PyStr.isdigit (PyStr.drop_last tf)) eqn:Ed.
    { apply andb_prop in Ed as [Hend Hdig]. apply endswith_split in Hend.
      by destruct (Hother _ (ascii_isdigit_numeral _ Hdrop Hdig)). }
    done.
Qed.

Lemma C6_near_now_delta_witness :
  _near_now_delta "15m" = Ok (hours 2)
  /\ _near_now_delta "007h" = Ok (hours 14)
  /\ _near_now_delta "7d" = Ok (days 7).
Proof.
  destruct C6_near_now_delta_policy as (_ & _ & Hh & Hd & Hother).
  split; [|split].
  - apply Hother; [reflexivity|]. intros ds _. split; intros H.
    + apply (snoc_inj "15" ds "m" "h") in H as [_ ?]. done.
    + apply (snoc_inj "15" ds "m" "d") in H as [_ ?]. done.
  - apply (Hh "007" 7); [reflexivity|simpl; lia].
  - apply (Hd "7" 7); [reflexivity|simpl; lia].
Defined.

(** Labels the amended claim leaves out: more digits than [int] reads, and
    a digit of [isdigit] that [int] does not read. *)
Example near_now_delta_superscript_digit :
  _near_now_delta (String (ascii_of_nat 178) "h") = Raise ValueError.
Proof. vm_compute. reflexivity. Qed.

(** ** Pagination engine *)

Section ServingFacts.

Variable env : environment.
Variables (symbol timeframe : string) (limit : Z) (sleep_seconds : Q).
Variable near_now_delta : Z.

Local Abbreviation serves_ := (serves env symbol timeframe limit sleep_seconds near_now_delta).
Local Abbreviation continuing_ := (continuing env sleep_seconds near_now_delta).
Local Abbreviation near_now_ := (near_now env near_now_delta).
Local Abbreviation body := (loop_body env symbol timeframe limit sleep_seconds near_now_delta).
Local Abbreviation loop := (paginate env symbol timeframe limit sleep_seconds near_now_delta).

Lemma sleep_ok (seconds : Q) :
  (0 <= seconds)%Q -> (seconds <= MAX_PAUSE)%Q -> sleep seconds = Ok tt.
Proof.
  intros H0 Hmax. unfold sleep. cbv zeta.
  assert (Qle_bool (inject_Z (2 ^ 63)) (seconds * inject_Z 1000000000) = false) as ->.
  { apply not_true_is_false. intros H%Qle_bool_iff.
    apply (Qmult_le_compat_r _ _ (inject_Z 1000000000)) in Hmax; [|done].
    pose proof (Qle_trans _ _ _ H Hmax) as Hc. vm_compute in Hc. by apply Hc. }
  assert (Qle_bool (inject_Z (- 2 ^ 63)) (seconds * inject_Z 1000000000) = true) as ->.
  { apply Qle_bool_iff. apply (Qle_trans _ 0); [done|].
    apply Qmult_le_0_compat; done. }
  simpl. by rewrite (proj2 (Qle_bool_iff _ _) H0).
Qed.

Lemma sleep_negative (seconds : Q) :
  (- MAX_PAUSE <= seconds)%Q -> (seconds < 0)%Q -> sleep seconds = Raise ValueError.
Proof.
  intros Hmin Hneg. unfold sleep. cbv zeta.
  assert (Qle_bool (inject_Z (2 ^ 63)) (seconds * inject_Z 1000000000) = false) as ->.
  { apply not_true_is_false. intros H%Qle_bool_iff.
    assert (seconds * inject_Z 1000000000 <= 0 * inject_Z 1000000000)%Q as Hc.
    { apply Qmult_le_compat_r; [by apply Qlt_le_weak|done]. }
    pose proof (Qle_trans _ _ _ H Hc) as Hc'. vm_compute in Hc'. by apply Hc'. }
  assert (Qle_bool (inject_Z (- 2 ^ 63)) (seconds * inject_Z 1000000000) = true) as ->.
  { apply Qle_bool_iff.
    apply (Qmult_le_compat_r _ _ (inject_Z 1000000000)) in Hmin; [|done].
    apply (Qle_trans _ (- MAX_PAUSE * inject_Z 1000000000)); [done|exact Hmin]. }
  simpl. destruct (Qle_bool 0 seconds) eqn:E; [|done].
  apply Qle_bool_iff in E. exfalso. by apply (Qlt_not_le _ _ Hneg).
Qed.

Lemma stamped_head_last page last_ms :
  stamped page last_ms ->
  exists first lst first_ms first_dt last_dt,
    head page = Some first /\ last page = Some lst
    /\ raw_ts first = Some first_ms /\ raw_ts lst = Some last_ms
    /\ Dt.fromtimestamp_ms first_ms = Ok first_dt
    /\ Dt.fromtimestamp_ms last_ms = Ok last_dt.
Proof.
  intros (first_ms & Hf & Hl & [first_dt ?] & [last_dt ?]). unfold first_ts, last_ts in *.
  destruct (head page) as [first|]; [|done].
  destruct (last page) as [lst|]; [|done].
  simpl in *. eauto 12.
Qed.

(** [after_page] once the two stamps of the page are instants. *)
Lemma after_page_stamped since first lst w first_ms last_ms first_dt last_dt :
  raw_ts first = Some first_ms -> raw_ts lst = Some last_ms ->
  Dt.fromtimestamp_ms first_ms = Ok first_dt ->
  Dt.fromtimestamp_ms last_ms = Ok last_dt ->
  after_page env sleep_seconds near_now_delta since first lst w
  = if last_ms + 1 <=? since then (Ok Break, w)
    else
      match Dt.sub (now env (clock_reads w)) near_now_delta with
      | Raise e => (Raise e, tick w)
      | Ok cutoff =>
          if cutoff <=? last_dt then (Ok Break, tick w)
          else
            match sleep sleep_seconds with
            | Raise e => (Raise e, tick w)
            | Ok _ => (Ok (Continue (last_ms + 1)), tick w)
            end
      end.
Proof.
  intros Hf Hl Hfd Hld. unfold after_page, ts_field.
  rewrite Hf, Hl. cbn [mbind result_bind]. rewrite Hfd. cbn [mbind result_bind].
  rewrite Hld. cbn [mbind result_bind]. done.
Qed.

(** [after_page] when a stamp is missing or is no instant: the exception
    comes before the clock is read. *)
Lemma after_page_cases since first lst w :
  (exists e, after_page env sleep_seconds near_now_delta since first lst w = (Raise e, w))
  \/ exists first_ms last_ms first_dt last_dt,
       raw_ts first = Some first_ms /\ raw_ts lst = Some last_ms
       /\ Dt.fromtimestamp_ms first_ms = Ok first_dt
       /\ Dt.fromtimestamp_ms last_ms = Ok last_dt.
Proof.
  unfold after_page, ts_field.
  destruct (raw_ts first) as [first_ms|]; cbn [mbind result_bind]; [|by eauto].
  destruct (Dt.fromtimestamp_ms first_ms) as [first_dt|] eqn:E1;
    cbn [mbind result_bind]; [|by eauto].
  destruct (raw_ts lst) as [last_ms|]; cbn [mbind result_bind]; [|by eauto].
  destruct (Dt.fromtimestamp_ms last_ms) as [last_dt|] eqn:E2;
    cbn [mbind result_bind]; [|by eauto].
  right. by eexists _, _, _, _.
Qed.

Lemma loop_body_empty since all_rows w :
  fetch_ohlcv env (length (requests w)) symbol timeframe since limit = Ok [] ->
  body since all_rows w = (Ok (Break, all_rows), log_request since w).
Proof. intros H. unfold loop_body. by rewrite H. Qed.

Lemma loop_body_error since all_rows w e :
  fetch_ohlcv env (length (requests w)) symbol timeframe since limit = Raise e ->
  body since all_rows w = (Raise e, log_request since w).
Proof. intros H. unfold loop_body. by rewrite H. Qed.

Lemma loop_body_stagnant since all_rows w page last_ms :
  fetch_ohlcv env (length (requests w)) symbol timeframe since limit = Ok page ->
  stamped page last_ms -> last_ms + 1 <= since ->
  body since all_rows w = (Ok (Break, (all_rows ++ page)%list), log_request since w).
Proof.
  intros H (first & lst & first_ms & first_dt & last_dt & Hh & Hl & Hf & Hm & Hr1 & Hr2)
           %stamped_head_last Hle.
  unfold loop_body. rewrite H, Hh, Hl.
  rewrite (after_page_stamped _ _ _ _ _ _ _ _ Hf Hm Hr1 Hr2).
  by rewrite (proj2 (Z.leb_le _ _) Hle).
Qed.

Lemma loop_body_near_now since all_rows w page last_ms :
  fetch_ohlcv env (length (requests w)) symbol timeframe since limit = Ok page ->
  stamped page last_ms -> since < last_ms + 1 -> near_now_ (clock_reads w) last_ms ->
  body since all_rows w
  = (Ok (Break, (all_rows ++ page)%list), tick (log_request since w)).
Proof.
  intros H (first & lst & first_ms & first_dt & last_dt' & Hh & Hl & Hf & Hm & Hr1 & Hr2)
           %stamped_head_last
         Hlt (last_dt & cutoff & Hdt & Hsub & Hcut).
  unfold loop_body. rewrite H, Hh, Hl.
  rewrite (after_page_stamped _ _ _ _ _ _ _ _ Hf Hm Hr1 Hdt).
  rewrite (proj2 (Z.leb_gt _ _) Hlt). cbn [log_request clock_reads]. rewrite Hsub.
  by rewrite (proj2 (Z.leb_le _ _) Hcut).
Qed.

Lemma loop_body_continuing since all_rows w page last_ms :
  fetch_ohlcv env (length (requests w)) symbol timeframe since limit = Ok page ->
  continuing_ since (clock_reads w) page last_ms ->
  body since all_rows w
  = (Ok (Continue (last_ms + 1), (all_rows ++ page)%list), tick (log_request since w)).
Proof.
  intros H ((first & lst & first_ms & first_dt & last_dt' & Hh & Hl & Hf & Hm & Hr1 & Hr2)
              %stamped_head_last
            & Hlt & (last_dt & cutoff & Hdt & Hsub & Hcut) & Hsleep & Hpause).
  unfold loop_body. rewrite H, Hh, Hl.
  rewrite (after_page_stamped _ _ _ _ _ _ _ _ Hf Hm Hr1 Hdt).
  rewrite (proj2 (Z.leb_gt _ _) Hlt). cbn [log_request clock_reads]. rewrite Hsub.
  rewrite (proj2 (Z.leb_gt _ _) Hcut).
  by rewrite (sleep_ok _ Hsleep Hpause).
Qed.

Lemma after_page_not_advancing since first lst w last_ms :
  raw_ts lst = Some last_ms -> last_ms + 1 <= since ->
  (exists e, after_page env sleep_seconds near_now_delta since first lst w = (Raise e, w))
  \/ after_page env sleep_seconds near_now_delta since first lst w = (Ok Break, w).
Proof.
  intros Hl Hle.
  destruct (after_page_cases since first lst w)
    as [?|(first_ms & last_ms' & first_dt & last_dt & Hf & Hl' & Hr1 & Hr2)]; [by left|].
  right. rewrite (after_page_stamped _ _ _ _ _ _ _ _ Hf Hl' Hr1 Hr2).
  simplify_eq. by rewrite (proj2 (Z.leb_le _ _) Hle).
Qed.

Lemma after_page_near_now since first lst w last_ms :
  raw_ts lst = Some last_ms -> since < last_ms + 1 ->
  near_now_ (clock_reads w) last_ms ->
  (exists e, after_page env sleep_seconds near_now_delta since first lst w = (Raise e, w))
  \/ after_page env sleep_seconds near_now_delta since first lst w = (Ok Break, tick w).
Proof.
  intros Hl Hlt (last_dt & cutoff & Hdt & Hsub & Hcut).
  destruct (after_page_cases since first lst w)
    as [?|(first_ms & last_ms' & first_dt & last_dt' & Hf & Hl' & Hr1 & Hr2)]; [by left|].
  right. rewrite (after_page_stamped _ _ _ _ _ _ _ _ Hf Hl' Hr1 Hr2).
  assert (last_ms' = last_ms) as -> by congruence.
  assert (last_dt' = last_dt) as -> by congruence.
  rewrite (proj2 (Z.leb_gt _ _) Hlt), Hsub.
  by rewrite (proj2 (Z.leb_le _ _) Hcut).
Qed.

Lemma last_ts_rows page last_ms :
  last_ts page = Some last_ms ->
  exists first lst,
    head page = Some first /\ last page = Some lst /\ raw_ts lst = Some last_ms.
Proof.
  unfold last_ts. destruct page as [|first rest]; [done|].
  destruct (last (first :: rest)) as [lst|]; [|done]. simpl. eauto.
Qed.

(** A page that does not move the cursor ends the loop in its iteration,
    whatever its rows. *)
Lemma loop_body_not_advancing since all_rows w page last_ms :
  fetch_ohlcv env (length (requests w)) symbol timeframe since limit = Ok page ->
  last_ts page = Some last_ms -> last_ms + 1 <= since ->
  exists out,
    body since all_rows w = (out, log_request since w)
    /\ (out = Ok (Break, (all_rows ++ page)%list) \/ exists e, out = Raise e).
Proof.
  intros H (first & lst & Hh & Hl & Hts)%last_ts_rows Hle.
  unfold loop_body. rewrite H, Hh, Hl.
  destruct (after_page_not_advancing since first lst (log_request since w) _ Hts Hle)
    as [[e ->]| ->]; eauto.
Qed.

(** So does a page that ends within the near-now distance. *)
Lemma loop_body_within_near_now since all_rows w page last_ms :
  fetch_ohlcv env (length (requests w)) symbol timeframe since limit = Ok page ->
  last_ts page = Some last_ms -> since < last_ms + 1 ->
  near_now_ (clock_reads w) last_ms ->
  exists out w',
    body since all_rows w = (out, w')
    /\ files w' = files w /\ requests w' = (requests w ++ [since])%list
    /\ (out = Ok (Break, (all_rows ++ page)%list) \/ exists e, out = Raise e).
Proof.
  intros H (first & lst & Hh & Hl & Hts)%last_ts_rows Hlt Hnear.
  unfold loop_body. rewrite H, Hh, Hl.
  destruct (after_page_near_now since first lst (log_request since w) _ Hts Hlt Hnear)
    as [[e ->]| ->]; eauto 10.
Qed.

Lemma continuing_next_cursor since tk page last_ms :
  continuing_ since tk page last_ms -> next_cursor since page = last_ms + 1.
Proof.
  intros ((? & _ & Hl & _) & _). unfold next_cursor. by rewrite Hl.
Qed.

(** The loop runs through a served sequence of pages, one iteration
    each. *)
Lemma paginate_serves pages : forall since all_rows w fuel,
  serves_ (length (requests w)) since (clock_reads w) pages ->
  loop (length pages + fuel) since all_rows w
  = loop fuel (cursor_after since pages) (all_rows ++ concat pages)%list
      (World (files w) (requests w ++ cursors since pages)%list
             (clock_reads w + length pages)).
Proof.
  induction pages as [|p ps IH]; intros since all_rows w fuel Hs.
  - simpl. rewrite !app_nil_r, Nat.add_0_r. by destruct w.
  - destruct Hs as (Hp & last_ms & Hc & Hs).
    change (length (p :: ps) + fuel)%nat with (S (length ps + fuel)).
    cbn [paginate]. rewrite (loop_body_continuing _ _ _ _ _ Hp Hc).
    pose proof (continuing_next_cursor _ _ _ _ Hc) as Hn.
    rewrite IH.
    + cbn [cursor_after foldl cursors concat length]. rewrite Hn.
      unfold cursor_after. simpl.
      rewrite <- !app_assoc. simpl. do 2 f_equal. lia.
    + simpl. by rewrite length_app, Nat.add_1_r.
Qed.

End ServingFacts.

Lemma finish_no_cache pd all_rows w :
  finish pd None all_rows w = (_ohlcv_to_df pd all_rows, w).
Proof. unfold finish. by destruct (_ohlcv_to_df pd all_rows). Qed.

Lemma ohlcv_to_df_nil pd : _ohlcv_to_df pd [] = Ok [].
Proof.
  unfold _ohlcv_to_df. simpl. f_equal.
  pose proof (sort_values_perm pd []) as H. apply Permutation_nil_r in H.
  unfold Pd.dropna. simpl. by rewrite H.
Qed.

(** [fetch_ohlcv_full] past the cache check and the set-up. *)
Lemma fetch_ohlcv_full_miss pd env fuel timeframe symbol limit sleep_seconds
    cache_path w since near_now_delta :
  cache_lookup cache_path w = None ->
  fetch_setup env timeframe w = Ok (since, near_now_delta) ->
  fetch_ohlcv_full pd env fuel timeframe symbol limit sleep_seconds cache_path w
  = match paginate env symbol timeframe limit sleep_seconds near_now_delta
            fuel since [] (tick w) with
    | None => None
    | Some (Raise e, w2) => Some (Raise e, w2)
    | Some (Ok all_rows, w2) => Some (finish pd cache_path all_rows w2)
    end.
Proof. intros Hc Hs. unfold fetch_ohlcv_full. by rewrite Hc, Hs. Qed.

Lemma length_cursors since pages : length (cursors since pages) = length pages.
Proof. revert since. induction pages as [|p ps IH]; intros since; simpl; [done|]. by rewrite IH. Qed.

(** The loop after a served sequence of pages, at its last request. *)
Lemma paginate_after_pages env symbol timeframe limit sleep_seconds delta
    pages since w fuel :
  serves env symbol timeframe limit sleep_seconds delta
         (length (requests w)) since (S (clock_reads w)) pages ->
  (length pages < fuel)%nat ->
  exists w',
    w' = World (files w) (requests w ++ cursors since pages)%list
               (S (clock_reads w) + length pages)
    /\ length (requests w') = (length (requests w) + length pages)%nat
    /\ paginate env symbol timeframe limit sleep_seconds delta fuel since [] (tick w)
       = match
           loop_body env symbol timeframe limit sleep_seconds delta
                     (cursor_after since pages) (concat pages) w'
         with
         | (Raise e, w2) => Some (Raise e, w2)
         | (Ok (Break, all_rows), w2) => Some (Ok all_rows, w2)
         | (Ok (Continue since', all_rows), w2) =>
             paginate env symbol timeframe limit sleep_seconds delta
                      (fuel - S (length pages)) since' all_rows w2
         end.
Proof.
  intros Hs Hfuel. eexists. split; [done|]. split.
  { simpl. by rewrite length_app, length_cursors. }
  replace fuel with (length pages + S (fuel - S (length pages)))%nat at 1 by lia.
  rewrite paginate_serves by done. simpl. done.
Qed.

Example stub_setup responses :
  fetch_setup (stub responses) "1h" world0 = Ok (SINCE0, hours 2).
Proof. vm_compute. reflexivity. Qed.

Ltac solve_stamped :=
  eexists; split; [reflexivity|]; split; [reflexivity|];
  split; eexists; vm_compute; reflexivity.

Ltac solve_far_from_now :=
  eexists _, _; split; [vm_compute; reflexivity|];
  split; [vm_compute; reflexivity|vm_compute; reflexivity].

Ltac solve_continuing :=
  split; [solve_stamped|];
  split; [vm_compute; reflexivity|];
  split; [solve_far_from_now|];
  split; vm_compute; discriminate.

(** *** The instants and the pause the loop computes *)

(** Up to the year 2242 the quotient [ms / 1000] leaves the microseconds
    intact; later its last bit is worth more than a microsecond and the
    instant comes out a microsecond off. *)
Example fromtimestamp_ms_2023 : Dt.fromtimestamp_ms 1699059600000 = Ok 1699059600000000.
Proof. vm_compute. reflexivity. Qed.

Example fromtimestamp_ms_before_epoch : Dt.fromtimestamp_ms (-1001) = Ok (-1001000).
Proof. vm_compute. reflexivity. Qed.

Example fromtimestamp_ms_2243_above :
  Dt.fromtimestamp_ms 8615030400002 = Ok 8615030400002001.
Proof. vm_compute. reflexivity. Qed.

Example fromtimestamp_ms_2243_below :
  Dt.fromtimestamp_ms 8615030400001 = Ok 8615030400000999.
Proof. vm_compute. reflexivity. Qed.

(** Past the year 9999, past what [gmtime] converts, past [time_t]. *)
Example fromtimestamp_ms_refused :
  Dt.fromtimestamp_ms 253402300800000 = Raise ValueError
  /\ Dt.fromtimestamp_ms (10 ^ 20) = Raise OSError
  /\ Dt.fromtimestamp_ms (10 ^ 22) = Raise OverflowError.
Proof. repeat split; vm_compute; reflexivity. Qed.

(** The start cursor of a clock at 2041-06-01T00:00:00.002Z less 1095
    days: the float product falls just short of the millisecond. *)
Example timestamp_ms_2038 : Dt.timestamp_ms 2159049600002000 = 2159049600001.
Proof. vm_compute. reflexivity. Qed.

Example sleep_refused :
  sleep (9300000000 # 1) = Raise OverflowError /\ sleep (-1 # 10) = Raise ValueError.
Proof. split; vm_compute; reflexivity. Qed.

(** A page that ends at 8615030400002 ms, read by a clock two hours and
    one microsecond later: the instant computed for the page is one
    microsecond late, which puts it within the near-now distance, and the
    loop ends after this page. *)
Example rounded_instant_ends_the_loop :
  fetch_ohlcv_full pandas_numpy
    (Environment (replay [Ok [row 8615030400002 1 2 1 2 10]; Ok page_b])
                 (fun _ => 8615037600002001))
    5 "1h" Config.SYMBOL Config.FETCH_LIMIT Config.SLEEP_SECONDS None world0
  = Some (Ok [bar 8615030400002000000 1 2 1 2 10], World ∅ [8520429600002] 2).
Proof. vm_compute. reflexivity. Qed.

(** *** C1 *)



(** The same run, evaluated. *)
Example two_pages_run :
  fetch_ohlcv_full pandas_stable (stub [Ok page_a; Ok page_b]) 5 "1h" Config.SYMBOL
                   Config.FETCH_LIMIT Config.SLEEP_SECONDS None world0
  = Some (Ok [bar 1699056000000000000 1 2 1 2 10; bar 1699059600000000000 2 3 2 3 11;
              bar 1699063200000000000 3 4 3 4 12; bar 1699066800000000000 4 5 4 5 13],
          World ∅ [SINCE0; 1699059600001; 1699066800001] 3).
Proof. vm_compute. reflexivity. Qed.

(** Without fuel for the last request the model has no answer. *)
Example two_pages_out_of_fuel :
  fetch_ohlcv_full pandas_stable (stub [Ok page_a; Ok page_b]) 2 "1h" Config.SYMBOL
                   Config.FETCH_LIMIT Config.SLEEP_SECONDS None world0
  = None.
Proof. vm_compute. reflexivity. Qed.

(** *** C2 *)

(** C2.  Wherever the pagination stands (after any sequence of pages that
    made it go on, by the loop's own guards: [serves]), if the exchange
    returns a non-empty page whose last timestamp plus one millisecond is
    not past the current cursor, [fetch_ohlcv_full] ends in that
    iteration, given more fuel than there were pages before: the request for this page is the last one sent, and
    when the page is well stamped the call returns the normalization of
    all rows received, this page included.  The loop cannot go on forever
    on such pages. *)
Theorem C2_stagnant_page_stops
    (pd : pandas) (env : environment) (fuel : nat) (timeframe symbol : string)
    (limit : Z) (sleep_seconds : Q) (w : world) (since delta : Z)
    (pages : list (list raw_row)) (page : list raw_row) (last_ms : Z) :
  fetch_setup env timeframe w = Ok (since, delta) ->
  serves env symbol timeframe limit sleep_seconds delta
         (length (requests w)) since (S (clock_reads w)) pages ->
  fetch_ohlcv env (length (requests w) + length pages) symbol timeframe
              (cursor_after since pages) limit = Ok page ->
  last_ts page = Some last_ms ->
  last_ms + 1 <= cursor_after since pages ->
  (length pages < fuel)%nat ->
  exists out,
    fetch_ohlcv_full pd env fuel timeframe symbol limit sleep_seconds None w
    = Some (out,
            World (files w)
                  (requests w ++ cursors since pages ++ [cursor_after since pages])%list
                  (S (clock_reads w) + length pages))
    /\ (stamped page last_ms -> out = _ohlcv_to_df pd (concat pages ++ page)).
Proof.
  intros Hsetup Hs Hpage Hlast Hle Hfuel.
  rewrite (fetch_ohlcv_full_miss _ _ _ _ _ _ _ None w _ _ eq_refl Hsetup).
  destruct (paginate_after_pages _ _ _ _ _ _ _ _ _ _ Hs Hfuel) as (w' & Hw' & Hlen & ->).
  rewrite <- Hlen in Hpage.
  assert (log_request (cursor_after since pages) w'
          = World (files w)
                  (requests w ++ cursors since pages ++ [cursor_after since pages])%list
                  (S (clock_reads w) + length pages)) as Hlog.
  { subst w'. unfold log_request. simpl. by rewrite <- app_assoc. }
  destruct (loop_body_not_advancing env symbol timeframe limit sleep_seconds delta
              _ (concat pages) _ _ _ Hpage Hlast Hle)
    as (out & Hbody & Hout).
  pose proof Hbody as Hbody'. rewrite Hbody.
  destruct Hout as [-> | [e ->]].
  - rewrite finish_no_cache, Hlog. eauto.
  - rewrite Hlog. eexists. split; [done|]. intros Hst.
    rewrite (loop_body_stagnant env symbol timeframe limit sleep_seconds delta
               _ (concat pages) _ _ _ Hpage Hst Hle) in Hbody'.
    congruence.
Qed.

Lemma C2_stagnant_witness :
  exists out,
    fetch_ohlcv_full pandas_stable (stub [Ok page_a; Ok page_a; Ok page_b]) 2 "1h"
                     Config.SYMBOL Config.FETCH_LIMIT Config.SLEEP_SECONDS None world0
    = Some (out, World ∅ ([] ++ cursors SINCE0 [page_a] ++ [cursor_after SINCE0 [page_a]])
                         (1 + length [page_a]))
    /\ (stamped page_a 1699059600000 ->
        out = _ohlcv_to_df pandas_stable (concat [page_a] ++ page_a)).
Proof.
  apply (C2_stagnant_page_stops pandas_stable (stub [Ok page_a; Ok page_a; Ok page_b]) 2
           "1h" Config.SYMBOL Config.FETCH_LIMIT Config.SLEEP_SECONDS world0
           SINCE0 (hours 2) [page_a] page_a 1699059600000).
  - vm_compute. reflexivity.
  - split; [reflexivity|]. exists 1699059600000. split; [solve_continuing|]. exact I.
  - reflexivity.
  - reflexivity.
  - vm_compute. discriminate.
  - simpl. lia.
Defined.

(** The same run, evaluated: the page served twice is requested twice and
    its rows are merged once. *)
Example stagnant_run :
  fetch_ohlcv_full pandas_stable (stub [Ok page_a; Ok page_a; Ok page_b]) 5 "1h"
                   Config.SYMBOL Config.FETCH_LIMIT Config.SLEEP_SECONDS None world0
  = Some (Ok [bar 1699056000000000000 1 2 1 2 10; bar 1699059600000000000 2 3 2 3 11],
          World ∅ [SINCE0; 1699059600001] 2).
Proof. vm_compute. reflexivity. Qed.

(** *** C3 *)



(** The same run, evaluated: the page ending one hour before now is the
    last one requested, although a further page was on offer. *)
Example near_now_run :
  fetch_ohlcv_full pandas_stable (stub [Ok page_a; Ok page_recent; Ok page_b]) 5 "1h"
                   Config.SYMBOL Config.FETCH_LIMIT Config.SLEEP_SECONDS None world0
  = Some (Ok [bar 1699056000000000000 1 2 1 2 10; bar 1699059600000000000 2 3 2 3 11;
              bar 1793656800000000000 5 6 5 6 14; bar 1793660400000000000 6 7 6 7 15],
          World ∅ [SINCE0; 1699059600001] 3).
Proof. vm_compute. reflexivity. Qed.

(** *** C7 *)

(** C7.  Wherever the pagination stands (after any sequence of pages that
    made the loop go on, by its own guards), if the exchange raises on a
    page request, [fetch_ohlcv_full] ends with that exception: the failing
    request is sent once and is the last one, no table is returned, the
    rows received before are lost with the call, and no file is written
    (the files are those found at the start). *)
Theorem C7_adapter_error_aborts
    (pd : pandas) (env : environment) (fuel : nat) (timeframe symbol : string)
    (limit : Z) (sleep_seconds : Q) (cache_path : option string) (w : world)
    (since delta : Z) (pages : list (list raw_row)) (e : exn) :
  cache_lookup cache_path w = None ->
  fetch_setup env timeframe w = Ok (since, delta) ->
  serves env symbol timeframe limit sleep_seconds delta
         (length (requests w)) since (S (clock_reads w)) pages ->
  fetch_ohlcv env (length (requests w) + length pages) symbol timeframe
              (cursor_after since pages) limit = Raise e ->
  (length pages < fuel)%nat ->
  fetch_ohlcv_full pd env fuel timeframe symbol limit sleep_seconds cache_path w
  = Some (Raise e,
          World (files w)
                (requests w ++ cursors since pages ++ [cursor_after since pages])%list
                (S (clock_reads w) + length pages)).
Proof.
  intros Hmiss Hsetup Hs Herr Hfuel.
  rewrite (fetch_ohlcv_full_miss _ _ _ _ _ _ _ _ _ _ _ Hmiss Hsetup).
  destruct (paginate_after_pages _ _ _ _ _ _ _ _ _ _ Hs Hfuel) as (w' & Hw' & Hlen & ->).
  rewrite (loop_body_error _ _ _ _ _ _ _ _ _ e) by (by rewrite Hlen).
  subst w'. unfold log_request. simpl. by rewrite <- app_assoc.
Qed.

Lemma C7_adapter_error_witness :
  fetch_ohlcv_full pandas_stable
                   (stub [Ok page_a; Raise (ExchangeError "timed out"); Ok page_b]) 2
                   "1h" Config.SYMBOL Config.FETCH_LIMIT Config.SLEEP_SECONDS
                   (Some "data/raw/btc_usdt_1h.csv") world0
  = Some (Raise (ExchangeError "timed out"), World ∅ [SINCE0; 1699059600001] 2).
Proof.
  apply (C7_adapter_error_aborts pandas_stable
           (stub [Ok page_a; Raise (ExchangeError "timed out"); Ok page_b]) 2
           "1h" Config.SYMBOL Config.FETCH_LIMIT Config.SLEEP_SECONDS
           (Some "data/raw/btc_usdt_1h.csv") world0 SINCE0 (hours 2) [page_a]).
  - reflexivity.
  - vm_compute. reflexivity.
  - split; [reflexivity|]. exists 1699059600000. split; [solve_continuing|]. exact I.
  - reflexivity.
  - simpl. lia.
Defined.

(** *** C8 *)

(** When the timestamps are read back as written, the text of the file
    reads as the table saved: the cache-hit branch then returns that
    table, sorted and deduplicated. *)
Lemma cache_load_reads_back (pd : pandas) (df : list candle) :
  Csv.to_datetime (Csv.l_timestamp <$> cache_save df) = Ok (timestamp <$> df) ->
  cache_load pd (cache_save df) = Ok (Pd.drop_duplicates (sort_values pd df)).
Proof.
  intros H. unfold cache_load. rewrite H. cbn [mbind result_bind]. do 3 f_equal.
  unfold cache_save, Csv.to_csv. clear H.
  induction df as [|c df IH]; [done|].
  rewrite !fmap_cons. cbn [zip_with]. rewrite IH. by destruct c.
Qed.

(** A table on whole seconds comes back as saved. *)
Example whole_second_table_reloads :
  cache_load pandas_numpy
    (cache_save [bar 1699056000000000000 1 2 1 2 10; bar 1699059600000000000 2 3 2 3 11])
  = Ok [bar 1699056000000000000 1 2 1 2 10; bar 1699059600000000000 2 3 2 3 11].
Proof. vm_compute. reflexivity. Qed.

(** C8 (the code at the failing input).  Two valid rows half a second
    apart give a table of two rows; saved to the cache, the first
    timestamp is written without a fraction of the second and the second
    with one; and reading the file back, which takes the format of the
    whole column from its first line, ends with [ValueError] under every
    sort instead of returning the table. *)
Theorem C8_saved_table_does_not_reload :
  exists T,
    _ohlcv_to_df pandas_numpy half_second_rows = Ok T
    /\ T = [bar 1699056000000000000 1 2 1 2 10; bar 1699056000500000000 2 3 2 3 11]
    /\ Csv.l_timestamp <$> cache_save T
       = ["2023-11-04 00:00:00+00:00"; "2023-11-04 00:00:00.500000+00:00"]
    /\ forall pd, cache_load pd (cache_save T) = Raise ValueError.
Proof.
  assert (Csv.to_datetime
            (Csv.l_timestamp
               <$> cache_save [bar 1699056000000000000 1 2 1 2 10;
                               bar 1699056000500000000 2 3 2 3 11])
          = Raise ValueError) as Hread by (vm_compute; reflexivity).
  eexists. split; [vm_compute; reflexivity|]. split; [reflexivity|].
  split; [vm_compute; reflexivity|].
  intros pd. unfold cache_load.
  change (bar 1699056000000000000 1 2 1 2 10)
    with (Candle 1699056000000000000 (Fin 1) (Fin 2) (Fin 1) (Fin 2) (Fin 10)) in Hread.
  change (bar 1699056000500000000 2 3 2 3 11)
    with (Candle 1699056000500000000 (Fin 2) (Fin 3) (Fin 2) (Fin 3) (Fin 11)) in Hread.
  by rewrite Hread.
Qed.

(** *** C10 *)

Lemma cache_lookup_path p w :
  p <> "" -> cache_lookup (Some p) w = files w !! p.
Proof. intros Hp. unfold cache_lookup. by destruct p. Qed.

Lemma finish_nil_bare_name pd p w :
  p <> "" -> Os.dirname p = "" ->
  finish pd (Some p) [] w = (Raise FileNotFoundError, w).
Proof.
  intros Hp Hd. unfold finish. rewrite ohlcv_to_df_nil, Hd.
  by destruct p.
Qed.

Lemma finish_nil_in_directory pd p w :
  p <> "" -> Os.dirname p <> "" ->
  finish pd (Some p) [] w = (Ok [], write_file p [] w).
Proof.
  intros Hp Hd. unfold finish. rewrite ohlcv_to_df_nil.
  destruct p; [done|]. by destruct (Os.dirname _).
Qed.

Example dirname_hourly_cache :
  Os.dirname (Config.RAW_DATA_DIR ++ "/" ++ "btc_usdt_1h.csv") = "data/raw".
Proof. reflexivity. Qed.

Example dirname_bare_name : Os.dirname "btc_usdt_1h.csv" = "".
Proof. reflexivity. Qed.

(** With a cache path inside a directory the empty result is stored, and
    every later call that finds the file returns the empty table without
    a request to the exchange. *)
Lemma empty_first_page_is_cached
    (pd : pandas) (env : environment) (fuel : nat) (timeframe symbol : string)
    (limit : Z) (sleep_seconds : Q) (p : string) (w : world) (since delta : Z) :
  p <> "" -> Os.dirname p <> "" ->
  files w !! p = None ->
  fetch_setup env timeframe w = Ok (since, delta) ->
  fetch_ohlcv env (length (requests w)) symbol timeframe since limit = Ok [] ->
  fetch_ohlcv_full pd env (S fuel) timeframe symbol limit sleep_seconds (Some p) w
  = Some (Ok [], World (<[p := []]> (files w)) (requests w ++ [since])%list
                       (S (clock_reads w)))
  /\ forall pd' env' fuel' timeframe' symbol' limit' sleep' w',
       files w' !! p = Some [] ->
       fetch_ohlcv_full pd' env' fuel' timeframe' symbol' limit' sleep' (Some p) w'
       = Some (Ok [], w').
Proof.
  intros Hp Hd Hnone Hsetup Hempty. split.
  - rewrite (fetch_ohlcv_full_miss _ _ _ _ _ _ _ _ _ _ _
               (eq_trans (cache_lookup_path _ _ Hp) Hnone) Hsetup).
    cbn [paginate]. rewrite loop_body_empty by done.
    by rewrite finish_nil_in_directory.
  - intros pd' env' fuel' tf' symbol' limit' sleep' w' Hfile.
    unfold fetch_ohlcv_full. rewrite (cache_lookup_path _ _ Hp), Hfile.
    pose proof (sort_values_perm pd' []) as H. apply Permutation_nil_r in H.
    by rewrite H.
Qed.

(** C10 (the code at the failing input).  When the first page is empty and
    the cache path is a bare file name, [os.path.dirname] is the empty
    string, [os.makedirs] refuses it, and [fetch_ohlcv_full] ends with
    [FileNotFoundError]: no table is returned and no file is written. *)
Theorem C10_bare_file_name_not_cached
    (pd : pandas) (env : environment) (fuel : nat) (timeframe symbol : string)
    (limit : Z) (sleep_seconds : Q) (p : string) (w : world) (since delta : Z) :
  p <> "" -> Os.dirname p = "" ->
  files w !! p = None ->
  fetch_setup env timeframe w = Ok (since, delta) ->
  fetch_ohlcv env (length (requests w)) symbol timeframe since limit = Ok [] ->
  fetch_ohlcv_full pd env (S fuel) timeframe symbol limit sleep_seconds (Some p) w
  = Some (Raise FileNotFoundError,
          World (files w) (requests w ++ [since])%list (S (clock_reads w))).
Proof.
  intros Hp Hd Hnone Hsetup Hempty.
  rewrite (fetch_ohlcv_full_miss _ _ _ _ _ _ _ _ _ _ _
             (eq_trans (cache_lookup_path _ _ Hp) Hnone) Hsetup).
  cbn [paginate]. rewrite loop_body_empty by done.
  by rewrite finish_nil_bare_name.
Qed.

Lemma C10_bare_file_name_witness :
  fetch_ohlcv_full pandas_stable (stub []) 1 "1h" Config.SYMBOL Config.FETCH_LIMIT
                   Config.SLEEP_SECONDS (Some "btc_usdt_1h.csv") world0
  = Some (Raise FileNotFoundError, World ∅ [SINCE0] 1).
Proof.
  apply (C10_bare_file_name_not_cached pandas_stable (stub []) 0 "1h" Config.SYMBOL
           Config.FETCH_LIMIT Config.SLEEP_SECONDS "btc_usdt_1h.csv" world0
           SINCE0 (hours 2)).
  - discriminate.
  - reflexivity.
  - reflexivity.
  - vm_compute. reflexivity.
  - reflexivity.
Defined.

(** The callers of the program pass a path inside [RAW_DATA_DIR]; there
    the empty result is stored and found again. *)
Example hourly_empty_result_cached :
  get_btc_hourly pandas_stable (stub []) 1 true world0
  = Some (Ok [], World {["data/raw/btc_usdt_1h.csv" := []]} [SINCE0] 1)
  /\ get_btc_hourly pandas_stable (stub [Ok page_a]) 5 true
       (World {["data/raw/btc_usdt_1h.csv" := []]} [SINCE0] 1)
     = Some (Ok [], World {["data/raw/btc_usdt_1h.csv" := []]} [SINCE0] 1).
Proof. split; vm_compute; reflexivity. Qed.

(** * Further properties *)

(** ** Tables in strictly increasing order *)

Lemma sorted_distinct_strict (df : list candle) :
  Sorted by_timestamp df -> NoDup (timestamp <$> df) -> StronglySorted earlier df.
Proof.
  intros Hs. apply Sorted.Sorted_StronglySorted in Hs; [|apply by_timestamp_transitive].
  induction Hs as [|r df Hs IH Hall]; intros Hnd; [constructor|].
  apply NoDup_cons in Hnd as [Hr Hnd]. constructor; [by apply IH|].
  rewrite Forall_forall in Hall |- *. intros c Hc.
  specialize (Hall c Hc). unfold by_timestamp, earlier in *.
  assert (timestamp r <> timestamp c).
  { intros Heq. apply Hr. rewrite Heq. by apply list_elem_of_fmap_2. }
  lia.
Qed.

Lemma drop_duplicates_seen_strict (seen : gset Z) (df : list candle) :
  StronglySorted earlier df ->
  (forall c, c ∈ df -> timestamp c ∉ seen) ->
  Pd.drop_duplicates_seen seen df = df.
Proof.
  intros Hs. revert seen. induction Hs as [|r df Hs IH Hall]; intros seen Hnew; [done|].
  simpl. rewrite decide_False by (apply Hnew; by constructor).
  f_equal. apply IH. intros c Hc.
  rewrite Forall_forall in Hall. specialize (Hall c Hc). unfold earlier in Hall.
  rewrite elem_of_union, elem_of_singleton. intros [Heq|Hin]; [lia|].
  by apply (Hnew c); [constructor|].
Qed.

Lemma drop_duplicates_strict (df : list candle) :
  StronglySorted earlier df -> Pd.drop_duplicates df = df.
Proof.
  intros Hs. apply drop_duplicates_seen_strict; [done|].
  intros c _. apply not_elem_of_empty.
Qed.

Lemma strict_tables_equal (df1 df2 : list candle) :
  StronglySorted earlier df1 -> StronglySorted earlier df2 ->
  Permutation df1 df2 -> df1 = df2.
Proof.
  apply StronglySorted_unique_strong.
  intros c1 c2 _ _. unfold earlier. lia.
Qed.

Lemma sort_values_strict (pd : pandas) (df : list candle) :
  NoDup (timestamp <$> df) -> StronglySorted earlier (sort_values pd df).
Proof.
  intros Hnd. apply sorted_distinct_strict; [apply sort_values_sorted|].
  by rewrite (sort_values_perm pd df).
Qed.

Lemma resort_identity (pd : pandas) (df : list candle) :
  StronglySorted earlier df -> Pd.drop_duplicates (sort_values pd df) = df.
Proof.
  intros Hs. pose proof (strictly_sorted_NoDup df Hs) as Hnd.
  pose proof (sort_values_strict pd df Hnd) as Hs'.
  rewrite drop_duplicates_strict by done.
  apply strict_tables_equal; [done..|apply sort_values_perm].
Qed.

(** X1.  The table returned by [_ohlcv_to_df] is left as it is by the
    [sort_values] and [drop_duplicates] that the cache-hit branch of
    [fetch_ohlcv_full] applies, whatever sort the library uses there. *)
Theorem X1_normalized_table_survives_resort
    (pd pd' : pandas) (ohlcv : list raw_row) (df : list candle) :
  _ohlcv_to_df pd ohlcv = Ok df ->
  Pd.drop_duplicates (sort_values pd' df) = df.
Proof.
  intros Hdf. apply resort_identity.
  rewrite (ohlcv_to_df_unfold _ _ _ Hdf).
  apply drop_duplicates_sorted, sort_values_sorted.
Qed.

Lemma X1_resort_witness :
  Pd.drop_duplicates
    (sort_values pandas_reversing
       [bar 3600000000000 1 1 1 1 1; bar 7200000000000 3 3 3 3 3])
  = [bar 3600000000000 1 1 1 1 1; bar 7200000000000 3 3 3 3 3].
Proof.
  apply (X1_normalized_table_survives_resort pandas_stable pandas_reversing sample_rows).
  vm_compute. reflexivity.
Defined.

(** ** The cache-hit branch *)

(** X2.  When the cache path names an existing file, [fetch_ohlcv_full]
    returns at once, whatever the exchange and the clock and even without
    fuel for a single iteration: nothing is requested, the clock is not
    read, no file is written.  The table returned has strictly increasing
    timestamps, every row of it is a row of the file, and every timestamp
    of the file is in it. *)
Theorem X2_cache_hit_is_offline
    (pd : pandas) (env : environment) (fuel : nat) (timeframe symbol : string)
    (limit : Z) (sleep_seconds : Q) (p : string) (w : world) (cached : list candle) :
  p <> "" ->
  files w !! p = Some cached ->
  exists df,
    fetch_ohlcv_full pd env fuel timeframe symbol limit sleep_seconds (Some p) w
    = Some (Ok df, w)
    /\ StronglySorted earlier df
    /\ (forall c, c ∈ df -> c ∈ cached)
    /\ (forall c, c ∈ cached -> exists c', c' ∈ df /\ timestamp c' = timestamp c).
Proof.
  intros Hp Hfile. eexists. split.
  { unfold fetch_ohlcv_full. by rewrite (cache_lookup_path _ _ Hp), Hfile. }
  split; [apply drop_duplicates_sorted, sort_values_sorted|]. split.
  - intros c Hc. by apply drop_duplicates_elem, sort_values_elem in Hc.
  - intros c Hc. apply drop_duplicates_covers. by apply sort_values_elem.
Qed.

Lemma X2_cache_hit_witness :
  exists df,
    fetch_ohlcv_full pandas_reversing (stub [Ok page_a]) 0 "1h" Config.SYMBOL
                     Config.FETCH_LIMIT Config.SLEEP_SECONDS
                     (Some "data/raw/btc_usdt_1h.csv")
                     (World {["data/raw/btc_usdt_1h.csv" :=
                                [bar 7 2 2 2 2 2; bar 5 1 1 1 1 1; bar 7 3 3 3 3 3]]} [] 0)
    = Some (Ok df,
            World {["data/raw/btc_usdt_1h.csv" :=
                      [bar 7 2 2 2 2 2; bar 5 1 1 1 1 1; bar 7 3 3 3 3 3]]} [] 0)
    /\ StronglySorted earlier df
    /\ (forall c, c ∈ df ->
                  c ∈ [bar 7 2 2 2 2 2; bar 5 1 1 1 1 1; bar 7 3 3 3 3 3])
    /\ (forall c, c ∈ [bar 7 2 2 2 2 2; bar 5 1 1 1 1 1; bar 7 3 3 3 3 3] ->
                  exists c', c' ∈ df /\ timestamp c' = timestamp c).
Proof.
  apply (X2_cache_hit_is_offline pandas_reversing (stub [Ok page_a]) 0 "1h" Config.SYMBOL
           Config.FETCH_LIMIT Config.SLEEP_SECONDS "data/raw/btc_usdt_1h.csv").
  - discriminate.
  - reflexivity.
Defined.

(** ** Timestamps outside the nanosecond range *)

Lemma convert_row_out_of_bounds pd r :
  ~ representable r -> convert_row pd r = Raise OutOfBoundsDatetime.
Proof.
  unfold representable, convert_row, Pd.to_datetime_entry, Pd.to_datetime_ms.
  destruct (raw_ts r) as [ms|]; [|done]. intros H. cbv zeta.
  destruct ((- Pd.MAX_NS <=? ms * Pd.NS_PER_MS) && (ms * Pd.NS_PER_MS <=? Pd.MAX_NS)) eqn:E;
    [|done].
  exfalso. apply H. apply andb_prop in E as [?%Z.leb_le ?%Z.leb_le]. lia.
Qed.

Lemma convert_rows_out_of_bounds pd ohlcv :
  Exists (fun r => ~ representable r) ohlcv ->
  convert_rows pd ohlcv = Raise OutOfBoundsDatetime.
Proof.
  induction ohlcv as [|r rs IH]; intros H; [by apply Exists_nil in H|].
  simpl. destruct (convert_row pd r) as [fr|e] eqn:Er.
  - apply Exists_cons in H as [H|H].
    + by rewrite convert_row_out_of_bounds in Er.
    + simpl. by rewrite IH.
  - simpl. unfold convert_row in Er.
    destruct (Pd.to_datetime_entry (raw_ts r)) as [?|e'] eqn:Et; simpl in Er; [done|].
    unfold Pd.to_datetime_entry, Pd.to_datetime_ms in Et.
    destruct (raw_ts r); [|done]. simpl in Et. case_match; simplify_eq/=. done.
Qed.

Lemma representable_dec (r : raw_row) : {representable r} + {~ representable r}.
Proof.
  unfold representable. destruct (raw_ts r) as [ms|]; [|by left].
  destruct (decide (- Pd.MAX_NS <= ms * Pd.NS_PER_MS <= Pd.MAX_NS)); [by left|by right].
Qed.

Lemma ohlcv_to_df_cases pd ohlcv :
  (Forall representable ohlcv
   /\ _ohlcv_to_df pd ohlcv
      = Ok (Pd.drop_duplicates (sort_values pd (valid_candles pd ohlcv))))
  \/ (Exists (fun r => ~ representable r) ohlcv
      /\ _ohlcv_to_df pd ohlcv = Raise OutOfBoundsDatetime).
Proof.
  destruct (Forall_Exists_dec representable (fun r => ~ representable r)
              representable_dec ohlcv) as [Hall|Hex].
  - left. split; [done|]. by apply ohlcv_to_df_representable.
  - right. split; [done|]. unfold _ohlcv_to_df.
    by rewrite convert_rows_out_of_bounds.
Qed.

(** ** The order of the input and the choice of the sort *)

Lemma clean_parser (pd1 pd2 : pandas) (r : raw_row) :
  (forall s, numeric_of_str pd1 s = numeric_of_str pd2 s) ->
  clean pd1 r = clean pd2 r.
Proof.
  intros Hparse.
  assert (forall x, Pd.to_numeric pd1 x = Pd.to_numeric pd2 x) as Hnum
    by (intros []; simpl; auto).
  unfold clean. destruct (raw_ts r); [|done]. simpl. by rewrite !Hnum.
Qed.

Lemma valid_candles_parser (pd1 pd2 : pandas) (ohlcv : list raw_row) :
  (forall s, numeric_of_str pd1 s = numeric_of_str pd2 s) ->
  valid_candles pd1 ohlcv = valid_candles pd2 ohlcv.
Proof.
  intros Hparse. unfold valid_candles.
  induction ohlcv as [|r rs IH]; [done|].
  cbn [omap list_omap]. change (list_omap _ _ ?f rs) with (omap f rs).
  by rewrite IH, (clean_parser pd1 pd2 r Hparse).
Qed.

(** X4.  When no two valid rows share a timestamp, the result of
    [_ohlcv_to_df], table or exception, depends neither on the order of
    the input rows nor on the sort algorithm of the library: rows that
    arrive out of order end up in the same table. *)
Theorem X4_normalizer_ignores_input_order
    (pd1 pd2 : pandas) (ohlcv1 ohlcv2 : list raw_row) :
  (forall s, numeric_of_str pd1 s = numeric_of_str pd2 s) ->
  Permutation ohlcv1 ohlcv2 ->
  NoDup (timestamp <$> valid_candles pd1 ohlcv1) ->
  _ohlcv_to_df pd1 ohlcv1 = _ohlcv_to_df pd2 ohlcv2.
Proof.
  intros Hparse Hperm Hnd.
  assert (Permutation (valid_candles pd1 ohlcv1) (valid_candles pd2 ohlcv2)) as Hv.
  { rewrite <- (valid_candles_parser pd1 pd2 ohlcv2 Hparse).
    unfold valid_candles. by rewrite Hperm. }
  assert (NoDup (timestamp <$> valid_candles pd2 ohlcv2)) as Hnd2 by by rewrite <- Hv.
  destruct (ohlcv_to_df_cases pd1 ohlcv1) as [[Hall ->]|[Hbad ->]].
  - rewrite ohlcv_to_df_representable by by rewrite <- Hperm.
    f_equal.
    rewrite !drop_duplicates_strict by by apply sort_values_strict.
    apply strict_tables_equal; [by apply sort_values_strict..|].
    by rewrite !sort_values_perm.
  - destruct (ohlcv_to_df_cases pd2 ohlcv2) as [[Hall _]|[_ ->]]; [|done].
    rewrite <- Hperm in Hall. apply Exists_exists in Hbad as (r & Hr & Hn).
    rewrite Forall_forall in Hall. exfalso. exact (Hn (Hall r Hr)).
Qed.

Lemma X4_input_order_witness :
  _ohlcv_to_df pandas_stable [row 7200000 3 3 3 3 3; row 3600000 1 1 1 1 1]
  = _ohlcv_to_df pandas_reversing [row 3600000 1 1 1 1 1; row 7200000 3 3 3 3 3].
Proof.
  apply (X4_normalizer_ignores_input_order pandas_stable pandas_reversing).
  - reflexivity.
  - apply perm_swap.
  - vm_compute. repeat constructor; rewrite ?elem_of_cons, ?elem_of_nil;
      intros H; repeat destruct H as [H|H]; try discriminate H; done.
Defined.

(** ** How many rows come back *)

Lemma length_valid_candles pd ohlcv :
  (length (valid_candles pd ohlcv) <= length ohlcv)%nat.
Proof.
  unfold valid_candles. induction ohlcv as [|r rs IH]; [done|].
  cbn [omap list_omap]. change (list_omap _ _ ?f rs) with (omap f rs).
  destruct (clean pd r); simpl; lia.
Qed.

(** X5.  The table returned by [_ohlcv_to_df] has one row for each
    distinct timestamp found among the valid rows, so never more rows than
    the input. *)
Theorem X5_one_row_per_distinct_timestamp
    (pd : pandas) (ohlcv : list raw_row) (df : list candle) :
  _ohlcv_to_df pd ohlcv = Ok df ->
  length df = size (list_to_set (timestamp <$> valid_candles pd ohlcv) : gset Z)
  /\ (length df <= length ohlcv)%nat.
Proof.
  intros Hdf. pose proof (ohlcv_to_df_unfold _ _ _ Hdf) as Heq.
  assert (StronglySorted earlier df) as Hs
    by (rewrite Heq; apply drop_duplicates_sorted, sort_values_sorted).
  pose proof (strictly_sorted_NoDup df Hs) as Hnd.
  assert (forall t, t ∈ timestamp <$> df <-> t ∈ timestamp <$> valid_candles pd ohlcv) as Hts.
  { intros t. rewrite !list_elem_of_fmap. split.
    - intros (c & -> & Hc). exists c. split; [done|].
      rewrite Heq in Hc. by apply drop_duplicates_elem, sort_values_elem in Hc.
    - intros (c & -> & Hc).
      destruct (drop_duplicates_covers (sort_values pd (valid_candles pd ohlcv)) c)
        as (c' & Hc' & Ht); [by apply sort_values_elem|].
      exists c'. by rewrite Heq. }
  split.
  - rewrite <- (length_fmap timestamp df), <- (size_list_to_set (C:=gset Z)) by done.
    f_equal. apply set_eq. intros t. by rewrite !elem_of_list_to_set.
  - etrans; [|apply length_valid_candles].
    rewrite <- (length_fmap timestamp df), <- (length_fmap timestamp (valid_candles _ _)).
    apply submseteq_length, NoDup_submseteq; [done|]. intros t. by rewrite Hts.
Qed.

Lemma X5_row_count_witness :
  length [bar 3600000000000 1 1 1 1 1; bar 7200000000000 3 3 3 3 3]
  = size (list_to_set (timestamp <$> valid_candles pandas_stable sample_rows) : gset Z)
  /\ (length [bar 3600000000000 1 1 1 1 1; bar 7200000000000 3 3 3 3 3]
      <= length sample_rows)%nat.
Proof.
  apply (X5_one_row_per_distinct_timestamp pandas_stable sample_rows).
  vm_compute. reflexivity.
Defined.

(** ** What every run of the loop satisfies *)

Section Runs.

Variable env : environment.
Variables (symbol timeframe : string) (limit : Z) (sleep_seconds : Q).
Variable near_now_delta : Z.

Local Abbreviation body := (loop_body env symbol timeframe limit sleep_seconds near_now_delta).
Local Abbreviation loop := (paginate env symbol timeframe limit sleep_seconds near_now_delta).
Local Abbreviation got := (received env symbol timeframe limit).

Lemma after_page_inv since first lst w out w' :
  after_page env sleep_seconds near_now_delta since first lst w = (out, w') ->
  files w' = files w /\ requests w' = requests w
  /\ (clock_reads w <= clock_reads w' <= S (clock_reads w))%nat
  /\ forall since', out = Ok (Continue since') ->
       exists last_ms last_dt,
         raw_ts lst = Some last_ms /\ Dt.fromtimestamp_ms last_ms = Ok last_dt
         /\ since' = last_ms + 1 /\ since < since'.
Proof.
  destruct (after_page_cases env sleep_seconds near_now_delta since first lst w)
    as [[e ->]|(first_ms & last_ms & first_dt & last_dt & Hf & Hl & Hr1 & Hr2)].
  { intros; simplify_eq. repeat split; try done; lia. }
  rewrite (after_page_stamped _ _ _ _ _ _ _ _ _ _ _ Hf Hl Hr1 Hr2).
  destruct (last_ms + 1 <=? since) eqn:Hadv;
    [intros; simplify_eq; repeat split; try done; lia|].
  apply Z.leb_gt in Hadv.
  destruct (Dt.sub (now env (clock_reads w)) near_now_delta) as [cutoff|e];
    [|intros; simplify_eq; simpl; repeat split; try done; lia].
  destruct (cutoff <=? last_dt);
    [intros; simplify_eq; simpl; repeat split; try done; lia|].
  destruct (sleep sleep_seconds);
    [|intros; simplify_eq; simpl; repeat split; try done; lia].
  intros; simplify_eq; simpl. repeat split; try done; try lia.
  intros since' ?; simplify_eq. eauto 10.
Qed.

(** One iteration: it logs its request and nothing else, reads the clock
    at most once, and what it passes on is what it held plus the page. *)
Lemma loop_body_inv since all_rows w out w' :
  body since all_rows w = (out, w') ->
  files w' = files w /\ requests w' = (requests w ++ [since])%list
  /\ (clock_reads w <= clock_reads w' <= S (clock_reads w))%nat
  /\ forall c rows, out = Ok (c, rows) ->
       exists page,
         fetch_ohlcv env (length (requests w)) symbol timeframe since limit = Ok page
         /\ rows = (all_rows ++ page)%list
         /\ forall since', c = Continue since' ->
              exists last_ms,
                since' = last_ms + 1 /\ since < since'
                /\ last_ts page = Some last_ms
                /\ is_Ok (Dt.fromtimestamp_ms last_ms).
Proof.
  unfold loop_body.
  destruct (fetch_ohlcv env (length (requests w)) symbol timeframe since limit)
    as [page|e] eqn:Hfetch;
    [|intros; simplify_eq; simpl; repeat split; try done; lia].
  destruct (head page) as [first|] eqn:Hh, (last page) as [lst|] eqn:Hl;
    try (intros; simplify_eq; simpl; repeat split; try done; try lia;
         intros c rows ?; simplify_eq; exists page; repeat split; try done;
         destruct page; [by rewrite app_nil_r|done]).
  2:{ intros; simplify_eq; simpl; repeat split; try done; try lia.
      intros c rows ?; simplify_eq. destruct page as [|? ?]; [done|].
      by rewrite last_cons in Hl; destruct (last page). }
  destruct (after_page env sleep_seconds near_now_delta since first lst
              (log_request since w)) as [r w2] eqn:Hafter.
  destruct (after_page_inv _ _ _ _ _ _ Hafter) as (Hf & Hq & Hc & Hcont).
  simpl in Hf, Hq, Hc.
  destruct r as [c|e]; intros; simplify_eq; (repeat split; try done; try lia).
  intros c' rows ?; simplify_eq. exists page. repeat split; try done.
  intros since' ->.
  destruct (Hcont since' eq_refl) as (last_ms & last_dt & Hlm & Hr2 & -> & Hlt).
  exists last_ms. split; [done|]. split; [done|]. split; [|by eexists].
  unfold last_ts. rewrite Hl. simpl. by rewrite Hlm.
Qed.

(** Every finished run of the loop. *)
Lemma paginate_trace fuel : forall since all_rows w out w',
  loop fuel since all_rows w = Some (out, w') ->
  files w' = files w
  /\ exists new,
       requests w' = (requests w ++ since :: new)%list
       /\ Sorted Z.lt (since :: new)
       /\ (length (since :: new) <= fuel)%nat
       /\ (clock_reads w <= clock_reads w' <= clock_reads w + length (since :: new))%nat
       /\ forall rows, out = Ok rows ->
            rows = (all_rows ++ concat (got (length (requests w)) (since :: new)))%list.
Proof.
  induction fuel as [|fuel IH]; intros since all_rows w out w' Hrun; [done|].
  cbn [paginate] in Hrun.
  destruct (body since all_rows w) as [r w1] eqn:Hbody.
  destruct (loop_body_inv _ _ _ _ _ Hbody) as (Hf & Hq & Hc & Hrows).
  destruct r as [[c rows]|e].
  - destruct (Hrows c rows eq_refl) as (page & Hfetch & -> & Hcont).
    destruct c as [since'|].
    + destruct (Hcont since' eq_refl) as (last_ms & -> & Hlt & _).
      destruct (IH _ _ _ _ _ Hrun) as (Hf' & new & Hq' & Hs & Hlen & Hc' & Hout).
      split; [congruence|]. exists (last_ms + 1 :: new).
      split; [by rewrite Hq', Hq, <- app_assoc|].
      split; [constructor; [done|by constructor]|].
      split; [simpl in *; lia|]. split; [simpl in *; lia|].
      intros rows' ->. rewrite (Hout _ eq_refl). cbn [received concat].
      rewrite Hfetch, Hq, length_app, Nat.add_1_r, <- app_assoc. done.
    + simplify_eq. split; [done|]. exists []. split; [done|].
      split; [repeat constructor|]. split; [simpl; lia|]. split; [simpl; lia|].
      intros rows' ?; simplify_eq. cbn [received concat]. by rewrite Hfetch, app_nil_r.
  - simplify_eq. split; [done|]. exists []. split; [done|].
    split; [repeat constructor|]. split; [simpl; lia|]. split; [simpl; lia|]. done.
Qed.

(** More fuel does not change a finished run. *)
Lemma paginate_more_fuel fuel : forall extra since all_rows w res,
  loop fuel since all_rows w = Some res ->
  loop (fuel + extra) since all_rows w = Some res.
Proof.
  induction fuel as [|fuel IH]; intros extra since all_rows w res Hrun; [done|].
  cbn [paginate Nat.add] in *.
  destruct (body since all_rows w) as [[[[since'|] rows]|e] w1]; try done.
  by apply IH.
Qed.

(** A timestamp [datetime.fromtimestamp] accepts has a float for its
    seconds. *)
Lemma fromtimestamp_ms_bounded ms :
  is_Ok (Dt.fromtimestamp_ms ms) -> Z.abs ms < Dt.MAX_DIVIDEND.
Proof.
  intros [d Hd]. unfold Dt.fromtimestamp_ms in Hd.
  destruct (Dt.MAX_DIVIDEND <=? Z.abs ms) eqn:E; [done|]. by apply Z.leb_gt in E.
Qed.

(** The loop ends within [iterations_bound] iterations after the current
    one, whatever the exchange returns and whatever the clock shows. *)
Lemma paginate_terminates fuel : forall since all_rows w,
  (iterations_bound since < fuel)%nat ->
  is_Some (loop fuel since all_rows w).
Proof.
  induction fuel as [|fuel IH]; intros since all_rows w Hfuel; [lia|].
  cbn [paginate].
  destruct (body since all_rows w) as [r w1] eqn:Hbody.
  destruct (loop_body_inv _ _ _ _ _ Hbody) as (_ & _ & _ & Hrows).
  destruct r as [[[since'|] rows]|e]; [|by eexists..].
  destruct (Hrows _ _ eq_refl) as (page & _ & _ & Hcont).
  destruct (Hcont since' eq_refl) as (last_ms & -> & Hlt & _ & Hstamp%fromtimestamp_ms_bounded).
  apply IH. unfold iterations_bound in *.
  generalize dependent Dt.MAX_DIVIDEND. intros. lia.
Qed.

End Runs.

(** ** What every call of [fetch_ohlcv_full] satisfies *)

Lemma finish_inv pd cache_path all_rows w out w' :
  finish pd cache_path all_rows w = (out, w') ->
  requests w' = requests w /\ clock_reads w' = clock_reads w
  /\ (forall e, out = Raise e -> w' = w)
  /\ (forall df, out = Ok df ->
        _ohlcv_to_df pd all_rows = Ok df
        /\ match cache_path with
           | None | Some EmptyString => w' = w
           | Some p => Os.dirname p <> "" /\ w' = write_file p df w
           end).
Proof.
  unfold finish. destruct (_ohlcv_to_df pd all_rows) as [df|e].
  2:{ intros; simplify_eq. repeat split; done. }
  destruct cache_path as [[|a p]|].
  1,3: (intros; simplify_eq; repeat split; try done; by intros ? [= ->]).
  destruct (Os.dirname (String a p)) eqn:Hd; simpl.
  - intros; simplify_eq. repeat split; done.
  - intros; simplify_eq. repeat split; try done; congruence.
Qed.

(** The ways a call can end. *)
Lemma fetch_ohlcv_full_inv pd env fuel timeframe symbol limit sleep_seconds
    cache_path w out w' :
  fetch_ohlcv_full pd env fuel timeframe symbol limit sleep_seconds cache_path w
  = Some (out, w') ->
  (exists cached, cache_lookup cache_path w = Some cached
                  /\ out = Ok (Pd.drop_duplicates (sort_values pd cached)) /\ w' = w)
  \/ (cache_lookup cache_path w = None
      /\ exists e, fetch_setup env timeframe w = Raise e /\ out = Raise e /\ w' = tick w)
  \/ (cache_lookup cache_path w = None
      /\ exists since delta res w2,
           fetch_setup env timeframe w = Ok (since, delta)
           /\ paginate env symbol timeframe limit sleep_seconds delta fuel since []
                       (tick w) = Some (res, w2)
           /\ match res with
              | Raise e => out = Raise e /\ w' = w2
              | Ok all_rows => finish pd cache_path all_rows w2 = (out, w')
              end).
Proof.
  unfold fetch_ohlcv_full.
  destruct (cache_lookup cache_path w) as [cached|] eqn:Hc.
  { intros; simplify_eq. left. eauto. }
  right. destruct (fetch_setup env timeframe w) as [[since delta]|e] eqn:Hs.
  2:{ intros; simplify_eq. left. eauto. }
  right. split; [done|].
  destruct (paginate _ _ _ _ _ _ _ _ _ _) as [[[rows|e] w2]|] eqn:Hp; [| |done].
  - exists since, delta, (Ok rows), w2. repeat split; try done. congruence.
  - simplify_eq. exists since, delta, (Raise e), w'. done.
Qed.

(** X6.  Every call of [fetch_ohlcv_full] that ends has sent at most one
    request per unit of fuel, at strictly increasing cursors, and has read
    the clock at most once more than it sent requests; on a cache hit it
    sent none. *)
Theorem X6_requests_at_increasing_cursors
    (pd : pandas) (env : environment) (fuel : nat) (timeframe symbol : string)
    (limit : Z) (sleep_seconds : Q) (cache_path : option string)
    (w w' : world) (out : result (list candle)) :
  fetch_ohlcv_full pd env fuel timeframe symbol limit sleep_seconds cache_path w
  = Some (out, w') ->
  exists new,
    requests w' = (requests w ++ new)%list
    /\ Sorted Z.lt new
    /\ (length new <= fuel)%nat
    /\ (clock_reads w <= clock_reads w' <= S (clock_reads w + length new))%nat
    /\ (is_Some (cache_lookup cache_path w) -> new = []).
Proof.
  intros [(cached & Hc & -> & ->)|[(Hc & e & Hs & -> & ->)|
           (Hc & since & delta & res & w2 & Hs & Hp & Hres)]]%fetch_ohlcv_full_inv.
  - exists []. rewrite app_nil_r. repeat split; try done; simpl; lia.
  - exists []. rewrite app_nil_r. repeat split; try done; simpl; lia.
  - destruct (paginate_trace _ _ _ _ _ _ _ _ _ _ _ _ Hp)
      as (Hf & new & Hq & Hsort & Hlen & Hclock & _).
    assert (requests w' = requests w2 /\ clock_reads w' = clock_reads w2) as [Hq' Hc'].
    { destruct res as [rows|e]; [|by destruct Hres as [_ ->]].
      by destruct (finish_inv _ _ _ _ _ _ Hres) as (? & ? & _). }
    exists (since :: new). simpl in *. rewrite Hq', Hc'.
    repeat split; try done; try lia.
    rewrite Hc. by intros [? ?].
Qed.

Lemma X6_requests_witness :
  exists new,
    [SINCE0; 1699059600001; 1699066800001] = ([] ++ new)%list
    /\ Sorted Z.lt new
    /\ (length new <= 5)%nat
    /\ (0 <= 3 <= S (0 + length new))%nat
    /\ (is_Some (cache_lookup None world0) -> new = []).
Proof.
  apply (X6_requests_at_increasing_cursors pandas_stable (stub [Ok page_a; Ok page_b]) 5
           "1h" Config.SYMBOL Config.FETCH_LIMIT Config.SLEEP_SECONDS None world0
           (World ∅ [SINCE0; 1699059600001; 1699066800001] 3)
           (Ok [bar 1699056000000000000 1 2 1 2 10; bar 1699059600000000000 2 3 2 3 11;
                bar 1699063200000000000 3 4 3 4 12; bar 1699066800000000000 4 5 4 5 13])).
  vm_compute. reflexivity.
Defined.

(** X7.  A table returned past the cache check is the normalization of
    everything the exchange returned to the requests of the call, page
    after page in the order of the requests: the loop drops nothing and
    adds nothing. *)
Theorem X7_table_is_normalized_trace
    (pd : pandas) (env : environment) (fuel : nat) (timeframe symbol : string)
    (limit : Z) (sleep_seconds : Q) (cache_path : option string)
    (w w' : world) (df : list candle) :
  cache_lookup cache_path w = None ->
  fetch_ohlcv_full pd env fuel timeframe symbol limit sleep_seconds cache_path w
  = Some (Ok df, w') ->
  exists new,
    requests w' = (requests w ++ new)%list
    /\ _ohlcv_to_df pd
         (concat (received env symbol timeframe limit (length (requests w)) new))
       = Ok df.
Proof.
  intros Hmiss [(cached & Hc & _)|[(_ & e & _ & ? & _)|
           (_ & since & delta & res & w2 & Hs & Hp & Hres)]]%fetch_ohlcv_full_inv;
    [congruence|done|].
  destruct (paginate_trace _ _ _ _ _ _ _ _ _ _ _ _ Hp)
    as (Hf & new & Hq & _ & _ & _ & Hrows).
  destruct res as [rows|e]; [|by destruct Hres].
  destruct (finish_inv _ _ _ _ _ _ Hres) as (Hq' & _ & _ & Hok).
  destruct (Hok df eq_refl) as [Hdf _].
  exists (since :: new). split; [by rewrite Hq'|].
  by rewrite (Hrows rows eq_refl) in Hdf.
Qed.

Lemma X7_trace_witness :
  exists new,
    [SINCE0; 1699059600001] = ([] ++ new)%list
    /\ _ohlcv_to_df pandas_stable
         (concat (received (stub [Ok page_a; Ok page_a; Ok page_b]) Config.SYMBOL "1h"
                           Config.FETCH_LIMIT (length (requests world0)) new))
       = Ok [bar 1699056000000000000 1 2 1 2 10; bar 1699059600000000000 2 3 2 3 11].
Proof.
  apply (X7_table_is_normalized_trace pandas_stable (stub [Ok page_a; Ok page_a; Ok page_b])
           5 "1h" Config.SYMBOL Config.FETCH_LIMIT Config.SLEEP_SECONDS None world0
           (World ∅ [SINCE0; 1699059600001] 2)).
  - reflexivity.
  - vm_compute. reflexivity.
Defined.

(** X8.  If no clock reading is later than some instant, every call of
    [fetch_ohlcv_full] ends, whatever the exchange returns and however
    often it returns pages: there is a number of iterations from which on
    the call gives one and the same result.  (Each page that lets the loop
    go on moves the cursor forward by a millisecond at least, and not
    beyond the timestamps that [datetime.fromtimestamp] accepts.) *)
Theorem X8_fetch_terminates_under_bounded_clock
    (pd : pandas) (env : environment) (timeframe symbol : string)
    (limit : Z) (sleep_seconds : Q) (cache_path : option string) (w : world)
    (latest : Z) :
  (forall k, now env k <= latest) ->
  exists enough res,
    forall fuel, (enough <= fuel)%nat ->
      fetch_ohlcv_full pd env fuel timeframe symbol limit sleep_seconds cache_path w
      = Some res.
Proof.
  intros Hclock. unfold fetch_ohlcv_full.
  destruct (cache_lookup cache_path w) as [cached|].
  { exists 0%nat. eexists. done. }
  destruct (fetch_setup env timeframe w) as [[since delta]|e].
  2:{ exists 0%nat. eexists. done. }
  set (enough := S (iterations_bound since)).
  destruct (paginate_terminates env symbol timeframe limit sleep_seconds delta
              enough since [] (tick w)) as [res Hres]; [unfold enough; lia|].
  exists enough.
  destruct res as [[rows|e] w2]; eexists; intros fuel Hfuel;
    (replace fuel with (enough + (fuel - enough))%nat by lia);
    rewrite (paginate_more_fuel _ _ _ _ _ _ _ _ _ _ _ _ Hres); done.
Qed.

Lemma X8_termination_witness :
  exists enough res,
    forall fuel, (enough <= fuel)%nat ->
      fetch_ohlcv_full pandas_stable (stub [Ok page_a; Ok page_b]) fuel "1h"
                       Config.SYMBOL Config.FETCH_LIMIT Config.SLEEP_SECONDS None world0
      = Some res.
Proof.
  apply (X8_fetch_terminates_under_bounded_clock pandas_stable
           (stub [Ok page_a; Ok page_b]) "1h" Config.SYMBOL Config.FETCH_LIMIT
           Config.SLEEP_SECONDS None world0 NOW).
  intros k. simpl. lia.
Defined.

(** What a call does to the files. *)
Lemma fetch_ohlcv_full_files
    (pd : pandas) (env : environment) (fuel : nat) (timeframe symbol : string)
    (limit : Z) (sleep_seconds : Q) (cache_path : option string)
    (w w' : world) (out : result (list candle)) :
  fetch_ohlcv_full pd env fuel timeframe symbol limit sleep_seconds cache_path w
  = Some (out, w') ->
  (forall q, cache_path <> Some q -> files w' !! q = files w !! q)
  /\ (forall e, out = Raise e -> files w' = files w)
  /\ (forall p df, cache_path = Some p -> p <> "" -> files w !! p = None ->
                   out = Ok df -> files w' !! p = Some df).
Proof.
  intros [(cached & Hc & -> & ->)|[(Hc & e & Hs & -> & ->)|
           (Hc & since & delta & res & w2 & Hs & Hp & Hres)]]%fetch_ohlcv_full_inv.
  - repeat split; try done. intros p df -> Hp Hnone _.
    rewrite (cache_lookup_path _ _ Hp) in Hc. congruence.
  - repeat split; done.
  - destruct (paginate_trace _ _ _ _ _ _ _ _ _ _ _ _ Hp) as (Hf & _).
    simpl in Hf. destruct res as [rows|e].
    2:{ destruct Hres as [-> ->]. rewrite Hf. repeat split; done. }
    destruct (finish_inv _ _ _ _ _ _ Hres) as (_ & _ & Herr & Hok).
    split; [|split].
    + intros q Hq. destruct out as [df|e]; [|by rewrite (Herr e eq_refl), Hf].
      destruct (Hok df eq_refl) as [_ Hw].
      destruct cache_path as [[|a p]|]; try (by rewrite Hw, Hf).
      destruct Hw as [_ ->]. simpl. rewrite lookup_insert_ne by congruence.
      by rewrite Hf.
    + intros e ->. by rewrite (Herr e eq_refl).
    + intros p df -> Hne Hnone ->. destruct (Hok df eq_refl) as [_ Hw].
      destruct p as [|a p]; [done|]. destruct Hw as [_ ->]. simpl.
      by rewrite lookup_insert_eq.
Qed.

(** X9.  [fetch_ohlcv_full] touches no file but the one at its cache path;
    a call that ends with an exception has written nothing; and a call
    that misses the cache and returns a table has stored exactly that
    table at the cache path. *)
Theorem X9_only_the_cache_file_is_written
    (pd : pandas) (env : environment) (fuel : nat) (timeframe symbol : string)
    (limit : Z) (sleep_seconds : Q) (cache_path : option string)
    (w w' : world) (out : result (list candle)) :
  fetch_ohlcv_full pd env fuel timeframe symbol limit sleep_seconds cache_path w
  = Some (out, w') ->
  (forall q, cache_path <> Some q -> files w' !! q = files w !! q)
  /\ (forall e, out = Raise e -> files w' = files w)
  /\ (forall p df, cache_path = Some p -> p <> "" -> files w !! p = None ->
                   out = Ok df -> files w' !! p = Some df).
Proof. apply fetch_ohlcv_full_files. Qed.

Lemma X9_cache_file_witness :
  (forall q, Some "data/raw/btc_usdt_1h.csv" <> Some q ->
             files (World {["data/raw/btc_usdt_1h.csv" := []]} [SINCE0] 1) !! q
             = files world0 !! q)
  /\ (forall e, Ok ([] : list candle) = Raise e ->
                files (World {["data/raw/btc_usdt_1h.csv" := []]} [SINCE0] 1)
                = files world0)
  /\ (forall p df, Some "data/raw/btc_usdt_1h.csv" = Some p -> p <> "" ->
                   files world0 !! p = None -> Ok [] = Ok df ->
                   files (World {["data/raw/btc_usdt_1h.csv" := []]} [SINCE0] 1) !! p
                   = Some df).
Proof.
  apply (X9_only_the_cache_file_is_written pandas_stable (stub []) 1 "1h" Config.SYMBOL
           Config.FETCH_LIMIT Config.SLEEP_SECONDS (Some "data/raw/btc_usdt_1h.csv")
           world0).
  vm_compute. reflexivity.
Defined.

(** ** Cache paths without a directory *)

Lemma upto_last_sep_bare p : bare_name p = true -> Os.upto_last_sep p = "".
Proof.
  unfold bare_name. induction p as [|c p IH]; [done|]. simpl.
  intros [Hc Hp]%andb_prop. rewrite (IH Hp).
  by destruct (Os.is_sep c).
Qed.

Lemma dirname_bare p : bare_name p = true -> Os.dirname p = "".
Proof. intros H. unfold Os.dirname. by rewrite upto_last_sep_bare. Qed.

(** X10.  A cache path without a path separator can never be filled: a
    call with such a path that finds no file always ends with an
    exception, and leaves the files as they were. *)
Theorem X10_bare_name_never_cached
    (pd : pandas) (env : environment) (fuel : nat) (timeframe symbol : string)
    (limit : Z) (sleep_seconds : Q) (p : string)
    (w w' : world) (out : result (list candle)) :
  p <> "" -> bare_name p = true -> files w !! p = None ->
  fetch_ohlcv_full pd env fuel timeframe symbol limit sleep_seconds (Some p) w
  = Some (out, w') ->
  (exists e, out = Raise e) /\ files w' = files w.
Proof.
  intros Hne Hbare Hnone Hrun.
  destruct (fetch_ohlcv_full_files _ _ _ _ _ _ _ _ _ _ _ Hrun) as (_ & Herr & _).
  assert (exists e, out = Raise e) as [e ->]; [|by eauto].
  apply fetch_ohlcv_full_inv in Hrun
    as [(cached & Hc & _)|[(_ & e & _ & -> & _)|
         (_ & since & delta & res & w2 & _ & _ & Hres)]]; [|by eauto|].
  { rewrite (cache_lookup_path _ _ Hne) in Hc. congruence. }
  destruct res as [rows|e]; [|destruct Hres as [-> _]; by eauto].
  destruct out as [df|e]; [|by eauto].
  destruct (finish_inv _ _ _ _ _ _ Hres) as (_ & _ & _ & Hok).
  destruct (Hok df eq_refl) as [_ Hw]. destruct p as [|a p]; [done|].
  destruct Hw as [Hd _]. by rewrite dirname_bare in Hd.
Qed.

Lemma X10_bare_name_witness :
  (exists e, Raise FileNotFoundError = Raise e :> result (list candle))
  /\ files (World ∅ [SINCE0; 1699059600001; 1699066800001] 3) = files world0.
Proof.
  apply (X10_bare_name_never_cached pandas_stable (stub [Ok page_a; Ok page_b]) 5 "1h"
           Config.SYMBOL Config.FETCH_LIMIT Config.SLEEP_SECONDS "btc_usdt_1h.csv"
           world0).
  - discriminate.
  - reflexivity.
  - reflexivity.
  - vm_compute. reflexivity.
Defined.

(** ** Pages and arguments the loop cannot use *)

Section Refusals.

Variable env : environment.
Variables (symbol timeframe : string) (limit : Z) (sleep_seconds : Q).
Variable near_now_delta : Z.

Local Abbreviation body := (loop_body env symbol timeframe limit sleep_seconds near_now_delta).

Lemma loop_body_missing_timestamp since all_rows w page :
  fetch_ohlcv env (length (requests w)) symbol timeframe since limit = Ok page ->
  page <> [] ->
  first_ts page = None
  \/ (exists first_ms, first_ts page = Some first_ms
                       /\ is_Ok (Dt.fromtimestamp_ms first_ms)
                       /\ last_ts page = None) ->
  body since all_rows w = (Raise TypeError, log_request since w).
Proof.
  intros Hfetch Hne Hmissing. unfold loop_body. rewrite Hfetch.
  destruct page as [|first rest]; [done|]. cbn [head].
  destruct (last (first :: rest)) as [lst|] eqn:Hl.
  2:{ by rewrite last_cons in Hl; destruct (last rest). }
  unfold after_page, ts_field, first_ts, last_ts in *.
  rewrite Hl in Hmissing. simpl in Hmissing.
  destruct Hmissing as [->|(first_ms & -> & [first_dt Hr] & ->)]; [done|].
  cbn [mbind result_bind]. rewrite Hr. done.
Qed.

Lemma loop_body_negative_sleep since all_rows w page last_ms :
  fetch_ohlcv env (length (requests w)) symbol timeframe since limit = Ok page ->
  stamped page last_ms -> since < last_ms + 1 ->
  far_from_now env near_now_delta (clock_reads w) last_ms ->
  (- MAX_PAUSE <= sleep_seconds)%Q -> (sleep_seconds < 0)%Q ->
  body since all_rows w = (Raise ValueError, tick (log_request since w)).
Proof.
  intros H (first & lst & first_ms & first_dt & last_dt' & Hh & Hl & Hf & Hm & Hr1 & Hr2)
           %stamped_head_last
         Hlt (last_dt & cutoff & Hdt & Hsub & Hcut) Hmin Hneg.
  unfold loop_body. rewrite H, Hh, Hl.
  rewrite (after_page_stamped _ _ _ _ _ _ _ _ _ _ _ Hf Hm Hr1 Hdt).
  rewrite (proj2 (Z.leb_gt _ _) Hlt). cbn [log_request clock_reads]. rewrite Hsub.
  rewrite (proj2 (Z.leb_gt _ _) Hcut).
  by rewrite (sleep_negative _ Hmin Hneg).
Qed.

End Refusals.

(** X11.  Wherever the pagination stands (after any sequence of pages
    that made the loop go on, by its own guards), a non-empty page whose
    first row has no timestamp, or whose last row has none while the
    first is an instant for [datetime.fromtimestamp], ends
    [fetch_ohlcv_full] with [TypeError]: that request is the last one,
    nothing is written, and the rows received before are lost with the
    call. *)
Theorem X11_page_without_timestamp_aborts
    (pd : pandas) (env : environment) (fuel : nat) (timeframe symbol : string)
    (limit : Z) (sleep_seconds : Q) (cache_path : option string) (w : world)
    (since delta : Z) (pages : list (list raw_row)) (page : list raw_row) :
  cache_lookup cache_path w = None ->
  fetch_setup env timeframe w = Ok (since, delta) ->
  serves env symbol timeframe limit sleep_seconds delta
         (length (requests w)) since (S (clock_reads w)) pages ->
  fetch_ohlcv env (length (requests w) + length pages) symbol timeframe
              (cursor_after since pages) limit = Ok page ->
  page <> [] ->
  first_ts page = None
  \/ (exists first_ms, first_ts page = Some first_ms
                       /\ is_Ok (Dt.fromtimestamp_ms first_ms)
                       /\ last_ts page = None) ->
  (length pages < fuel)%nat ->
  fetch_ohlcv_full pd env fuel timeframe symbol limit sleep_seconds cache_path w
  = Some (Raise TypeError,
          World (files w)
                (requests w ++ cursors since pages ++ [cursor_after since pages])%list
                (S (clock_reads w) + length pages)).
Proof.
  intros Hmiss Hsetup Hs Hpage Hne Hmissing Hfuel.
  rewrite (fetch_ohlcv_full_miss _ _ _ _ _ _ _ _ _ _ _ Hmiss Hsetup).
  destruct (paginate_after_pages _ _ _ _ _ _ _ _ _ _ Hs Hfuel) as (w' & Hw' & Hlen & ->).
  rewrite (loop_body_missing_timestamp _ _ _ _ _ _ _ _ _ page) by (by rewrite ?Hlen).
  subst w'. unfold log_request. simpl. by rewrite <- app_assoc.
Qed.

Lemma X11_missing_timestamp_witness :
  fetch_ohlcv_full pandas_stable
    (stub [Ok page_a;
           Ok [row 1699063200000 3 4 3 4 12;
               RawRow None (VInt 4) (VInt 5) (VInt 4) (VInt 5) (VInt 13)]])
    2 "1h" Config.SYMBOL Config.FETCH_LIMIT Config.SLEEP_SECONDS None world0
  = Some (Raise TypeError, World ∅ [SINCE0; 1699059600001] 2).
Proof.
  apply (X11_page_without_timestamp_aborts pandas_stable
           (stub [Ok page_a;
                  Ok [row 1699063200000 3 4 3 4 12;
                      RawRow None (VInt 4) (VInt 5) (VInt 4) (VInt 5) (VInt 13)]])
           2 "1h" Config.SYMBOL Config.FETCH_LIMIT Config.SLEEP_SECONDS None world0
           SINCE0 (hours 2) [page_a]
           [row 1699063200000 3 4 3 4 12;
            RawRow None (VInt 4) (VInt 5) (VInt 4) (VInt 5) (VInt 13)]).
  - reflexivity.
  - vm_compute. reflexivity.
  - split; [reflexivity|]. exists 1699059600000. split; [solve_continuing|]. exact I.
  - reflexivity.
  - discriminate.
  - right. exists 1699063200000.
    split; [reflexivity|]. split; [eexists; vm_compute; reflexivity|reflexivity].
  - simpl. lia.
Defined.

(** X12.  With a negative [sleep_seconds] (of at most a thousand million
    seconds) the first page that would let the loop go on, by the loop's
    own guards, ends [fetch_ohlcv_full] with [ValueError] instead, after
    one request and with nothing written; the pause is reached only
    between pages, so a first page that ends the loop is not affected. *)
Theorem X12_negative_sleep_aborts
    (pd : pandas) (env : environment) (fuel : nat) (timeframe symbol : string)
    (limit : Z) (sleep_seconds : Q) (cache_path : option string) (w : world)
    (since delta : Z) (page : list raw_row) (last_ms : Z) :
  cache_lookup cache_path w = None ->
  fetch_setup env timeframe w = Ok (since, delta) ->
  fetch_ohlcv env (length (requests w)) symbol timeframe since limit = Ok page ->
  stamped page last_ms -> since < last_ms + 1 ->
  far_from_now env delta (S (clock_reads w)) last_ms ->
  (- MAX_PAUSE <= sleep_seconds)%Q -> (sleep_seconds < 0)%Q ->
  fetch_ohlcv_full pd env (S fuel) timeframe symbol limit sleep_seconds cache_path w
  = Some (Raise ValueError,
          World (files w) (requests w ++ [since])%list (S (S (clock_reads w)))).
Proof.
  intros Hmiss Hsetup Hpage Hst Hlt Hfar Hmin Hneg.
  rewrite (fetch_ohlcv_full_miss _ _ _ _ _ _ _ _ _ _ _ Hmiss Hsetup).
  cbn [paginate].
  by rewrite (loop_body_negative_sleep _ _ _ _ _ _ _ _ _ page last_ms).
Qed.

Lemma X12_negative_sleep_witness :
  fetch_ohlcv_full pandas_stable (stub [Ok page_a; Ok page_b]) 1 "1h" Config.SYMBOL
                   Config.FETCH_LIMIT (-1 # 10) None world0
  = Some (Raise ValueError, World ∅ [SINCE0] 2).
Proof.
  apply (X12_negative_sleep_aborts pandas_stable (stub [Ok page_a; Ok page_b]) 0 "1h"
           Config.SYMBOL Config.FETCH_LIMIT (-1 # 10) None world0 SINCE0 (hours 2)
           page_a 1699059600000).
  - reflexivity.
  - vm_compute. reflexivity.
  - reflexivity.
  - solve_stamped.
  - vm_compute. reflexivity.
  - solve_far_from_now.
  - vm_compute. discriminate.
  - vm_compute. reflexivity.
Defined.

(** An empty first page ends the call before any pause. *)
Example negative_sleep_empty_first_page :
  fetch_ohlcv_full pandas_stable (stub []) 1 "1h" Config.SYMBOL Config.FETCH_LIMIT
                   (-1 # 10) None world0
  = Some (Ok [], World ∅ [SINCE0] 1).
Proof. vm_compute. reflexivity. Qed.

(** ** The near-now distance *)

Lemma timedelta_of_us_ok us d :
  Dt.timedelta_of_us us = Ok d ->
  d = us /\ us `div` Dt.US_PER_DAY <= Dt.MAX_DELTA_DAYS.
Proof.
  unfold Dt.timedelta_of_us. cbv zeta. case_match eqn:E; [|done].
  intros; simplify_eq. apply andb_prop in E as [_ ?%Z.leb_le]. done.
Qed.

Lemma timedelta_hours_ok h d :
  Dt.timedelta_hours h = Ok d -> d = hours h /\ h < 24000000000.
Proof.
  unfold Dt.timedelta_hours. intros [-> Hdays]%timedelta_of_us_ok. split; [done|].
  unfold Dt.MAX_DELTA_DAYS, Dt.US_PER_HOUR, Dt.US_PER_DAY, Dt.US_PER_SECOND in Hdays.
  Z.div_mod_to_equations. lia.
Qed.

Lemma timedelta_days_ok n d :
  Dt.timedelta_days n = Ok d -> d = hours (24 * n) /\ 24 * n < 24000000000.
Proof.
  unfold Dt.timedelta_days. intros [-> Hdays]%timedelta_of_us_ok.
  unfold hours, Dt.MAX_DELTA_DAYS, Dt.US_PER_HOUR, Dt.US_PER_DAY, Dt.US_PER_SECOND in *.
  split; [lia|]. Z.div_mod_to_equations. lia.
Qed.

(** X13.  Whatever the label, a distance returned by [_near_now_delta] is
    a whole number of hours, at least 2 and below 24000000000: the
    pagination never treats less than the last two hours as near now. *)
Theorem X13_near_now_delta_at_least_two_hours (timeframe : string) (d : Z) :
  _near_now_delta timeframe = Ok d ->
  exists h, d = hours h /\ 2 <= h < 24000000000.
Proof.
  unfold _near_now_delta. intros Hd.
  destruct (decide (timeframe = "1h")).
  { apply timedelta_hours_ok in Hd as [-> ?]. exists 2. split; [done|lia]. }
  destruct (decide (timeframe = "1d")).
  { apply timedelta_days_ok in Hd as [-> ?]. exists 24. split; [done|lia]. }
  destruct (PyStr.endswith timeframe "h" && PyStr.isdigit (PyStr.drop_last timeframe)).
  { destruct (PyStr.int _) as [v|]; [|done]. simpl in Hd.
    apply timedelta_hours_ok in Hd as [-> ?]. eexists. split; [done|]. lia. }
  destruct (PyStr.endswith timeframe "d" && PyStr.isdigit (PyStr.drop_last timeframe)).
  { destruct (PyStr.int _) as [v|]; [|done]. simpl in Hd.
    apply timedelta_days_ok in Hd as [-> ?]. eexists. split; [done|]. lia. }
  apply timedelta_hours_ok in Hd as [-> ?]. exists 2. split; [done|lia].
Qed.

Lemma X13_near_now_delta_witness :
  exists h, hours 14 = hours h /\ 2 <= h < 24000000000.
Proof.
  apply (X13_near_now_delta_at_least_two_hours "007h" (hours 14)).
  vm_compute. reflexivity.
Defined.

(** ** The entry point *)

(** X15.  When both cache files exist, [main] needs neither the exchange
    nor the clock: it returns the two cached tables, each sorted and
    deduplicated, and leaves everything as it was, for any fuel. *)
Theorem X15_main_with_both_caches_is_offline
    (pd : pandas) (env : environment) (fuel : nat) (w : world)
    (hourly daily : list candle) :
  files w !! "data/raw/btc_usdt_1h.csv" = Some hourly ->
  files w !! "data/raw/btc_usdt_1d.csv" = Some daily ->
  main pd env fuel w
  = Some (Ok (Pd.drop_duplicates (sort_values pd hourly),
              Pd.drop_duplicates (sort_values pd daily)), w).
Proof.
  intros Hh Hd. unfold main, get_btc_hourly, get_btc_daily, fetch_ohlcv_full.
  change (Config.RAW_DATA_DIR ++ "/" ++ "btc_usdt_1h.csv")%string
    with "data/raw/btc_usdt_1h.csv".
  change (Config.RAW_DATA_DIR ++ "/" ++ "btc_usdt_1d.csv")%string
    with "data/raw/btc_usdt_1d.csv".
  rewrite cache_lookup_path, Hh by done. cbn iota beta.
  by rewrite cache_lookup_path, Hd by done.
Qed.

Lemma X15_main_offline_witness :
  main pandas_stable (stub []) 0
       (World (<["data/raw/btc_usdt_1h.csv" := [bar 7 2 2 2 2 2; bar 5 1 1 1 1 1]]>
                 {["data/raw/btc_usdt_1d.csv" := [bar 9 3 3 3 3 3]]}) [] 0)
  = Some (Ok (Pd.drop_duplicates
                (sort_values pandas_stable [bar 7 2 2 2 2 2; bar 5 1 1 1 1 1]),
              Pd.drop_duplicates (sort_values pandas_stable [bar 9 3 3 3 3 3])),
          World (<["data/raw/btc_usdt_1h.csv" := [bar 7 2 2 2 2 2; bar 5 1 1 1 1 1]]>
                   {["data/raw/btc_usdt_1d.csv" := [bar 9 3 3 3 3 3]]}) [] 0).
Proof.
  apply (X15_main_with_both_caches_is_offline pandas_stable (stub []) 0).
  - reflexivity.
  - reflexivity.
Defined.

(** X16.  [main] leaves every file other than its two cache files as it
    found it, however its two fetches end. *)
Theorem X16_main_touches_only_its_cache_files
    (pd : pandas) (env : environment) (fuel : nat) (w w' : world)
    (out : result (list candle * list candle)) (q : string) :
  main pd env fuel w = Some (out, w') ->
  q <> "data/raw/btc_usdt_1h.csv" -> q <> "data/raw/btc_usdt_1d.csv" ->
  files w' !! q = files w !! q.
Proof.
  unfold main, get_btc_hourly, get_btc_daily.
  change (Config.RAW_DATA_DIR ++ "/" ++ "btc_usdt_1h.csv")%string
    with "data/raw/btc_usdt_1h.csv".
  change (Config.RAW_DATA_DIR ++ "/" ++ "btc_usdt_1d.csv")%string
    with "data/raw/btc_usdt_1d.csv".
  intros Hmain Hq1 Hq2.
  destruct (fetch_ohlcv_full pd env fuel "1h" _ _ _ _ w) as [[r1 w1]|] eqn:H1; [|done].
  destruct (fetch_ohlcv_full_files _ _ _ _ _ _ _ _ _ _ _ H1) as (Hf1 & _).
  assert (files w1 !! q = files w !! q) as E1 by (apply Hf1; congruence).
  destruct r1 as [hourly|e]; [|by simplify_eq].
  destruct (fetch_ohlcv_full pd env fuel "1d" _ _ _ _ w1) as [[r2 w2]|] eqn:H2; [|done].
  destruct (fetch_ohlcv_full_files _ _ _ _ _ _ _ _ _ _ _ H2) as (Hf2 & _).
  assert (files w2 !! q = files w1 !! q) as E2 by (apply Hf2; congruence).
  destruct r2; simplify_eq; congruence.
Qed.

Lemma X16_main_files_witness :
  files (World (<["data/raw/btc_usdt_1d.csv" := []]>
                  (<["data/raw/btc_usdt_1h.csv" := []]> {["notes.txt" := [bar 1 1 1 1 1 1]]}))
               [SINCE0; SINCE0] 2) !! "notes.txt"
  = files (World {["notes.txt" := [bar 1 1 1 1 1 1]]} [] 0) !! "notes.txt".
Proof.
  apply (X16_main_touches_only_its_cache_files pandas_stable (stub []) 1
           (World {["notes.txt" := [bar 1 1 1 1 1 1]]} [] 0)
           (World (<["data/raw/btc_usdt_1d.csv" := []]>
                     (<["data/raw/btc_usdt_1h.csv" := []]>
                        {["notes.txt" := [bar 1 1 1 1 1 1]]}))
                  [SINCE0; SINCE0] 2)
           (Ok ([], []))).
  - vm_compute. reflexivity.
  - discriminate.
  - discriminate.
Defined.

(** X17.  With a cache path inside a directory and no file there yet, a
    call whose first page is empty stores the empty table and returns it;
    any later call that finds that file returns the empty table again and
    asks the exchange nothing. *)
Theorem X17_empty_result_is_cached
    (pd : pandas) (env : environment) (fuel : nat) (timeframe symbol : string)
    (limit : Z) (sleep_seconds : Q) (p : string) (w : world) (since delta : Z) :
  p <> "" -> Os.dirname p <> "" ->
  files w !! p = None ->
  fetch_setup env timeframe w = Ok (since, delta) ->
  fetch_ohlcv env (length (requests w)) symbol timeframe since limit = Ok [] ->
  exists w1,
    fetch_ohlcv_full pd env (S fuel) timeframe symbol limit sleep_seconds (Some p) w
    = Some (Ok [], w1)
    /\ files w1 = <[p := []]> (files w)
    /\ requests w1 = (requests w ++ [since])%list
    /\ forall pd' env' fuel' timeframe' symbol' limit' sleep',
         fetch_ohlcv_full pd' env' fuel' timeframe' symbol' limit' sleep' (Some p) w1
         = Some (Ok [], w1).
Proof.
  intros Hp Hd Hnone Hsetup Hempty. eexists. split; [|split; [|split]].
  - rewrite (fetch_ohlcv_full_miss _ _ _ _ _ _ _ _ _ _ _
               (eq_trans (cache_lookup_path _ _ Hp) Hnone) Hsetup).
    cbn [paginate]. rewrite loop_body_empty by done.
    by rewrite finish_nil_in_directory.
  - done.
  - done.
  - intros pd' env' fuel' tf' symbol' limit' sleep'.
    unfold fetch_ohlcv_full. rewrite (cache_lookup_path _ _ Hp). simpl.
    rewrite lookup_insert_eq.
    pose proof (sort_values_perm pd' []) as H. apply Permutation_nil_r in H.
    by rewrite H.
Qed.

Lemma X17_empty_result_witness :
  exists w1,
    fetch_ohlcv_full pandas_stable (stub []) 1 "1h" Config.SYMBOL Config.FETCH_LIMIT
                     Config.SLEEP_SECONDS (Some "data/raw/btc_usdt_1h.csv") world0
    = Some (Ok [], w1)
    /\ files w1 = <["data/raw/btc_usdt_1h.csv" := []]> (files world0)
    /\ requests w1 = (requests world0 ++ [SINCE0])%list
    /\ forall pd' env' fuel' timeframe' symbol' limit' sleep',
         fetch_ohlcv_full pd' env' fuel' timeframe' symbol' limit' sleep'
                          (Some "data/raw/btc_usdt_1h.csv") w1
         = Some (Ok [], w1).
Proof.
  apply (X17_empty_result_is_cached pandas_stable (stub []) 0 "1h" Config.SYMBOL
           Config.FETCH_LIMIT Config.SLEEP_SECONDS "data/raw/btc_usdt_1h.csv" world0
           SINCE0 (hours 2)).
  - discriminate.
  - vm_compute. discriminate.
  - reflexivity.
  - vm_compute. reflexivity.
  - reflexivity.
Defined.
